(** * Assignment/progress synchronisation of the classroom application (app.py)

    A shallow embedding of the request handlers of [app.py] that write or
    read the tables [users], [classroom_students], [assignments],
    [assignment_submissions], [progress] and [stream_posts], and the
    properties of the synchronisation subsystem proved over it.

    Conventions of the embedding:
    - a table is the list of its rows in rowid order; an AUTOINCREMENT key
      that some statement reads back is kept together with its sequence
      counter (the [sqlite_sequence] entry of the table);
    - a TEXT column compared only with literals written by the program
      ([status], [kind], [audience]) is an enumeration; other TEXT columns
      are strings;
    - an ISO timestamp is an integer (the order of the strings is the order of
      the instants), a calendar date is its day number, and
      [date - timedelta(days=1)] is the predecessor;
    - [now_ts()] reads a clock: a handler receives the clock of its request as
      a function from the number of readings made so far to the instant
      returned, and threads that number through its statements;
    - a handler returns the database it leaves behind and its response; an
      exception that escapes the handler is the response [raised]. *)

From Stdlib Require Import ZArith List Bool String Ascii Lia Permutation Sorted.
From Stdlib Require Import DecimalString.
From Stdlib Require Import Floats.SpecFloat.
Import ListNotations.
Open Scope string_scope.
Open Scope Z_scope.
Open Scope list_scope.

Set Implicit Arguments.

(** ** Rows of the tables *)

Inductive sub_status := assigned | completed.
Inductive post_kind := kind_assignment | kind_announcement | kind_grade.
Inductive post_audience := audience_class | audience_student.

Record user := {
  u_id : Z;
  u_name : string;
  u_role : string;
  streak_count : Z;
  last_active_date : option Z
}.

Record classroom := {
  c_id : Z;
  c_teacher_id : Z;
  c_name : string;
  c_code : string
}.

Record classroom_student := {
  cs_classroom_id : Z;
  cs_student_id : Z;
  cs_joined_at : Z
}.

Record assignment := {
  a_id : Z;
  a_classroom_id : Z;
  a_lesson_id : Z;
  a_lesson_lang : string;
  a_due_date : option string;
  a_comment : string;
  a_created_at : Z
}.

Record submission := {
  s_id : Z;
  s_assignment_id : Z;
  s_student_id : Z;
  s_status : sub_status;
  s_completed_at : option Z;
  s_score : option Z;
  s_grade_out_of_10 : option Z
}.

Record progress_row := {
  p_student_id : Z;
  p_lesson_id : Z;
  p_lesson_lang : string;
  p_completed_at : Z;
  p_score : Z;
  p_xp : Z
}.

Record notification := {
  n_user_id : Z;
  n_title : string;
  n_body : string;
  n_classroom_id : option Z;
  n_is_read : bool;
  n_created_at : Z
}.

Record stream_post := {
  sp_classroom_id : Z;
  sp_author_id : Z;
  sp_kind : post_kind;
  sp_title : string;
  sp_body : string;
  sp_audience : post_audience;
  sp_student_id : option Z;
  sp_created_at : Z
}.

(** The database file. [seq_assignments] and [seq_submissions] are the
    largest keys handed out so far by the two AUTOINCREMENT columns. *)
Record db := {
  users : list user;
  classrooms : list classroom;
  classroom_students : list classroom_student;
  assignments : list assignment;
  seq_assignments : Z;
  assignment_submissions : list submission;
  seq_submissions : Z;
  progress : list progress_row;
  notifications : list notification;
  stream_posts : list stream_post
}.

Definition empty_db : db :=
  {| users := []; classrooms := []; classroom_students := [];
     assignments := []; seq_assignments := 0;
     assignment_submissions := []; seq_submissions := 0;
     progress := []; notifications := []; stream_posts := [] |}.

(** ** Session, clock, responses *)

Record session := {
  sess_user_id : option Z;
  sess_role : option string
}.

Definition clock := nat -> Z.

Inductive exn :=
  ZeroDivisionError | TypeError | ValueError | OverflowError | IntegrityError.

(** What the quiz page shows: the [quiz_result] dictionary of [grade_quiz]. *)
Record quiz_result := {
  qr_score : Z;
  qr_passed : bool;
  qr_passing_score : Z;
  qr_assignment_completed : bool
}.

(** A row of the assignment list of the student page: the assignment, the
    columns of the LEFT JOIN on its submission, and the classroom name. *)
Record assignment_view := {
  av_assignment : assignment;
  av_status : option sub_status;
  av_score : option Z;
  av_grade_out_of_10 : option Z;
  av_classroom_name : string
}.

(** A row of the stream queries: the post with the two joined names. *)
Record feed_row := {
  fr_post : stream_post;
  fr_author_name : string;
  fr_classroom_name : string
}.

Inductive response :=
| redirect (endpoint : string) (flashed : option string)
| render_quiz (r : quiz_result)
| render_classroom (joined : list classroom) (views : list assignment_view)
    (stream_items : list feed_row)
| raised (e : exn).

(** [require_login] and [require_role]: [None] when the guard lets the
    request through. *)
Definition require_login (s : session) : option response :=
  match sess_user_id s with
  | None => Some (redirect "login" None)
  | Some _ => None
  end.

Definition role_is (s : session) (role : string) : bool :=
  match sess_role s with
  | Some r => String.eqb r role
  | None => false
  end.

Definition require_role (s : session) (role : string) : option response :=
  if role_is s role then None else Some (redirect "login" None).

(** ** Streak Tracker: [update_streak] *)

Definition find_user (d : db) (user_id : Z) : option user :=
  find (fun u => u_id u =? user_id) (users d).

Definition opt_date_eqb (a : option Z) (b : Z) : bool :=
  match a with
  | Some x => x =? b
  | None => false
  end.

Definition new_streak (u : user) (today : Z) : Z :=
  if opt_date_eqb (last_active_date u) today then streak_count u
  else if opt_date_eqb (last_active_date u) (today - 1) then streak_count u + 1
  else 1.

Definition set_streak (new : Z) (today : Z) (u : user) : user :=
  {| u_id := u_id u; u_name := u_name u; u_role := u_role u;
     streak_count := new; last_active_date := Some today |}.

Definition with_users (d : db) (us : list user) : db :=
  {| users := us; classrooms := classrooms d;
     classroom_students := classroom_students d;
     assignments := assignments d; seq_assignments := seq_assignments d;
     assignment_submissions := assignment_submissions d;
     seq_submissions := seq_submissions d;
     progress := progress d; notifications := notifications d;
     stream_posts := stream_posts d |}.

(** [update_streak(user_id)] on the day [today]. The row of the user is
    subscripted without a test, so a missing user raises [TypeError]. *)
Definition update_streak (today : Z) (user_id : Z) (d : db) : db + exn :=
  match find_user d user_id with
  | None => inr TypeError
  | Some row =>
      let n := new_streak row today in
      inl (with_users d
             (map (fun u => if u_id u =? user_id then set_streak n today u else u)
                  (users d)))
  end.

(** The streak counts read back after each of a sequence of completion days. *)
Fixpoint streak_counts (user_id : Z) (days : list Z) (d : db) : list (option Z) :=
  match days with
  | [] => []
  | today :: rest =>
      match update_streak today user_id d with
      | inl d' =>
          option_map streak_count (find_user d' user_id)
            :: streak_counts user_id rest d'
      | inr _ => [None]
      end
  end.

(** ** Strings of the Python runtime (ASCII)

    The handlers call [str.strip], [str.upper], [str.split] and [int] on form
    fields; these are their behaviours on ASCII text. *)

(** White space for [str.strip]: tab to carriage return, the four
    separators FS, GS, RS, US, and the space. *)
Definition is_space (c : ascii) : bool :=
  let n := nat_of_ascii c in
  (Nat.leb 9 n && Nat.leb n 13) || (Nat.leb 28 n && Nat.leb n 31) || Nat.eqb n 32.

(** White space skipped by [int] around a literal: tab to carriage return
    and the space. *)
Definition is_int_space (c : ascii) : bool :=
  let n := nat_of_ascii c in
  (Nat.leb 9 n && Nat.leb n 13) || Nat.eqb n 32.

Definition is_digit (c : ascii) : bool :=
  let n := nat_of_ascii c in
  Nat.leb 48 n && Nat.leb n 57.

Definition digit_val (c : ascii) : Z := Z.of_nat (nat_of_ascii c) - 48.

Definition upper_char (c : ascii) : ascii :=
  let n := nat_of_ascii c in
  if Nat.leb 97 n && Nat.leb n 122 then ascii_of_nat (n - 32) else c.

Fixpoint upper (s : string) : string :=
  match s with
  | EmptyString => EmptyString
  | String c r => String (upper_char c) (upper r)
  end.

Fixpoint lstrip (sp : ascii -> bool) (s : string) : string :=
  match s with
  | EmptyString => EmptyString
  | String c r => if sp c then lstrip sp r else s
  end.

(** Drops the trailing white space: a suffix of spaces vanishes. *)
Fixpoint rstrip (sp : ascii -> bool) (s : string) : string :=
  match s with
  | EmptyString => EmptyString
  | String c r =>
      match rstrip sp r with
      | EmptyString => if sp c then EmptyString else String c EmptyString
      | r' => String c r'
      end
  end.

Definition strip (s : string) : string := rstrip is_space (lstrip is_space s).

(** The digits of a decimal literal; one underscore may separate two digits.
    [after_digit] tells whether the previous character was a digit, [acc] is
    the value read so far. *)
Fixpoint int_digits (s : string) (after_digit : bool) (acc : Z) : option Z :=
  match s with
  | EmptyString => if after_digit then Some acc else None
  | String c r =>
      if is_digit c then int_digits r true (10 * acc + digit_val c)
      else if Ascii.eqb c "_"%char then
        if after_digit then int_digits r false acc else None
      else None
  end.

(** [int(s)] for a string: [None] stands for [ValueError]. *)
Definition int_of_str (s : string) : option Z :=
  match rstrip is_int_space (lstrip is_int_space s) with
  | String "-"%char r => option_map Z.opp (int_digits r false 0)
  | String "+"%char r => int_digits r false 0
  | r => int_digits r false 0
  end.

(** [int(request.form.get(...))]: a missing field is [None], on which [int]
    raises [TypeError]; both exceptions are caught by the same clause. *)
Definition int_of_field (v : option string) : option Z :=
  match v with
  | None => None
  | Some s => int_of_str s
  end.

(** [s.split(":")]. *)
Fixpoint split_colon (s : string) : list string :=
  match s with
  | EmptyString => [EmptyString]
  | String c r =>
      if Ascii.eqb c ":"%char then EmptyString :: split_colon r
      else match split_colon r with
           | [] => [String c EmptyString]
           | h :: t => String c h :: t
           end
  end.

(** ** Lesson content ([data/lessons.json]) *)

Record question := {
  q_question : string;
  q_choices : list string;
  q_answer : string
}.

Record lesson := {
  l_id : Z;
  l_quiz : list question;
  l_xp : option Z
}.

Record language := {
  lang_id : string;
  lang_lessons : list lesson
}.

Definition get_language (data : list language) (id : string) : option language :=
  find (fun l => String.eqb (lang_id l) id) data.

Definition get_lesson (data : list language) (id : string) (lesson_id : Z)
  : option lesson :=
  match get_language data id with
  | None => None
  | Some lang => find (fun l => l_id l =? lesson_id) (lang_lessons lang)
  end.

(** ** Quiz score: [int((correct_count / total) * 100)]

    [/] on two integers is the division of binary64 floats, [* 100] their
    product, [int] the truncation towards zero. The operations are those of
    IEEE 754 with 53 bits of precision, rounding to nearest even. *)

Definition prec : Z := 53.
Definition emax : Z := 1024.

Definition float_of_int (n : Z) : spec_float :=
  binary_normalize prec emax n 0 false.

(** [int(x)]: truncation; it raises on an infinity and on a NaN. *)
Definition int_of_float (x : spec_float) : Z + exn :=
  match x with
  | S754_zero _ => inl 0
  | S754_finite s m e =>
      let a := match e with
               | Z0 => Zpos m
               | Zpos p => Z.shiftl (Zpos m) (Zpos p)
               | Zneg p => Z.shiftr (Zpos m) (Zpos p)
               end in
      inl (if s then - a else a)
  | S754_infinity _ => inr OverflowError
  | S754_nan => inr ValueError
  end.

(** The division raises [ZeroDivisionError] on a zero divisor. *)
Definition quiz_score (correct_count total : Z) : Z + exn :=
  if total =? 0 then inr ZeroDivisionError
  else
    int_of_float
      (SFmul prec emax
         (SFdiv prec emax (float_of_int correct_count) (float_of_int total))
         (float_of_int 100)).

(** The answers of the form: field [q<idx>] of the request. *)
Definition answers := nat -> option string.

Definition is_correct (user_answer : option string) (q : question) : bool :=
  match user_answer with
  | Some a => String.eqb a (q_answer q)
  | None => false
  end.

Fixpoint count_correct (form : answers) (idx : nat) (quiz : list question) : Z :=
  match quiz with
  | [] => 0
  | q :: rest =>
      (if is_correct (form idx) q then 1 else 0) + count_correct form (S idx) rest
  end.

(** ** Writing one table of the database *)

Definition with_classroom_students (d : db) (cs : list classroom_student) : db :=
  {| users := users d; classrooms := classrooms d;
     classroom_students := cs;
     assignments := assignments d; seq_assignments := seq_assignments d;
     assignment_submissions := assignment_submissions d;
     seq_submissions := seq_submissions d;
     progress := progress d; notifications := notifications d;
     stream_posts := stream_posts d |}.

Definition with_assignments (d : db) (rows : list assignment) (seq : Z) : db :=
  {| users := users d; classrooms := classrooms d;
     classroom_students := classroom_students d;
     assignments := rows; seq_assignments := seq;
     assignment_submissions := assignment_submissions d;
     seq_submissions := seq_submissions d;
     progress := progress d; notifications := notifications d;
     stream_posts := stream_posts d |}.

(** The table [assignment_submissions] with its sequence counter. *)
Definition sub_table : Type := list submission * Z.

Definition submissions_of (d : db) : sub_table :=
  (assignment_submissions d, seq_submissions d).

Definition with_submissions (d : db) (t : sub_table) : db :=
  {| users := users d; classrooms := classrooms d;
     classroom_students := classroom_students d;
     assignments := assignments d; seq_assignments := seq_assignments d;
     assignment_submissions := fst t;
     seq_submissions := snd t;
     progress := progress d; notifications := notifications d;
     stream_posts := stream_posts d |}.

Definition with_progress (d : db) (rows : list progress_row) : db :=
  {| users := users d; classrooms := classrooms d;
     classroom_students := classroom_students d;
     assignments := assignments d; seq_assignments := seq_assignments d;
     assignment_submissions := assignment_submissions d;
     seq_submissions := seq_submissions d;
     progress := rows; notifications := notifications d;
     stream_posts := stream_posts d |}.

Definition with_notifications (d : db) (rows : list notification) : db :=
  {| users := users d; classrooms := classrooms d;
     classroom_students := classroom_students d;
     assignments := assignments d; seq_assignments := seq_assignments d;
     assignment_submissions := assignment_submissions d;
     seq_submissions := seq_submissions d;
     progress := progress d; notifications := rows;
     stream_posts := stream_posts d |}.

Definition with_stream_posts (d : db) (rows : list stream_post) : db :=
  {| users := users d; classrooms := classrooms d;
     classroom_students := classroom_students d;
     assignments := assignments d; seq_assignments := seq_assignments d;
     assignment_submissions := assignment_submissions d;
     seq_submissions := seq_submissions d;
     progress := progress d; notifications := notifications d;
     stream_posts := rows |}.

(** ** Notification and stream fan-out *)

Definition create_notification (now : clock) (k : nat) (user_id : Z)
    (title body : string) (classroom_id : option Z) (d : db) : db * nat :=
  (with_notifications d
     (notifications d ++
        [{| n_user_id := user_id; n_title := title; n_body := body;
            n_classroom_id := classroom_id; n_is_read := false;
            n_created_at := now k |}]),
   S k).

Definition create_stream_post (now : clock) (k : nat) (classroom_id author_id : Z)
    (kind : post_kind) (title body : string) (audience : post_audience)
    (student_id : option Z) (d : db) : db * nat :=
  (with_stream_posts d
     (stream_posts d ++
        [{| sp_classroom_id := classroom_id; sp_author_id := author_id;
            sp_kind := kind; sp_title := title; sp_body := body;
            sp_audience := audience; sp_student_id := student_id;
            sp_created_at := now k |}]),
   S k).

(** ** Submission Synchronizer *)

Definition status_eqb (a b : sub_status) : bool :=
  match a, b with
  | assigned, assigned => true
  | completed, completed => true
  | _, _ => false
  end.

(** [SELECT score FROM progress WHERE student_id = ? AND lesson_lang = ? AND
    lesson_id = ?], first row. *)
Definition existing_progress (ps : list progress_row) (student_id : Z)
    (lesson_lang : string) (lesson_id : Z) : option progress_row :=
  find (fun p => (p_student_id p =? student_id)
                 && String.eqb (p_lesson_lang p) lesson_lang
                 && (p_lesson_id p =? lesson_id)) ps.

Definition sub_key_eqb (assignment_id student_id : Z) (s : submission) : bool :=
  (s_assignment_id s =? assignment_id) && (s_student_id s =? student_id).

(** A row as an INSERT writes it: the grade column is left NULL. *)
Definition new_submission (id assignment_id student_id : Z) (status : sub_status)
    (completed_at score : option Z) : submission :=
  {| s_id := id; s_assignment_id := assignment_id; s_student_id := student_id;
     s_status := status; s_completed_at := completed_at; s_score := score;
     s_grade_out_of_10 := None |}.

(** [INSERT OR IGNORE INTO assignment_submissions (assignment_id, student_id,
    status, completed_at, score)]. SQLite draws the key of the new row from
    the sequence before it checks UNIQUE (assignment_id, student_id), so the
    sequence advances also when the row is ignored. *)
Definition insert_or_ignore_submission (assignment_id student_id : Z)
    (status : sub_status) (completed_at score : option Z) (t : sub_table)
  : sub_table :=
  let id := snd t + 1 in
  if existsb (sub_key_eqb assignment_id student_id) (fst t) then (fst t, id)
  else (fst t ++
          [new_submission id assignment_id student_id status completed_at score],
        id).

(** The three values computed from [existing_progress] before each
    INSERT OR IGNORE; [now_ts()] is read only when a progress row exists. *)
Definition backfill_values (now : clock) (k : nat) (p : option progress_row)
  : (sub_status * option Z * option Z) * nat :=
  match p with
  | Some row => ((completed, Some (now k), Some (p_score row)), S k)
  | None => ((assigned, None, None), k)
  end.

(** The loop of [ensure_assignment_submissions] over the students. *)
Fixpoint ensure_loop (now : clock) (ps : list progress_row)
    (assignment_id : Z) (lesson_lang : string) (lesson_id : Z)
    (students : list Z) (k : nat) (t : sub_table) : sub_table * nat :=
  match students with
  | [] => (t, k)
  | student :: rest =>
      let '((status, completed_at, score), k') :=
        backfill_values now k
          (existing_progress ps student lesson_lang lesson_id) in
      ensure_loop now ps assignment_id lesson_lang lesson_id rest k'
        (insert_or_ignore_submission assignment_id student status
           completed_at score t)
  end.

(** [SELECT student_id FROM classroom_students WHERE classroom_id = ?]. The
    query has no ORDER BY; the rows are taken here in the order of the
    table. *)
Definition students_of (d : db) (classroom_id : Z) : list Z :=
  map cs_student_id
    (filter (fun cs => cs_classroom_id cs =? classroom_id) (classroom_students d)).

Definition ensure_assignment_submissions (now : clock) (k : nat)
    (assignment_id classroom_id : Z) (lesson_lang : string) (lesson_id : Z)
    (d : db) : db * nat :=
  let '(t, k') :=
    ensure_loop now (progress d) assignment_id lesson_lang lesson_id
      (students_of d classroom_id) k (submissions_of d) in
  (with_submissions d t, k').

(** The loop over the assignments of a classroom that both join handlers
    run after the membership row is written. *)
Fixpoint join_loop (now : clock) (ps : list progress_row) (user_id : Z)
    (rows : list assignment) (k : nat) (t : sub_table) : sub_table * nat :=
  match rows with
  | [] => (t, k)
  | a :: rest =>
      let '((status, completed_at, score), k') :=
        backfill_values now k
          (existing_progress ps user_id (a_lesson_lang a) (a_lesson_id a)) in
      join_loop now ps user_id rest k'
        (insert_or_ignore_submission (a_id a) user_id status completed_at score t)
  end.

Definition assignments_of (d : db) (classroom_id : Z) : list assignment :=
  filter (fun a => a_classroom_id a =? classroom_id) (assignments d).

(** [INSERT OR IGNORE INTO classroom_students (classroom_id, student_id,
    joined_at)] under UNIQUE (classroom_id, student_id). *)
Definition insert_or_ignore_member (classroom_id student_id joined_at : Z)
    (rows : list classroom_student) : list classroom_student :=
  if existsb (fun cs => (cs_classroom_id cs =? classroom_id)
                        && (cs_student_id cs =? student_id)) rows
  then rows
  else rows ++ [{| cs_classroom_id := classroom_id;
                   cs_student_id := student_id;
                   cs_joined_at := joined_at |}].

Definition find_classroom_by_code (d : db) (code : string) : option classroom :=
  find (fun c => String.eqb (c_code c) code) (classrooms d).

(** The body shared, statement for statement, by the POST branch of
    [student_classroom] and by [join_class_by_code] once the code is
    normalised. *)
Definition join_with_code (now : clock) (user_id : Z) (code : string) (d : db)
  : db * response :=
  match find_classroom_by_code d code with
  | None => (d, redirect "student_classroom" (Some "Classroom code not found."))
  | Some classroom =>
      let d1 := with_classroom_students d
                  (insert_or_ignore_member (c_id classroom) user_id (now 0%nat)
                     (classroom_students d)) in
      let '(t, _) :=
        join_loop now (progress d1) user_id (assignments_of d1 (c_id classroom))
          1%nat (submissions_of d1) in
      (with_submissions d1 t,
       redirect "student_classroom" (Some "You joined the classroom!"))
  end.

Definition join_class_by_code (now : clock) (s : session) (code : string) (d : db)
  : db * response :=
  match sess_user_id s with
  | None => (d, redirect "login" None)
  | Some user_id =>
      if negb (role_is s "Student")
      then (d, redirect "teacher_home" (Some "Only students can join classrooms."))
      else join_with_code now user_id (upper code) d
  end.

(** [student_classroom], method POST; [code] is the form field, the empty
    string when absent. *)
Definition student_classroom_post (now : clock) (s : session) (code : string)
    (d : db) : db * response :=
  match require_login s with
  | Some guard => (d, guard)
  | None =>
      match require_role s "Student", sess_user_id s with
      | None, Some user_id => join_with_code now user_id (upper (strip code)) d
      | _, _ => (d, redirect "teacher_home" None)
      end
  end.

(** ** Quiz grading *)

(** [get_student_progress]: the lessons of a language the student passed. *)
Definition get_student_progress (d : db) (user_id : Z) (lang : string) : list Z :=
  map p_lesson_id
    (filter (fun p => (p_student_id p =? user_id)
                      && String.eqb (p_lesson_lang p) lang) (progress d)).

(** [INSERT INTO progress] under UNIQUE (student_id, lesson_id, lesson_lang):
    [None] stands for the [IntegrityError] of a second row with the key. *)
Definition insert_progress (row : progress_row) (rows : list progress_row)
  : option (list progress_row) :=
  match existing_progress rows (p_student_id row) (p_lesson_lang row)
          (p_lesson_id row) with
  | Some _ => None
  | None => Some (rows ++ [row])
  end.

(** The keys selected by [_complete_assignment_if_any]: one per row of the
    join of the submissions of the user with their assignment and with the
    members of its classroom. *)
Definition pending_submissions (d : db) (user_id lesson_id : Z) (lang : string)
  : list Z :=
  flat_map (fun s =>
    flat_map (fun a =>
      flat_map (fun cs =>
        if (a_id a =? s_assignment_id s)
           && (cs_classroom_id cs =? a_classroom_id a)
           && (s_student_id s =? user_id)
           && (a_lesson_id a =? lesson_id)
           && String.eqb (a_lesson_lang a) lang
           && negb (status_eqb (s_status s) completed)
        then [s_id s] else [])
        (classroom_students d))
      (assignments d))
    (assignment_submissions d).

Definition set_completed (completed_at score : Z) (s : submission) : submission :=
  {| s_id := s_id s; s_assignment_id := s_assignment_id s;
     s_student_id := s_student_id s; s_status := completed;
     s_completed_at := Some completed_at; s_score := Some score;
     s_grade_out_of_10 := s_grade_out_of_10 s |}.

(** [UPDATE assignment_submissions SET status = 'completed', completed_at = ?,
    score = ? WHERE id = ?], once per selected key. *)
Fixpoint complete_loop (now : clock) (score : Z) (ids : list Z) (k : nat)
    (rows : list submission) : list submission * nat :=
  match ids with
  | [] => (rows, k)
  | id :: rest =>
      complete_loop now score rest (S k)
        (map (fun s => if s_id s =? id then set_completed (now k) score s else s)
             rows)
  end.

Definition _complete_assignment_if_any (now : clock) (k : nat) (user_id : Z)
    (lang : string) (lesson_id score : Z) (d : db) : (db * nat) * bool :=
  let ids := pending_submissions d user_id lesson_id lang in
  let '(rows, k') := complete_loop now score ids k (assignment_submissions d) in
  ((with_submissions d (rows, seq_submissions d), k'),
   match ids with [] => false | _ => true end).

Definition passing_score : Z := 70.

Definition grade_quiz (data : list language) (now : clock) (today : Z)
    (s : session) (lang : string) (lesson_id : Z) (form : answers) (d : db)
  : db * response :=
  match require_login s with
  | Some guard => (d, guard)
  | None =>
      match require_role s "Student", sess_user_id s with
      | None, Some user_id =>
          match get_lesson data lang lesson_id with
          | None => (d, redirect "student_home" None)
          | Some lesson =>
              let quiz := l_quiz lesson in
              let total := Z.of_nat (List.length quiz) in
              let correct_count := count_correct form 0%nat quiz in
              match quiz_score correct_count total with
              | inr e => (d, raised e)
              | inl score =>
                  let completed_lessons := get_student_progress d user_id lang in
                  let passed := passing_score <=? score in
                  if passed && negb (existsb (Z.eqb lesson_id) completed_lessons)
                  then
                    match insert_progress
                            {| p_student_id := user_id; p_lesson_id := lesson_id;
                               p_lesson_lang := lang; p_completed_at := now 0%nat;
                               p_score := score;
                               p_xp := match l_xp lesson with
                                       | Some x => x
                                       | None => 100
                                       end |}
                            (progress d) with
                    | None => (d, raised IntegrityError)
                    | Some rows =>
                        let d1 := with_progress d rows in
                        match update_streak today user_id d1 with
                        | inr e => (d1, raised e)
                        | inl d2 =>
                            let '((d3, _), updated) :=
                              _complete_assignment_if_any now 1%nat user_id lang
                                lesson_id score d2 in
                            (d3, render_quiz
                                   {| qr_score := score; qr_passed := passed;
                                      qr_passing_score := passing_score;
                                      qr_assignment_completed := updated |})
                        end
                    end
                  else
                    (d, render_quiz
                          {| qr_score := score; qr_passed := passed;
                             qr_passing_score := passing_score;
                             qr_assignment_completed := false |})
              end
          end
      | _, _ => (d, redirect "teacher_home" None)
      end
  end.

(** ** Stream feed of a student *)

(** ORDER BY ... DESC on an integer column, as a stable insertion sort: rows
    of equal key stay in table order. *)
Fixpoint insert_desc (A : Type) (key : A -> Z) (x : A) (l : list A) : list A :=
  match l with
  | [] => [x]
  | y :: r => if key y <=? key x then x :: l else y :: insert_desc key x r
  end.

Definition sort_desc (A : Type) (key : A -> Z) (l : list A) : list A :=
  fold_right (insert_desc key) [] l.

Definition audience_eqb (a b : post_audience) : bool :=
  match a, b with
  | audience_class, audience_class => true
  | audience_student, audience_student => true
  | _, _ => false
  end.

Definition kind_eqb (a b : post_kind) : bool :=
  match a, b with
  | kind_assignment, kind_assignment => true
  | kind_announcement, kind_announcement => true
  | kind_grade, kind_grade => true
  | _, _ => false
  end.

(** [column = ?] on a nullable integer column: NULL is never equal. *)
Definition opt_eqb (a : option Z) (b : Z) : bool :=
  match a with
  | Some x => x =? b
  | None => false
  end.

(** The WHERE clause of [get_stream_posts_for_student]. *)
Definition visible_to (classroom_ids : list Z) (student_id : Z) (p : stream_post)
  : bool :=
  existsb (Z.eqb (sp_classroom_id p)) classroom_ids
  && (audience_eqb (sp_audience p) audience_class
      || (audience_eqb (sp_audience p) audience_student
          && opt_eqb (sp_student_id p) student_id))
  && negb (kind_eqb (sp_kind p) kind_grade
           && audience_eqb (sp_audience p) audience_class).

(** The rows of [stream_posts p JOIN users u JOIN classrooms c] that pass the
    WHERE clause, before ORDER BY and LIMIT. *)
Definition stream_rows (d : db) (classroom_ids : list Z) (student_id : Z)
  : list feed_row :=
  flat_map (fun p =>
    flat_map (fun u =>
      flat_map (fun c =>
        if (u_id u =? sp_author_id p) && (c_id c =? sp_classroom_id p)
           && visible_to classroom_ids student_id p
        then [{| fr_post := p; fr_author_name := u_name u;
                 fr_classroom_name := c_name c |}]
        else [])
        (classrooms d))
      (users d))
    (stream_posts d).

Definition feed_limit : nat := 30.

Definition get_stream_posts_for_student (d : db) (classroom_ids : list Z)
    (student_id : Z) : list feed_row :=
  match classroom_ids with
  | [] => []
  | _ =>
      firstn feed_limit
        (sort_desc (fun r => sp_created_at (fr_post r))
           (stream_rows d classroom_ids student_id))
  end.

(** [SELECT c.* FROM classrooms c JOIN classroom_students cs ON
    cs.classroom_id = c.id WHERE cs.student_id = ?]. *)
Definition joined_classrooms (d : db) (user_id : Z) : list classroom :=
  flat_map (fun c =>
    flat_map (fun cs =>
      if (cs_classroom_id cs =? c_id c) && (cs_student_id cs =? user_id)
      then [c] else [])
      (classroom_students d))
    (classrooms d).

(** The feed as the student page computes it. *)
Definition student_feed (d : db) (user_id : Z) : list feed_row :=
  get_stream_posts_for_student d (map c_id (joined_classrooms d user_id)) user_id.

(** ** Student page, method GET: backfill from the progress table *)

Definition view_of (a : assignment) (c : classroom) (s : option submission)
  : assignment_view :=
  {| av_assignment := a;
     av_status := option_map s_status s;
     av_score := match s with Some r => s_score r | None => None end;
     av_grade_out_of_10 :=
       match s with Some r => s_grade_out_of_10 r | None => None end;
     av_classroom_name := c_name c |}.

(** [assignments a JOIN classroom_students cs JOIN classrooms c LEFT JOIN
    assignment_submissions s ... WHERE cs.student_id = ? ORDER BY a.created_at
    DESC]. *)
Definition student_assignment_rows (d : db) (user_id : Z) : list assignment_view :=
  sort_desc (fun v => a_created_at (av_assignment v))
    (flat_map (fun a =>
       flat_map (fun cs =>
         flat_map (fun c =>
           if (cs_classroom_id cs =? a_classroom_id a)
              && (c_id c =? a_classroom_id a)
              && (cs_student_id cs =? user_id)
           then
             match filter (sub_key_eqb (a_id a) (cs_student_id cs))
                     (assignment_submissions d) with
             | [] => [view_of a c None]
             | matches => map (fun s => view_of a c (Some s)) matches
             end
           else [])
           (classrooms d))
         (classroom_students d))
       (assignments d)).

(** [INSERT INTO assignment_submissions ... VALUES (?, ?, 'completed', ?, ?)
    ON CONFLICT(assignment_id, student_id) DO UPDATE SET status = 'completed',
    completed_at = excluded.completed_at, score = excluded.score]. *)
Definition upsert_completed (assignment_id student_id completed_at score : Z)
    (t : sub_table) : sub_table :=
  let id := snd t + 1 in
  if existsb (sub_key_eqb assignment_id student_id) (fst t)
  then (map (fun s => if sub_key_eqb assignment_id student_id s
                      then set_completed completed_at score s else s) (fst t),
        id)
  else (fst t ++ [new_submission id assignment_id student_id completed
                    (Some completed_at) (Some score)],
        id).

Definition is_completed (st : option sub_status) : bool :=
  match st with
  | Some completed => true
  | _ => false
  end.

(** The writes of the backfill loop. The statuses tested are those read by
    the query before the loop. *)
Fixpoint backfill_loop (now : clock) (ps : list progress_row) (user_id : Z)
    (views : list assignment_view) (k : nat) (t : sub_table) : sub_table * nat :=
  match views with
  | [] => (t, k)
  | v :: rest =>
      let a := av_assignment v in
      if is_completed (av_status v) then backfill_loop now ps user_id rest k t
      else
        match existing_progress ps user_id (a_lesson_lang a) (a_lesson_id a) with
        | Some p =>
            backfill_loop now ps user_id rest (S k)
              (upsert_completed (a_id a) user_id (now k) (p_score p) t)
        | None => backfill_loop now ps user_id rest k t
        end
  end.

(** The list [updated_assignments] handed to the template. *)
Definition updated_view (ps : list progress_row) (user_id : Z)
    (v : assignment_view) : assignment_view :=
  let a := av_assignment v in
  if is_completed (av_status v) then v
  else
    match existing_progress ps user_id (a_lesson_lang a) (a_lesson_id a) with
    | Some _ =>
        {| av_assignment := a; av_status := Some completed;
           av_score := av_score v; av_grade_out_of_10 := av_grade_out_of_10 v;
           av_classroom_name := av_classroom_name v |}
    | None => v
    end.

(** [student_classroom], method GET. The comments shown with each assignment
    live in a table of their own and are left out. *)
Definition student_classroom_get (now : clock) (s : session) (d : db)
  : db * response :=
  match require_login s with
  | Some guard => (d, guard)
  | None =>
      match require_role s "Student", sess_user_id s with
      | None, Some user_id =>
          let views := student_assignment_rows d user_id in
          let '(t, _) :=
            backfill_loop now (progress d) user_id views 0%nat (submissions_of d) in
          let d' := with_submissions d t in
          (d', render_classroom (joined_classrooms d user_id)
                 (map (updated_view (progress d) user_id) views)
                 (student_feed d' user_id))
      | _, _ => (d, redirect "teacher_home" None)
      end
  end.

(** ** Assignment Directory: [teacher_create_assignment] *)

(** [str(n)] for an integer. *)
Definition str_of_int (n : Z) : string := NilZero.string_of_int (Z.to_int n).

(** [lesson_lang, lesson_id_str = lesson_key.split(":")] followed by
    [int(lesson_id_str)]; both raise [ValueError]. *)
Definition parse_lesson_key (lesson_key : string) : (string * Z) + exn :=
  match split_colon lesson_key with
  | [lesson_lang; lesson_id_str] =>
      match int_of_str lesson_id_str with
      | Some n => inl (lesson_lang, n)
      | None => inr ValueError
      end
  | _ => inr ValueError
  end.

Definition newline : string := String (ascii_of_nat 10) EmptyString.

Fixpoint join_lines (lines : list string) : string :=
  match lines with
  | [] => EmptyString
  | [l] => l
  | l :: rest => (l ++ newline ++ join_lines rest)%string
  end.

Definition nonempty (s : string) : bool :=
  match s with
  | EmptyString => false
  | _ => true
  end.

Definition assignment_post_body (lesson_lang : string) (lesson_id : Z)
    (due_date : option string) (comment : string) : string :=
  join_lines
    ([(upper lesson_lang ++ " Lesson " ++ str_of_int lesson_id
         ++ " has been posted.")%string]
     ++ match due_date with
        | Some dd => if nonempty dd then [("Due: " ++ dd)%string] else []
        | None => []
        end
     ++ (if nonempty comment then [("Note: " ++ comment)%string] else [])).

(** One [create_notification] per student, in order. *)
Fixpoint notify_all (now : clock) (k : nat) (students : list Z)
    (title body : string) (classroom_id : option Z) (d : db) : db * nat :=
  match students with
  | [] => (d, k)
  | student :: rest =>
      let '(d', k') := create_notification now k student title body classroom_id d in
      notify_all now k' rest title body classroom_id d'
  end.

Definition find_owned_classroom (d : db) (classroom_id teacher_id : Z)
  : option classroom :=
  find (fun c => (c_id c =? classroom_id) && (c_teacher_id c =? teacher_id))
       (classrooms d).

Definition teacher_create_assignment (now : clock) (s : session)
    (classroom_id : Z) (lesson_key : string) (due_date : option string)
    (comment_field : string) (d : db) : db * response :=
  match require_login s with
  | Some guard => (d, guard)
  | None =>
      match require_role s "Teacher", sess_user_id s with
      | None, Some teacher_id =>
          match parse_lesson_key lesson_key with
          | inr e => (d, raised e)
          | inl (lesson_lang, lesson_id) =>
              let comment := strip comment_field in
              match find_owned_classroom d classroom_id teacher_id with
              | None => (d, redirect "teacher_home" None)
              | Some classroom =>
                  let assignment_id := seq_assignments d + 1 in
                  let d1 :=
                    with_assignments d
                      (assignments d ++
                         [{| a_id := assignment_id;
                             a_classroom_id := classroom_id;
                             a_lesson_id := lesson_id;
                             a_lesson_lang := lesson_lang;
                             a_due_date := due_date;
                             a_comment := comment;
                             a_created_at := now 0%nat |}])
                      assignment_id in
                  let '(d2, k2) :=
                    ensure_assignment_submissions now 1%nat assignment_id
                      classroom_id lesson_lang lesson_id d1 in
                  let '(d3, k3) :=
                    create_stream_post now k2 classroom_id teacher_id
                      kind_assignment "New assignment"
                      (assignment_post_body lesson_lang lesson_id due_date comment)
                      audience_class None d2 in
                  let '(d4, _) :=
                    notify_all now k3 (students_of d3 classroom_id)
                      "New assignment posted"
                      (upper lesson_lang ++ " Lesson " ++ str_of_int lesson_id
                         ++ " is ready in " ++ c_name classroom ++ ".")%string
                      (Some classroom_id) d3 in
                  (d4, redirect "teacher_classroom" None)
              end
          end
      | _, _ => (d, redirect "student_home" None)
      end
  end.

(** ** Teacher grading: [teacher_grade_submission] *)

(** [request.referrer or url_for("teacher_home")]. *)
Definition back_to (referrer : option string) : string :=
  match referrer with
  | Some r => if nonempty r then r else "teacher_home"
  | None => "teacher_home"
  end.

(** [SELECT s.student_id, a.lesson_lang, a.lesson_id, a.classroom_id FROM
    assignment_submissions s JOIN assignments a ON a.id = s.assignment_id
    WHERE s.id = ?], first row. *)
Definition graded_submission (d : db) (submission_id : Z)
  : option (submission * assignment) :=
  hd_error
    (flat_map (fun s =>
       flat_map (fun a =>
         if (a_id a =? s_assignment_id s) && (s_id s =? submission_id)
         then [(s, a)] else [])
         (assignments d))
       (assignment_submissions d)).

Definition set_grade (grade : Z) (s : submission) : submission :=
  {| s_id := s_id s; s_assignment_id := s_assignment_id s;
     s_student_id := s_student_id s; s_status := s_status s;
     s_completed_at := s_completed_at s; s_score := s_score s;
     s_grade_out_of_10 := Some grade |}.

Definition teacher_grade_submission (now : clock) (s : session)
    (referrer : option string) (submission_id : Z) (grade : option string)
    (d : db) : db * response :=
  match require_login s with
  | Some guard => (d, guard)
  | None =>
      match require_role s "Teacher", sess_user_id s with
      | None, Some teacher_id =>
          match int_of_field grade with
          | None =>
              (d, redirect (back_to referrer) (Some "Grade must be a number 0-10."))
          | Some grade_val =>
              if (grade_val <? 0) || (10 <? grade_val)
              then (d, redirect (back_to referrer)
                         (Some "Grade must be between 0 and 10."))
              else
                match graded_submission d submission_id with
                | None =>
                    (d, redirect (back_to referrer) (Some "Submission not found."))
                | Some (sub, a) =>
                    let d1 :=
                      with_submissions d
                        (map (fun r => if s_id r =? submission_id
                                       then set_grade grade_val r else r)
                             (assignment_submissions d),
                         seq_submissions d) in
                    let '(d2, k2) :=
                      create_notification now 0%nat (s_student_id sub)
                        "Assignment graded"
                        (upper (a_lesson_lang a) ++ " Lesson "
                           ++ str_of_int (a_lesson_id a) ++ " graded: "
                           ++ str_of_int grade_val ++ "/10.")%string
                        (Some (a_classroom_id a)) d1 in
                    let '(d3, _) :=
                      create_stream_post now k2 (a_classroom_id a) teacher_id
                        kind_grade "Grade posted"
                        (upper (a_lesson_lang a) ++ " Lesson "
                           ++ str_of_int (a_lesson_id a) ++ ": "
                           ++ str_of_int grade_val ++ "/10")%string
                        audience_student (Some (s_student_id sub)) d2 in
                    (d3, redirect (back_to referrer) (Some "Grade saved."))
                end
          end
      | _, _ => (d, redirect "student_home" None)
      end
  end.

(** ** Exhaustive check of the score on short quizzes *)

Definition score_is_floor (c t : Z) : bool :=
  match quiz_score c t with
  | inl n => n =? 100 * c / t
  | inr _ => false
  end.

(** Every [correct_count <= total] for the totals 1 to [n]. *)
Definition scores_are_floor (n : nat) : bool :=
  forallb (fun t => forallb (fun c => score_is_floor (Z.of_nat c) (Z.of_nat t))
                            (seq 0 (S t)))
          (seq 1 n).

(** ** A small school, used to exercise the statements

    Teacher 1 owns classroom 1 (code AB12CD); students 2 and 3 have accounts;
    the lesson (python, 3) has a quiz of four questions. *)

Definition demo_teacher : session :=
  {| sess_user_id := Some 1; sess_role := Some "Teacher" |}.
Definition demo_student : session :=
  {| sess_user_id := Some 2; sess_role := Some "Student" |}.

Definition demo_user (id : Z) (name role : string) : user :=
  {| u_id := id; u_name := name; u_role := role;
     streak_count := 0; last_active_date := None |}.

Definition demo_db : db :=
  {| users := [demo_user 1 "Ada" "Teacher"; demo_user 2 "Bob" "Student";
               demo_user 3 "Cy" "Student"];
     classrooms := [{| c_id := 1; c_teacher_id := 1; c_name := "Room";
                       c_code := "AB12CD" |}];
     classroom_students := [];
     assignments := []; seq_assignments := 0;
     assignment_submissions := []; seq_submissions := 0;
     progress := []; notifications := []; stream_posts := [] |}.

Definition demo_question (answer : string) : question :=
  {| q_question := "?"; q_choices := ["a"; "b"]; q_answer := answer |}.

Definition demo_lessons : list language :=
  [{| lang_id := "python";
      lang_lessons :=
        [{| l_id := 3;
            l_quiz := [demo_question "a"; demo_question "b";
                       demo_question "a"; demo_question "a"];
            l_xp := Some 50 |};
         {| l_id := 4; l_quiz := []; l_xp := None |};
         {| l_id := 5; l_quiz := repeat (demo_question "a") 50; l_xp := None |}] |}].

(** Answers "a" everywhere: three of the four questions of lesson 3. *)
Definition demo_answers : answers := fun _ => Some "a".

(** Answers "a" to the first 29 questions only. *)
Definition demo_answers_29 : answers :=
  fun idx => if Nat.ltb idx 29 then Some "a" else Some "b".

Definition demo_clock : clock := fun k => 1000 + Z.of_nat k.
Definition demo_clock_later : clock := fun k => 2000 + Z.of_nat k.

Definition demo_joined : db :=
  fst (join_class_by_code demo_clock demo_student "ab12cd" demo_db).

Definition demo_student3 : session :=
  {| sess_user_id := Some 3; sess_role := Some "Student" |}.

Definition demo_both : db :=
  fst (join_class_by_code demo_clock demo_student3 "AB12CD" demo_joined).

Definition demo_assigned : db :=
  fst (teacher_create_assignment demo_clock demo_teacher 1 "python:3" None ""
         demo_both).

(** The submission of student 2 for assignment 1, graded 8 out of 10. *)
Definition demo_graded : db :=
  fst (teacher_grade_submission demo_clock_later demo_teacher None 1 (Some "8")
         demo_assigned).

(** ** Vocabulary of the statements *)

(** The classrooms the student page lists for a user: the classroom row
    exists and a membership row links it to the user. *)
Definition joined (d : db) (user_id classroom_id : Z) : Prop :=
  (exists c, In c (classrooms d) /\ c_id c = classroom_id)
  /\ (exists cs, In cs (classroom_students d)
                 /\ cs_classroom_id cs = classroom_id
                 /\ cs_student_id cs = user_id).

Definition addressed_to (user_id : Z) (p : stream_post) : Prop :=
  sp_audience p = audience_class
  \/ (sp_audience p = audience_student /\ sp_student_id p = Some user_id).

Definition class_grade (p : stream_post) : Prop :=
  sp_kind p = kind_grade /\ sp_audience p = audience_class.

(** The read contract of the feed, for one post. *)
Definition in_feed_contract (d : db) (user_id : Z) (p : stream_post) : Prop :=
  In p (stream_posts d)
  /\ joined d user_id (sp_classroom_id p)
  /\ addressed_to user_id p
  /\ ~ class_grade p.

Definition newest_first (l : list stream_post) : Prop :=
  StronglySorted (fun p q => sp_created_at q <= sp_created_at p) l.

(** PRIMARY KEY of [users] and of [classrooms]. *)
Definition primary_keys (d : db) : Prop :=
  NoDup (map u_id (users d)) /\ NoDup (map c_id (classrooms d)).

(** FOREIGN KEY (author_id) REFERENCES users (id) of [stream_posts]. *)
Definition authors_exist (d : db) : Prop :=
  forall p, In p (stream_posts d) ->
    exists u, In u (users d) /\ u_id u = sp_author_id p.

(** ** The routes of the subsystem *)

Inductive request :=
| GradeQuiz (data : list language) (today : Z) (lang : string) (lesson_id : Z)
    (form : answers)
| StudentClassroomPost (code : string)
| StudentClassroomGet
| JoinClassByCode (code : string)
| TeacherCreateAssignment (classroom_id : Z) (lesson_key : string)
    (due_date : option string) (comment : string)
| TeacherGradeSubmission (referrer : option string) (submission_id : Z)
    (grade : option string).

Definition handle (now : clock) (s : session) (req : request) (d : db)
  : db * response :=
  match req with
  | GradeQuiz data today lang lesson_id form =>
      grade_quiz data now today s lang lesson_id form d
  | StudentClassroomPost code => student_classroom_post now s code d
  | StudentClassroomGet => student_classroom_get now s d
  | JoinClassByCode code => join_class_by_code now s code d
  | TeacherCreateAssignment classroom_id lesson_key due_date comment =>
      teacher_create_assignment now s classroom_id lesson_key due_date comment d
  | TeacherGradeSubmission referrer submission_id grade =>
      teacher_grade_submission now s referrer submission_id grade d
  end.

(** The requests that run the synchronizer: every route but teacher grading. *)
Definition reconciles (req : request) : Prop :=
  match req with
  | TeacherGradeSubmission _ _ _ => False
  | _ => True
  end.

(** The five write paths: every route but the GET of the student page. *)
Definition write_path (req : request) : Prop :=
  match req with
  | StudentClassroomGet => False
  | _ => True
  end.

Definition completes (r : response) : Prop := forall e, r <> raised e.

(** Two versions of a row that differ at most in the derived columns. *)
Definition same_identity (r r' : submission) : Prop :=
  s_id r' = s_id r
  /\ s_assignment_id r' = s_assignment_id r
  /\ s_student_id r' = s_student_id r
  /\ s_grade_out_of_10 r' = s_grade_out_of_10 r.

(** [rows'] keeps every row of [rows] in place with its grade, and the rows
    added after them have no grade. *)
Definition grades_kept (rows rows' : list submission) : Prop :=
  exists olds news,
    rows' = olds ++ news
    /\ Forall2 same_identity rows olds
    /\ Forall (fun r => s_grade_out_of_10 r = None) news.

(** The update loop of [_complete_assignment_if_any], row by row. *)
Fixpoint complete_row (now : clock) (score : Z) (ids : list Z) (k : nat)
    (s : submission) : submission :=
  match ids with
  | [] => s
  | id :: rest =>
      complete_row now score rest (S k)
        (if s_id s =? id then set_completed (now k) score s else s)
  end.

(** A student passed a lesson, then the assignment for it is created. *)
Definition demo_passed : db :=
  fst (grade_quiz demo_lessons demo_clock 10 demo_student "python" 3
         demo_answers demo_joined).

Definition demo_backfilled : db :=
  fst (teacher_create_assignment demo_clock_later demo_teacher 1 "python:3"
         None "" demo_passed).

(** The columns an INSERT of the synchronizer writes for the student of the
    row and the lesson ([lang], [lesson_id]): completed, with the score of the
    progress row and a reading of the clock, when the student passed the
    lesson; assigned, with NULLs, otherwise. *)
Definition created_from (now : clock) (ps : list progress_row) (lang : string)
    (lesson_id : Z) (r : submission) : Prop :=
  s_grade_out_of_10 r = None
  /\ match existing_progress ps (s_student_id r) lang lesson_id with
     | Some p =>
         s_status r = completed
         /\ s_score r = Some (p_score p)
         /\ exists k, s_completed_at r = Some (now k)
     | None =>
         s_status r = assigned /\ s_score r = None /\ s_completed_at r = None
     end.

(** A row created for one of the assignments [known], from the progress
    rows [ps]. *)
Definition made_from (now : clock) (ps : list progress_row)
    (known : list assignment) (r : submission) : Prop :=
  exists a,
    In a known /\ a_id a = s_assignment_id r
    /\ created_from now ps (a_lesson_lang a) (a_lesson_id a) r.

(** A row created for one of the assignments of [d]. *)
Definition created_row (now : clock) (d : db) (r : submission) : Prop :=
  made_from now (progress d) (assignments d) r.

(** [d'] keeps the rows of [d] in place, and every row added was created
    from the progress table. *)
Definition rows_created (now : clock) (d d' : db) : Prop :=
  exists olds news,
    assignment_submissions d' = olds ++ news
    /\ Forall2 same_identity (assignment_submissions d) olds
    /\ Forall (created_row now d') news.

Definition progress_row_of (now : clock) (uid lid : Z) (lang : string)
    (score xp : Z) : progress_row :=
  {| p_student_id := uid; p_lesson_id := lid; p_lesson_lang := lang;
     p_completed_at := now 0%nat; p_score := score; p_xp := xp |}.

Definition assignment_row_of (now : clock) (d : db) (cid lid : Z) (lang : string)
    (due : option string) (comment : string) : assignment :=
  {| a_id := seq_assignments d + 1; a_classroom_id := cid; a_lesson_id := lid;
     a_lesson_lang := lang; a_due_date := due; a_comment := comment;
     a_created_at := now 0%nat |}.

Definition sub_key (s : submission) : Z * Z :=
  (s_assignment_id s, s_student_id s).

(** PRIMARY KEY (id) and UNIQUE (assignment_id, student_id) of
    [assignment_submissions]. *)
Definition submission_keys (d : db) : Prop :=
  NoDup (map s_id (assignment_submissions d))
  /\ NoDup (map sub_key (assignment_submissions d)).

(** ** The reconciliation steps

    The four places where the synchronizer runs: the loop of
    [ensure_assignment_submissions] for one assignment, the join block for one
    student and classroom code, [_complete_assignment_if_any] for one student
    and lesson, and the backfill of the student page. [k] is the number of
    clock readings made before the step. *)

Inductive reconcile_step :=
| EnsureSubmissions (assignment_id classroom_id : Z) (lesson_lang : string)
    (lesson_id : Z)
| JoinBackfill (user_id : Z) (code : string)
| CompletePending (user_id : Z) (lang : string) (lesson_id score : Z)
| ViewBackfill (s : session).

Definition run_step (now : clock) (k : nat) (st : reconcile_step) (d : db) : db :=
  match st with
  | EnsureSubmissions assignment_id classroom_id lesson_lang lesson_id =>
      fst (ensure_assignment_submissions now k assignment_id classroom_id
             lesson_lang lesson_id d)
  | JoinBackfill user_id code => fst (join_with_code now user_id code d)
  | CompletePending user_id lang lesson_id score =>
      fst (fst (_complete_assignment_if_any now k user_id lang lesson_id score d))
  | ViewBackfill s => fst (student_classroom_get now s d)
  end.

(** Every row of the key ([aid], [uid]) is completed. *)
Definition all_completed (aid uid : Z) (rows : list submission) : Prop :=
  forall r, In r rows -> sub_key_eqb aid uid r = true -> s_status r = completed.

(** ** The derived-status invariant and the constraints it rests on *)

(** A ProgressRecord exists for the student and the lesson. *)
Definition has_progress (d : db) (student_id : Z) (lang : string) (lesson_id : Z)
  : Prop :=
  exists p, In p (progress d)
            /\ p_student_id p = student_id
            /\ p_lesson_lang p = lang
            /\ p_lesson_id p = lesson_id.

(** status = completed iff a ProgressRecord exists for (student_id,
    assignment.lesson_id, assignment.lesson_lang). *)
Definition derived_status (d : db) : Prop :=
  forall s a,
    In s (assignment_submissions d) -> In a (assignments d) ->
    a_id a = s_assignment_id s ->
    (s_status s = completed
     <-> has_progress d (s_student_id s) (a_lesson_lang a) (a_lesson_id a)).

Definition p_key (p : progress_row) : Z * string * Z :=
  (p_student_id p, p_lesson_lang p, p_lesson_id p).

(** The keys of a table with AUTOINCREMENT: distinct, and not above the
    sequence. *)
Definition sub_ids_ok (t : sub_table) : Prop :=
  NoDup (map s_id (fst t)) /\ forall s, In s (fst t) -> s_id s <= snd t.

(** The constraints of the schema on the tables the synchronizer reads, and
    the reference of every submission to an assignment of a classroom its
    student is a member of. *)
Record db_wf (d : db) : Prop := {
  wf_sub_ids : sub_ids_ok (submissions_of d);
  wf_sub_keys : NoDup (map sub_key (assignment_submissions d));
  wf_assignment_ids : NoDup (map a_id (assignments d));
  wf_assignment_seq : forall a, In a (assignments d) -> a_id a <= seq_assignments d;
  wf_progress_keys : NoDup (map p_key (progress d));
  wf_sub_refs :
    forall s, In s (assignment_submissions d) ->
      exists a cs,
        In a (assignments d) /\ a_id a = s_assignment_id s
        /\ In cs (classroom_students d)
        /\ cs_classroom_id cs = a_classroom_id a
        /\ cs_student_id cs = s_student_id s
}.

(** The score of a completed submission is the score of the progress row. *)
Definition score_consistent (d : db) : Prop :=
  forall s a p,
    In s (assignment_submissions d) -> In a (assignments d) ->
    a_id a = s_assignment_id s ->
    In p (progress d) ->
    p_key p = (s_student_id s, a_lesson_lang a, a_lesson_id a) ->
    s_status s = completed ->
    s_score s = Some (p_score p).

(** Every member of the classroom of an assignment has a submission row. *)
Definition coverage (d : db) : Prop :=
  forall a cs,
    In a (assignments d) -> In cs (classroom_students d) ->
    cs_classroom_id cs = a_classroom_id a ->
    existsb (sub_key_eqb (a_id a) (cs_student_id cs)) (assignment_submissions d)
    = true.

(** ** The three events of the order-independence property *)

Inductive event := TeacherCreates | StudentJoins | StudentPasses.

Definition event_eqb (a b : event) : bool :=
  match a, b with
  | TeacherCreates, TeacherCreates => true
  | StudentJoins, StudentJoins => true
  | StudentPasses, StudentPasses => true
  | _, _ => false
  end.

(** The inputs of the three requests: the teacher creates an assignment for
    the lesson named by [sc_lesson_key] in classroom [sc_classroom_id], the
    student follows the join link with [sc_code], the student submits the
    quiz answers [sc_form] for the lesson ([sc_lang], [sc_lesson_id]). Each
    request has its own clock. *)
Record scenario := {
  sc_teacher : session;
  sc_student : session;
  sc_classroom_id : Z;
  sc_code : string;
  sc_lesson_key : string;
  sc_due_date : option string;
  sc_comment : string;
  sc_lessons : list language;
  sc_today : Z;
  sc_lang : string;
  sc_lesson_id : Z;
  sc_form : answers;
  sc_clock : event -> clock
}.

Definition event_session (sc : scenario) (e : event) : session :=
  match e with
  | TeacherCreates => sc_teacher sc
  | _ => sc_student sc
  end.

Definition event_request (sc : scenario) (e : event) : request :=
  match e with
  | TeacherCreates =>
      TeacherCreateAssignment (sc_classroom_id sc) (sc_lesson_key sc)
        (sc_due_date sc) (sc_comment sc)
  | StudentJoins => JoinClassByCode (sc_code sc)
  | StudentPasses =>
      GradeQuiz (sc_lessons sc) (sc_today sc) (sc_lang sc) (sc_lesson_id sc)
        (sc_form sc)
  end.

Definition run_event (sc : scenario) (d : db) (e : event) : db :=
  fst (handle (sc_clock sc e) (event_session sc e) (event_request sc e) d).

Definition run_events (sc : scenario) (order : list event) (d : db) : db :=
  fold_left (run_event sc) order d.

(** The scenario is well posed on [d]: the teacher owns the classroom, the
    code is the code of that classroom, the lesson key names the lesson, the
    answers reach the passing score [score], and the student, who has an
    account, has not passed the lesson yet. *)
Record well_posed (sc : scenario) (d : db) (student_id score : Z) : Prop := {
  wp_teacher :
    exists tid c, sess_user_id (sc_teacher sc) = Some tid
                  /\ role_is (sc_teacher sc) "Teacher" = true
                  /\ find_owned_classroom d (sc_classroom_id sc) tid = Some c;
  wp_student :
    sess_user_id (sc_student sc) = Some student_id
    /\ role_is (sc_student sc) "Student" = true;
  wp_account : exists u, find_user d student_id = Some u;
  wp_code :
    exists c, find_classroom_by_code d (upper (sc_code sc)) = Some c
              /\ c_id c = sc_classroom_id sc;
  wp_lesson_key :
    parse_lesson_key (sc_lesson_key sc) = inl (sc_lang sc, sc_lesson_id sc);
  wp_quiz :
    exists lesson,
      get_lesson (sc_lessons sc) (sc_lang sc) (sc_lesson_id sc) = Some lesson
      /\ quiz_score (count_correct (sc_form sc) 0%nat (l_quiz lesson))
           (Z.of_nat (List.length (l_quiz lesson))) = inl score
      /\ passing_score <= score;
  wp_not_passed :
    existing_progress (progress d) student_id (sc_lang sc) (sc_lesson_id sc)
    = None
}.

(** The synchronisation invariants of the database. *)
Record consistent (d : db) : Prop := {
  co_wf : db_wf d;
  co_derived : derived_status d;
  co_score : score_consistent d;
  co_coverage : coverage d
}.

(** Where a run of the scenario stands: which of the three events have taken
    effect on [d], the identifier [aid] being the one the assignment gets. *)
Record stage (sc : scenario) (d0 d : db) (student_id score aid : Z)
    (created joined passed : bool) : Prop := {
  st_consistent : consistent d;
  st_classrooms : classrooms d = classrooms d0;
  st_account : exists u, find_user d student_id = Some u;
  st_created :
    if created
    then exists a, In a (assignments d) /\ a_id a = aid
                   /\ a_classroom_id a = sc_classroom_id sc
                   /\ a_lesson_lang a = sc_lang sc
                   /\ a_lesson_id a = sc_lesson_id sc
    else seq_assignments d + 1 = aid;
  st_joined :
    if joined
    then exists cs, In cs (classroom_students d)
                    /\ cs_classroom_id cs = sc_classroom_id sc
                    /\ cs_student_id cs = student_id
    else True;
  st_passed :
    if passed
    then exists p, In p (progress d)
                   /\ p_key p = (student_id, sc_lang sc, sc_lesson_id sc)
                   /\ p_score p = score
    else existing_progress (progress d) student_id (sc_lang sc)
           (sc_lesson_id sc) = None
}.

Definition happened (e : event) (order : list event) : bool :=
  existsb (event_eqb e) order.

(** The scenario of the end-to-end example on the small school. *)
Definition demo_scenario : scenario :=
  {| sc_teacher := demo_teacher; sc_student := demo_student;
     sc_classroom_id := 1; sc_code := "ab12cd";
     sc_lesson_key := "python:3"; sc_due_date := None; sc_comment := "";
     sc_lessons := demo_lessons; sc_today := 10;
     sc_lang := "python"; sc_lesson_id := 3; sc_form := demo_answers;
     sc_clock := fun e =>
       match e with
       | TeacherCreates => demo_clock
       | StudentJoins => demo_clock_later
       | StudentPasses => fun k => 3000 + Z.of_nat k
       end |}.

(** The order of ORDER BY ... DESC on the column [key]. *)
Definition desc (A : Type) (key : A -> Z) (x y : A) : Prop := key y <= key x.

(** ** Further vocabulary: guards, experience points, private grades *)

(** The role each route asks of the session: the argument of its
    [require_role] call ([join_class_by_code] compares the role itself). *)
Definition required_role (req : request) : string :=
  match req with
  | TeacherCreateAssignment _ _ _ _ => "Teacher"
  | TeacherGradeSubmission _ _ _ => "Teacher"
  | _ => "Student"
  end.

(** [get_total_xp]: SELECT COALESCE(SUM(xp), 0) FROM progress WHERE
    student_id = ?, as long as the sum stays within the INTEGER range (past
    it SQLite raises an integer overflow). *)
Definition get_total_xp (d : db) (user_id : Z) : Z :=
  fold_right Z.add 0
    (map p_xp (filter (fun p => p_student_id p =? user_id) (progress d))).

(** [lesson.get("xp", 100)]. *)
Definition lesson_xp (l : lesson) : Z :=
  match l_xp l with
  | Some x => x
  | None => 100
  end.

(** Every grade post is addressed to one student. *)
Definition grades_private (d : db) : Prop :=
  forall p, In p (stream_posts d) -> sp_kind p = kind_grade ->
    sp_audience p = audience_student /\ exists sid, sp_student_id p = Some sid.

(** ** Deleting a classroom: [teacher_delete_classroom] *)

(** The loop [for a in assignment_ids: DELETE FROM assignment_submissions
    WHERE assignment_id = ?]. *)
Fixpoint delete_submissions_of (assignment_ids : list Z) (rows : list submission)
  : list submission :=
  match assignment_ids with
  | [] => rows
  | aid :: rest =>
      delete_submissions_of rest
        (filter (fun r => negb (s_assignment_id r =? aid)) rows)
  end.

(** The DELETE statements run in the order of the source; the table
    [classroom_invites] is not one of the tables of [db], and [stream_posts]
    is not touched by the handler. *)
Definition teacher_delete_classroom (s : session) (classroom_id : Z) (d : db)
  : db * response :=
  match require_login s with
  | Some guard => (d, guard)
  | None =>
      match require_role s "Teacher", sess_user_id s with
      | None, Some teacher_id =>
          match find_owned_classroom d classroom_id teacher_id with
          | None => (d, redirect "teacher_home" (Some "Classroom not found."))
          | Some _ =>
              let assignment_ids := map a_id (assignments_of d classroom_id) in
              ({| users := users d;
                  classrooms :=
                    filter (fun c => negb (c_id c =? classroom_id)) (classrooms d);
                  classroom_students :=
                    filter (fun cs => negb (cs_classroom_id cs =? classroom_id))
                      (classroom_students d);
                  assignments :=
                    filter (fun a => negb (a_classroom_id a =? classroom_id))
                      (assignments d);
                  seq_assignments := seq_assignments d;
                  assignment_submissions :=
                    delete_submissions_of assignment_ids (assignment_submissions d);
                  seq_submissions := seq_submissions d;
                  progress := progress d;
                  notifications :=
                    filter (fun n => negb (opt_eqb (n_classroom_id n) classroom_id))
                      (notifications d);
                  stream_posts := stream_posts d |},
               redirect "teacher_home" (Some "Classroom deleted."))
          end
      | _, _ => (d, redirect "student_home" None)
      end
  end.

(** ** Announcements: [teacher_post_announcement] *)

Definition teacher_post_announcement (now : clock) (s : session)
    (classroom_id : Z) (message_field : string) (d : db) : db * response :=
  match require_login s with
  | Some guard => (d, guard)
  | None =>
      match require_role s "Teacher", sess_user_id s with
      | None, Some teacher_id =>
          let message := strip message_field in
          if negb (nonempty message)
          then (d, redirect "teacher_classroom"
                     (Some "Please write an announcement."))
          else
            match find_owned_classroom d classroom_id teacher_id with
            | None => (d, redirect "teacher_home" None)
            | Some classroom =>
                let students := students_of d classroom_id in
                let '(d1, k1) :=
                  create_stream_post now 0%nat classroom_id teacher_id
                    kind_announcement "Announcement" message audience_class
                    None d in
                let '(d2, _) :=
                  notify_all now k1 students "New announcement"
                    (c_name classroom ++ ": " ++ message)%string
                    (Some classroom_id) d1 in
                (d2, redirect "teacher_classroom" (Some "Announcement posted."))
            end
      | _, _ => (d, redirect "student_home" None)
      end
  end.

(** ** Notifications: [get_unread_notifications], [mark_notifications_read] *)

Definition unread_limit : nat := 3.

Definition get_unread_notifications (d : db) (user_id : Z) : list notification :=
  firstn unread_limit
    (sort_desc n_created_at
       (filter (fun n => (n_user_id n =? user_id) && negb (n_is_read n))
          (notifications d))).

Definition mark_read (n : notification) : notification :=
  {| n_user_id := n_user_id n; n_title := n_title n; n_body := n_body n;
     n_classroom_id := n_classroom_id n; n_is_read := true;
     n_created_at := n_created_at n |}.

(** [request.referrer or url_for("student_home")]. *)
Definition back_or_home (referrer : option string) : string :=
  match referrer with
  | Some r => if nonempty r then r else "student_home"
  | None => "student_home"
  end.

Definition mark_notifications_read (s : session) (referrer : option string)
    (d : db) : db * response :=
  match require_login s with
  | Some guard => (d, guard)
  | None =>
      match sess_user_id s with
      | Some user_id =>
          (with_notifications d
             (map (fun n => if n_user_id n =? user_id then mark_read n else n)
                (notifications d)),
           redirect (back_or_home referrer) None)
      | None => (d, redirect "login" None)
      end
  end.

(** ** The teacher's stream: [get_stream_posts_for_teacher] *)

Definition teacher_stream_rows (d : db) (classroom_id : Z) : list feed_row :=
  flat_map (fun p =>
    flat_map (fun u =>
      flat_map (fun c =>
        if (u_id u =? sp_author_id p) && (c_id c =? sp_classroom_id p)
           && (sp_classroom_id p =? classroom_id)
        then [{| fr_post := p; fr_author_name := u_name u;
                 fr_classroom_name := c_name c |}]
        else [])
        (classrooms d))
      (users d))
    (stream_posts d).

Definition get_stream_posts_for_teacher (d : db) (classroom_id : Z)
  : list feed_row :=
  firstn feed_limit
    (sort_desc (fun r => sp_created_at (fr_post r))
       (teacher_stream_rows d classroom_id)).

(** ** The lesson page: [student_lesson] *)

(** What the lesson page answers: a redirect, or the lesson with the flag
    [completed] of the template. *)
Inductive lesson_page :=
| lesson_redirect (endpoint : string)
| lesson_render (l : lesson) (completed : bool).

(** [len(completed)], [completed] being the set of [get_student_progress]. *)
Definition completed_count (d : db) (user_id : Z) (lang : string) : Z :=
  Z.of_nat (List.length (nodup Z.eq_dec (get_student_progress d user_id lang))).

(** [lesson_id > next_unlock and lesson_id not in completed]. *)
Definition locked (d : db) (user_id : Z) (lang : string) (lesson_id : Z) : bool :=
  (completed_count d user_id lang + 1 <? lesson_id)
  && negb (existsb (Z.eqb lesson_id) (get_student_progress d user_id lang)).

Definition student_lesson (data : list language) (s : session) (lang : string)
    (lesson_id : Z) (d : db) : lesson_page :=
  match require_login s with
  | Some _ => lesson_redirect "login"
  | None =>
      match require_role s "Student", sess_user_id s with
      | None, Some user_id =>
          match get_language data lang with
          | None => lesson_redirect "student_home"
          | Some _ =>
              if locked d user_id lang lesson_id
              then lesson_redirect "student_language"
              else
                match get_lesson data lang lesson_id with
                | None => lesson_redirect "student_language"
                | Some lesson =>
                    lesson_render lesson
                      (existsb (Z.eqb lesson_id)
                         (get_student_progress d user_id lang))
                end
          end
      | _, _ => lesson_redirect "teacher_home"
      end
  end.

(** No row of the tables the deletion clears refers to the classroom. *)
Definition no_trace (d : db) (classroom_id : Z) : Prop :=
  (forall c, In c (classrooms d) -> c_id c <> classroom_id)
  /\ (forall cs, In cs (classroom_students d) ->
        cs_classroom_id cs <> classroom_id)
  /\ (forall a, In a (assignments d) -> a_classroom_id a <> classroom_id)
  /\ (forall n, In n (notifications d) -> n_classroom_id n <> Some classroom_id).

(** ** The grading summary of [teacher_classroom] *)

(** A row of [SELECT a.*, COUNT(s.id) as total_subs, SUM(CASE WHEN s.status =
    'completed' THEN 1 ELSE 0 END) as completed_count FROM assignments a LEFT
    JOIN assignment_submissions s ON s.assignment_id = a.id ... GROUP BY
    a.id]; [a.id] is the primary key, so a group is an assignment. *)
Record summary_row := {
  sr_assignment : assignment;
  sr_total_subs : Z;
  sr_completed_count : Z
}.

Definition summary_of (d : db) (a : assignment) : summary_row :=
  let subs :=
    filter (fun s => s_assignment_id s =? a_id a) (assignment_submissions d) in
  {| sr_assignment := a;
     sr_total_subs := Z.of_nat (List.length subs);
     sr_completed_count :=
       Z.of_nat (List.length
                   (filter (fun s => status_eqb (s_status s) completed) subs)) |}.

Definition grading_summary (d : db) (classroom_id : Z) : list summary_row :=
  sort_desc (fun r => a_created_at (sr_assignment r))
    (map (summary_of d) (assignments_of d classroom_id)).

(** [lesson_id in get_student_progress(user_id, lang)]. *)
Definition passed_lesson (d : db) (user_id : Z) (lang : string) (lesson_id : Z)
  : bool :=
  existsb (Z.eqb lesson_id) (get_student_progress d user_id lang).

(** UNIQUE (classroom_id, student_id) of [classroom_students]. *)
Definition member_keys (d : db) : Prop :=
  NoDup (map (fun cs => (cs_classroom_id cs, cs_student_id cs))
           (classroom_students d)).

(** ** Where the embedding reads the program exactly

    The string functions above are those of Python on ASCII text, an INTEGER
    column of SQLite holds 64 bits, and [int] refuses a literal of more than
    [sys.get_int_max_str_digits()] digits. The statements that depend on
    what a handler does with a form field, a path segment or a number outside
    those ranges say so with the predicates below. *)

Definition is_ascii (c : ascii) : bool := Nat.ltb (nat_of_ascii c) 128.

Fixpoint ascii_text (s : string) : bool :=
  match s with
  | EmptyString => true
  | String c r => is_ascii c && ascii_text r
  end.

Definition int_max_str_digits : nat := 4300.

(** A field [int] can be called on: ASCII, and short enough for the limit
    on the digits of a literal. *)
Definition plain_text (s : string) : bool :=
  ascii_text s && Nat.leb (String.length s) int_max_str_digits.

Definition plain_field (v : option string) : bool :=
  match v with
  | Some s => plain_text s
  | None => true
  end.

(** The values of an INTEGER column. *)
Definition int64 (z : Z) : Prop := - 2 ^ 63 <= z < 2 ^ 63.

(** ** The grade column set aside *)

Definition clear_grade (r : submission) : submission :=
  {| s_id := s_id r; s_assignment_id := s_assignment_id r;
     s_student_id := s_student_id r; s_status := s_status r;
     s_completed_at := s_completed_at r; s_score := s_score r;
     s_grade_out_of_10 := None |}.

Definition clear_table (t : sub_table) : sub_table :=
  (map clear_grade (fst t), snd t).

(** The database with [grade_out_of_10] set to NULL in every submission. *)
Definition without_grades (d : db) : db :=
  with_submissions d (clear_table (submissions_of d)).

Definition clear_view (v : assignment_view) : assignment_view :=
  {| av_assignment := av_assignment v; av_status := av_status v;
     av_score := av_score v; av_grade_out_of_10 := None;
     av_classroom_name := av_classroom_name v |}.

(** * Properties *)

(** ** Streak Tracker *)

Lemma find_user_updated (f : user -> user) (uid : Z) (us : list user) :
  (forall u, u_id (f u) = u_id u) ->
  find (fun u => u_id u =? uid)
       (map (fun u => if u_id u =? uid then f u else u) us)
  = option_map f (find (fun u => u_id u =? uid) us).
Proof.
  intros Hid. induction us as [|v us IH]; simpl; [reflexivity|].
  destruct (u_id v =? uid) eqn:E.
  - rewrite Hid, E. reflexivity.
  - rewrite E. exact IH.
Qed.

Lemma update_streak_found (today uid : Z) (d : db) (u : user) :
  find_user d uid = Some u ->
  exists d',
    update_streak today uid d = inl d'
    /\ find_user d' uid = Some (set_streak (new_streak u today) today u).
Proof.
  intros Hu. unfold update_streak. rewrite Hu.
  eexists. split; [reflexivity|].
  unfold find_user in *. simpl.
  rewrite find_user_updated by reflexivity.
  rewrite Hu. reflexivity.
Qed.

Lemma new_streak_same_day (u : user) (today : Z) :
  last_active_date u = Some today -> new_streak u today = streak_count u.
Proof.
  intros H. unfold new_streak. rewrite H. simpl. now rewrite Z.eqb_refl.
Qed.

Lemma new_streak_next_day (u : user) (today : Z) :
  last_active_date u = Some (today - 1) -> new_streak u today = streak_count u + 1.
Proof.
  intros H. unfold new_streak. rewrite H. simpl.
  replace (today - 1 =? today) with false by (symmetry; apply Z.eqb_neq; lia).
  now rewrite Z.eqb_refl.
Qed.

Lemma new_streak_gap (u : user) (today : Z) :
  last_active_date u <> Some today ->
  last_active_date u <> Some (today - 1) ->
  new_streak u today = 1.
Proof.
  intros H1 H2. unfold new_streak, opt_date_eqb.
  destruct (last_active_date u) as [x|]; [|reflexivity].
  destruct (x =? today) eqn:E1.
  - apply Z.eqb_eq in E1. subst. congruence.
  - destruct (x =? today - 1) eqn:E2; [|reflexivity].
    apply Z.eqb_eq in E2. subst. congruence.
Qed.

(** C6. [update_streak] on the day [today] keeps the count when the user was
    last active today, adds one when the user was last active the day before,
    and sets it to 1 otherwise (a gap, or no activity yet); in every case the
    last active day becomes [today]. Hence, from a user with a gap or no
    activity, the days [D, D+1, D+3] give the counts 1, 2, 1 and the days
    [D, D] give 1, 1. *)
Theorem streak_transition_rule (d : db) (uid today : Z) (u : user) :
  find_user d uid = Some u ->
  (exists d' u',
      update_streak today uid d = inl d'
      /\ find_user d' uid = Some u'
      /\ last_active_date u' = Some today
      /\ (last_active_date u = Some today -> streak_count u' = streak_count u)
      /\ (last_active_date u = Some (today - 1) ->
          streak_count u' = streak_count u + 1)
      /\ (last_active_date u <> Some today ->
          last_active_date u <> Some (today - 1) ->
          streak_count u' = 1))
  /\ (last_active_date u <> Some today ->
      last_active_date u <> Some (today - 1) ->
      streak_counts uid [today; today + 1; today + 3] d = [Some 1; Some 2; Some 1]
      /\ streak_counts uid [today; today] d = [Some 1; Some 1]).
Proof.
  intros Hu. split.
  - destruct (update_streak_found today uid d Hu) as (d' & Hd' & Hf).
    exists d', (set_streak (new_streak u today) today u).
    repeat split; auto; simpl; intros.
    + now apply new_streak_same_day.
    + now apply new_streak_next_day.
    + now apply new_streak_gap.
  - intros G1 G2.
    destruct (update_streak_found today uid d Hu) as (d1 & Hd1 & Hf1).
    rewrite (new_streak_gap u G1 G2) in Hf1.
    set (u1 := set_streak 1 today u) in *.
    destruct (update_streak_found (today + 1) uid d1 Hf1) as (d2 & Hd2 & Hf2).
    rewrite (@new_streak_next_day u1 (today + 1)) in Hf2
      by (simpl; f_equal; lia).
    set (u2 := set_streak (streak_count u1 + 1) (today + 1) u1) in *.
    destruct (update_streak_found (today + 3) uid d2 Hf2) as (d3 & Hd3 & Hf3).
    rewrite (@new_streak_gap u2 (today + 3)) in Hf3
      by (simpl; intros E; inversion E; lia).
    destruct (update_streak_found today uid d1 Hf1) as (d2' & Hd2' & Hf2').
    rewrite (@new_streak_same_day u1 today) in Hf2' by reflexivity.
    split.
    + simpl. rewrite Hd1, Hf1. simpl. rewrite Hd2, Hf2. simpl.
      rewrite Hd3, Hf3. reflexivity.
    + simpl. rewrite Hd1, Hf1. simpl. rewrite Hd2', Hf2'. reflexivity.
Qed.

Lemma streak_transition_rule_witness :
  streak_counts 2 [10; 11; 13] demo_db = [Some 1; Some 2; Some 1]
  /\ streak_counts 2 [10; 10] demo_db = [Some 1; Some 1].
Proof.
  apply (proj2 (@streak_transition_rule demo_db 2 10 (demo_user 2 "Bob" "Student")
                  eq_refl)); simpl; discriminate.
Defined.

(** ** Quiz score *)

Lemma count_correct_bounds (form : answers) (quiz : list question) (idx : nat) :
  0 <= count_correct form idx quiz <= Z.of_nat (List.length quiz).
Proof.
  revert idx. induction quiz as [|q quiz IH]; intros idx.
  - simpl. lia.
  - specialize (IH (S idx)). cbn [count_correct List.length].
    destruct (is_correct (form idx) q); lia.
Qed.

Lemma scores_are_floor_49 : scores_are_floor 49 = true.
Proof. vm_compute. reflexivity. Qed.

Lemma quiz_score_short (c t : Z) :
  0 < t < 50 -> 0 <= c <= t -> quiz_score c t = inl (100 * c / t).
Proof.
  intros Ht Hc.
  pose proof scores_are_floor_49 as H. unfold scores_are_floor in H.
  rewrite forallb_forall in H.
  specialize (H (Z.to_nat t)).
  rewrite forallb_forall in H.
  assert (Hin : In (Z.to_nat t) (seq 1 49)) by (apply in_seq; lia).
  specialize (H Hin (Z.to_nat c)).
  assert (Hic : In (Z.to_nat c) (seq 0 (S (Z.to_nat t)))) by (apply in_seq; lia).
  specialize (H Hic).
  rewrite !Z2Nat.id in H by lia.
  unfold score_is_floor in H.
  destruct (quiz_score c t) as [n|e]; [|discriminate].
  apply Z.eqb_eq in H. now subst.
Qed.

Lemma quiz_score_zero_total (c : Z) : quiz_score c 0 = inr ZeroDivisionError.
Proof. reflexivity. Qed.

Lemma existing_progress_none_iff (ps : list progress_row) (uid : Z)
    (lang : string) (lid : Z) :
  existing_progress ps uid lang lid = None
  <-> existsb (Z.eqb lid)
        (map p_lesson_id
           (filter (fun p => (p_student_id p =? uid)
                             && String.eqb (p_lesson_lang p) lang) ps)) = false.
Proof.
  unfold existing_progress.
  induction ps as [|p ps IH]; simpl; [tauto|].
  destruct ((p_student_id p =? uid) && String.eqb (p_lesson_lang p) lang) eqn:E;
    simpl.
  - rewrite (Z.eqb_sym lid). destruct (p_lesson_id p =? lid); simpl.
    + split; discriminate.
    + exact IH.
  - exact IH.
Qed.

Lemma insert_progress_fresh (row : progress_row) (d : db) :
  existsb (Z.eqb (p_lesson_id row))
    (get_student_progress d (p_student_id row) (p_lesson_lang row)) = false ->
  insert_progress row (progress d) = Some (progress d ++ [row]).
Proof.
  intros H. unfold insert_progress.
  apply existing_progress_none_iff in H. now rewrite H.
Qed.

Ltac pass_guards Huid Hrole :=
  unfold require_login, require_role; rewrite ?Huid, ?Hrole; cbn iota beta.

(** The score on short quizzes. For a logged-in student and an existing
    lesson, [grade_quiz] divides by the number of questions without a guard:
    on an empty quiz it raises [ZeroDivisionError] and writes nothing; on a
    quiz of 1 to 49 questions it renders the result page with
    score = floor(100 * correct_count / total). *)
Theorem grade_quiz_score_defined (data : list language) (now : clock)
    (today : Z) (s : session) (lang : string) (lesson_id : Z) (form : answers)
    (d : db) (user_id : Z) (lesson : lesson) (u : user) :
  sess_user_id s = Some user_id ->
  role_is s "Student" = true ->
  get_lesson data lang lesson_id = Some lesson ->
  find_user d user_id = Some u ->
  (l_quiz lesson = [] ->
   grade_quiz data now today s lang lesson_id form d
   = (d, raised ZeroDivisionError))
  /\ (l_quiz lesson <> [] ->
      (List.length (l_quiz lesson) < 50)%nat ->
      exists r,
        snd (grade_quiz data now today s lang lesson_id form d) = render_quiz r
        /\ qr_score r
           = 100 * count_correct form 0%nat (l_quiz lesson)
             / Z.of_nat (List.length (l_quiz lesson))).
Proof.
  intros Huid Hrole Hlesson Hu. split.
  - intros Hq. unfold grade_quiz. pass_guards Huid Hrole.
    rewrite Hlesson, Hq. reflexivity.
  - intros Hq Hlen. unfold grade_quiz. pass_guards Huid Hrole.
    rewrite Hlesson.
    assert (Ht : 0 < Z.of_nat (List.length (l_quiz lesson)) < 50).
    { destruct (l_quiz lesson); [congruence|]. simpl List.length in *. lia. }
    rewrite (quiz_score_short Ht (count_correct_bounds form (l_quiz lesson) 0)).
    set (score := 100 * count_correct form 0%nat (l_quiz lesson)
                  / Z.of_nat (List.length (l_quiz lesson))).
    destruct (passing_score <=? score) eqn:Hp; cbn [andb];
      [|eexists; split; reflexivity].
    destruct (existsb (Z.eqb lesson_id) (get_student_progress d user_id lang))
      eqn:Hdone; cbn [negb];
      [eexists; split; reflexivity|].
    rewrite insert_progress_fresh by exact Hdone.
    match goal with
    | |- context [update_streak today user_id ?d1] =>
        destruct (@update_streak_found today user_id d1 u Hu) as (d2 & Hd2 & _);
        rewrite Hd2
    end.
    destruct (_complete_assignment_if_any now 1 user_id lang lesson_id score d2)
      as [[d3 k3] updated].
    eexists; split; reflexivity.
Qed.

Lemma grade_quiz_score_defined_witness :
  grade_quiz demo_lessons demo_clock 10 demo_student "python" 4 demo_answers demo_db
  = (demo_db, raised ZeroDivisionError)
  /\ exists r,
       snd (grade_quiz demo_lessons demo_clock 10 demo_student "python" 3
              demo_answers demo_db) = render_quiz r
       /\ qr_score r = 75.
Proof.
  split.
  - apply (proj1 (@grade_quiz_score_defined demo_lessons demo_clock 10
                    demo_student "python" 4 demo_answers demo_db 2
                    {| l_id := 4; l_quiz := []; l_xp := None |}
                    (demo_user 2 "Bob" "Student")
                    eq_refl eq_refl eq_refl eq_refl)).
    reflexivity.
  - apply (proj2 (@grade_quiz_score_defined demo_lessons demo_clock 10
                    demo_student "python" 3 demo_answers demo_db 2
                    {| l_id := 3;
                       l_quiz := [demo_question "a"; demo_question "b";
                                  demo_question "a"; demo_question "a"];
                       l_xp := Some 50 |}
                    (demo_user 2 "Bob" "Student")
                    eq_refl eq_refl eq_refl eq_refl)).
    + discriminate.
    + simpl. lia.
Defined.

(** C10. The score is not floor(100 * correct_count / total) on every quiz:
    [int((correct_count / total) * 100)] rounds twice in binary64 before it
    truncates. On the quiz of 50 questions of lesson 5, with 29 right
    answers, the page shows 57, and floor(100 * 29 / 50) is 58. *)
Lemma grade_quiz_score_not_floor :
  let quiz := repeat (demo_question "a") 50 in
  exists r,
    snd (grade_quiz demo_lessons demo_clock 10 demo_student "python" 5
           demo_answers_29 demo_db) = render_quiz r
    /\ qr_score r = 57
    /\ 100 * count_correct demo_answers_29 0%nat quiz
         / Z.of_nat (List.length quiz) = 58
    /\ qr_score r
       <> 100 * count_correct demo_answers_29 0%nat quiz
          / Z.of_nat (List.length quiz).
Proof.
  eexists. split; [vm_compute; reflexivity|].
  split; [reflexivity|].
  split; [vm_compute; reflexivity|].
  vm_compute. discriminate.
Qed.

(** ** Teacher grading *)

Lemma graded_rows_elim (grade sid : Z) (rows : list submission) (r' : submission) :
  In r' (map (fun r => if s_id r =? sid then set_grade grade r else r) rows) ->
  s_id r' = sid -> s_grade_out_of_10 r' = Some grade.
Proof.
  intros Hin Hid. apply in_map_iff in Hin. destruct Hin as (r & Hr & _).
  destruct (s_id r =? sid) eqn:E; subst r'.
  - reflexivity.
  - apply Z.eqb_neq in E. contradiction.
Qed.

Lemma graded_submission_in (d : db) (sid : Z) (sub : submission) (a : assignment) :
  graded_submission d sid = Some (sub, a) ->
  In sub (assignment_submissions d) /\ s_id sub = sid
  /\ In a (assignments d) /\ a_id a = s_assignment_id sub.
Proof.
  unfold graded_submission. intros H.
  assert (Hin : In (sub, a)
            (flat_map (fun s =>
               flat_map (fun a0 =>
                 if (a_id a0 =? s_assignment_id s) && (s_id s =? sid)
                 then [(s, a0)] else []) (assignments d))
               (assignment_submissions d))).
  { destruct (flat_map _ _) as [|x l]; [discriminate|].
    inversion H; subst. now left. }
  apply in_flat_map in Hin. destruct Hin as (s0 & Hs0 & Hin).
  apply in_flat_map in Hin. destruct Hin as (a0 & Ha0 & Hin).
  destruct ((a_id a0 =? s_assignment_id s0) && (s_id s0 =? sid)) eqn:E;
    [|contradiction].
  destruct Hin as [Heq|[]]. inversion Heq; subst.
  apply andb_prop in E. destruct E as [E1 E2].
  apply Z.eqb_eq in E1. apply Z.eqb_eq in E2. auto.
Qed.

(** C8. For a logged-in teacher and a grade field that is absent or is
    ASCII text within the limit of [int] on the digits of a literal: a field
    that is absent or not an
    integer literal, or an integer below 0 or above 10, is answered by a
    flashed validation message and leaves the database as it was; an integer
    from 0 to 10 on a submission that exists (with its assignment) is written
    to [grade_out_of_10] of that submission. *)
Theorem grade_validation (now : clock) (s : session) (referrer : option string)
    (submission_id : Z) (grade : option string) (d : db) (teacher_id : Z) :
  sess_user_id s = Some teacher_id ->
  role_is s "Teacher" = true ->
  plain_field grade = true ->
  (int_of_field grade = None ->
   teacher_grade_submission now s referrer submission_id grade d
   = (d, redirect (back_to referrer) (Some "Grade must be a number 0-10.")))
  /\ (forall v, int_of_field grade = Some v -> v < 0 \/ 10 < v ->
      teacher_grade_submission now s referrer submission_id grade d
      = (d, redirect (back_to referrer) (Some "Grade must be between 0 and 10.")))
  /\ (forall v sub a,
        int_of_field grade = Some v -> 0 <= v <= 10 ->
        graded_submission d submission_id = Some (sub, a) ->
        let d' := fst (teacher_grade_submission now s referrer submission_id
                         grade d) in
        assignment_submissions d'
        = map (fun r => if s_id r =? submission_id then set_grade v r else r)
              (assignment_submissions d)
        /\ In (set_grade v sub) (assignment_submissions d')
        /\ (forall r', In r' (assignment_submissions d') ->
              s_id r' = submission_id -> s_grade_out_of_10 r' = Some v)).
Proof.
  intros Huid Hrole _. split; [|split].
  - intros Hg. unfold teacher_grade_submission. pass_guards Huid Hrole.
    now rewrite Hg.
  - intros v Hg Hv. unfold teacher_grade_submission. pass_guards Huid Hrole.
    rewrite Hg.
    replace ((v <? 0) || (10 <? v)) with true; [reflexivity|].
    symmetry. apply orb_true_iff. destruct Hv; [left|right]; apply Z.ltb_lt; lia.
  - intros v sub a Hg Hv Hsub d'.
    assert (Hd' : assignment_submissions d'
                  = map (fun r => if s_id r =? submission_id
                                  then set_grade v r else r)
                        (assignment_submissions d)).
    { unfold d', teacher_grade_submission. pass_guards Huid Hrole.
      rewrite Hg.
      replace ((v <? 0) || (10 <? v)) with false
        by (symmetry; apply orb_false_iff; split; apply Z.ltb_ge; lia).
      rewrite Hsub. reflexivity. }
    split; [exact Hd'|]. rewrite Hd'. split.
    + apply graded_submission_in in Hsub. destruct Hsub as (Hin & Hid & _).
      apply in_map_iff. exists sub. split; [|exact Hin].
      rewrite Hid, Z.eqb_refl. reflexivity.
    + intros r' Hin Hid. eapply graded_rows_elim; eauto.
Qed.

Lemma grade_validation_witness :
  teacher_grade_submission demo_clock demo_teacher None 1 (Some "11") demo_graded
  = (demo_graded, redirect "teacher_home" (Some "Grade must be between 0 and 10."))
  /\ teacher_grade_submission demo_clock demo_teacher None 1 (Some "-1") demo_graded
     = (demo_graded,
        redirect "teacher_home" (Some "Grade must be between 0 and 10."))
  /\ teacher_grade_submission demo_clock demo_teacher None 1 (Some "ten") demo_graded
     = (demo_graded, redirect "teacher_home" (Some "Grade must be a number 0-10."))
  /\ map s_grade_out_of_10 (assignment_submissions demo_graded) = [Some 8; None]
  /\ forall r',
       In r' (assignment_submissions
                (fst (teacher_grade_submission demo_clock demo_teacher None 1
                        (Some "9") demo_graded))) ->
       s_id r' = 1 -> s_grade_out_of_10 r' = Some 9.
Proof.
  pose proof (fun g (Hg : plain_field g = true) =>
                @grade_validation demo_clock demo_teacher None 1 g
                  demo_graded 1 eq_refl eq_refl Hg) as V.
  split; [|split; [|split; [|split]]].
  - apply (proj1 (proj2 (V (Some "11") eq_refl)) 11); [reflexivity | lia].
  - apply (proj1 (proj2 (V (Some "-1") eq_refl)) (-1)); [reflexivity | lia].
  - apply (proj1 (V (Some "ten") eq_refl)). reflexivity.
  - reflexivity.
  - destruct (graded_submission demo_graded 1) as [[sub a]|] eqn:E;
      [|vm_compute in E; discriminate].
    apply (proj2 (proj2 (proj2 (V (Some "9") eq_refl)) 9 sub a eq_refl
                    ltac:(lia) eq_refl)).
Defined.

(** ** Stream feed *)

Section SortDesc.
Variable A : Type.
Variable key : A -> Z.

Lemma insert_desc_perm (x : A) (l : list A) :
  Permutation (insert_desc key x l) (x :: l).
Proof.
  induction l as [|y l IH]; simpl; [reflexivity|].
  destruct (key y <=? key x); [reflexivity|].
  rewrite IH. apply perm_swap.
Qed.

Lemma sort_desc_perm (l : list A) : Permutation (sort_desc key l) l.
Proof.
  induction l as [|x l IH]; simpl; [reflexivity|].
  rewrite insert_desc_perm. now apply perm_skip.
Qed.

Lemma insert_desc_sorted (x : A) (l : list A) :
  StronglySorted (desc key) l -> StronglySorted (desc key) (insert_desc key x l).
Proof.
  induction l as [|y l IH]; intros Hs; simpl.
  - constructor; constructor.
  - inversion Hs as [|y' l' Hl Hy]; subst.
    destruct (key y <=? key x) eqn:E.
    + apply Z.leb_le in E. constructor; [exact Hs|].
      constructor; [exact E|].
      rewrite Forall_forall in *. intros z Hz.
      specialize (Hy z Hz). unfold desc in *. lia.
    + apply Z.leb_gt in E. constructor; [now apply IH|].
      rewrite Forall_forall in *. intros z Hz.
      apply (Permutation_in _ (insert_desc_perm x l)) in Hz.
      destruct Hz as [<-|Hz]; [unfold desc; lia | now apply Hy].
Qed.

Lemma sort_desc_sorted (l : list A) : StronglySorted (desc key) (sort_desc key l).
Proof.
  induction l as [|x l IH]; simpl; [constructor|].
  now apply insert_desc_sorted.
Qed.

Lemma sort_desc_in (l : list A) (x : A) : In x (sort_desc key l) <-> In x l.
Proof.
  split; apply Permutation_in;
    [apply sort_desc_perm | symmetry; apply sort_desc_perm].
Qed.
End SortDesc.

Lemma sort_desc_map (A B : Type) (f : A -> B) (key : B -> Z) (l : list A) :
  map f (sort_desc (fun x => key (f x)) l) = sort_desc key (map f l).
Proof.
  induction l as [|x l IH]; simpl; [reflexivity|].
  rewrite <- IH. generalize (sort_desc (fun x0 => key (f x0)) l). intros m.
  induction m as [|y m IHm]; simpl; [reflexivity|].
  destruct (key (f y) <=? key (f x)); simpl; [reflexivity|].
  now rewrite IHm.
Qed.

Lemma flat_map_nil (A B : Type) (f : A -> list B) (l : list A) :
  (forall x, In x l -> f x = []) -> flat_map f l = [].
Proof.
  induction l as [|x l IH]; intros H; simpl; [reflexivity|].
  rewrite (H x) by now left. apply IH. intros y Hy. apply H. now right.
Qed.

(** A join on a primary key finds its row once. *)
Lemma flat_map_unique (A B : Type) (key : A -> Z) (f : A -> list B)
    (l : list A) (x : A) :
  NoDup (map key l) -> In x l ->
  (forall y, key y <> key x -> f y = []) ->
  flat_map f l = f x.
Proof.
  induction l as [|y l IH]; intros Hnd Hin Hf; [contradiction|].
  simpl in Hnd. inversion Hnd as [|k ks Hk Hnd']; subst.
  simpl. destruct Hin as [->|Hin].
  - rewrite (@flat_map_nil _ _ f l); [apply app_nil_r|].
    intros z Hz. apply Hf. intros E. apply Hk. rewrite <- E.
    now apply in_map.
  - rewrite Hf; [now apply IH|].
    intros E. apply Hk. rewrite E. now apply in_map.
Qed.

Lemma audience_eqb_eq (a b : post_audience) : audience_eqb a b = true <-> a = b.
Proof. destruct a, b; simpl; split; congruence. Qed.

Lemma kind_eqb_eq (a b : post_kind) : kind_eqb a b = true <-> a = b.
Proof. destruct a, b; simpl; split; congruence. Qed.

Lemma opt_eqb_eq (a : option Z) (b : Z) : opt_eqb a b = true <-> a = Some b.
Proof.
  destruct a as [x|]; simpl; [|split; discriminate].
  rewrite Z.eqb_eq. split; congruence.
Qed.

Lemma existsb_eqb_in (x : Z) (l : list Z) : existsb (Z.eqb x) l = true <-> In x l.
Proof.
  rewrite existsb_exists. split.
  - intros (y & Hy & E). apply Z.eqb_eq in E. now subst.
  - intros H. exists x. split; [exact H | apply Z.eqb_refl].
Qed.

Lemma visible_to_spec (ids : list Z) (uid : Z) (p : stream_post) :
  visible_to ids uid p = true
  <-> In (sp_classroom_id p) ids /\ addressed_to uid p /\ ~ class_grade p.
Proof.
  unfold visible_to, addressed_to, class_grade.
  rewrite !andb_true_iff, orb_true_iff, andb_true_iff, negb_true_iff,
    existsb_eqb_in, !audience_eqb_eq, opt_eqb_eq.
  rewrite <- not_true_iff_false, andb_true_iff, kind_eqb_eq, audience_eqb_eq.
  tauto.
Qed.

Lemma joined_classrooms_ids (d : db) (uid cid : Z) :
  In cid (map c_id (joined_classrooms d uid)) <-> joined d uid cid.
Proof.
  unfold joined, joined_classrooms. rewrite in_map_iff. split.
  - intros (c & Hc & Hin). apply in_flat_map in Hin.
    destruct Hin as (c0 & Hc0 & Hin). apply in_flat_map in Hin.
    destruct Hin as (cs & Hcs & Hin).
    destruct ((cs_classroom_id cs =? c_id c0) && (cs_student_id cs =? uid))
      eqn:E; [|contradiction].
    destruct Hin as [<-|[]]. apply andb_prop in E. destruct E as [E1 E2].
    apply Z.eqb_eq in E1. apply Z.eqb_eq in E2. subst cid.
    split; [exists c0 | exists cs]; auto.
  - intros ((c & Hc & Hid) & (cs & Hcs & Hcid & Huid)).
    exists c. split; [exact Hid|].
    apply in_flat_map. exists c. split; [exact Hc|].
    apply in_flat_map. exists cs. split; [exact Hcs|].
    replace (cs_classroom_id cs =? c_id c) with true
      by (symmetry; apply Z.eqb_eq; congruence).
    replace (cs_student_id cs =? uid) with true
      by (symmetry; now apply Z.eqb_eq).
    now left.
Qed.

Lemma stream_rows_visible (d : db) (ids : list Z) (uid : Z) (r : feed_row) :
  In r (stream_rows d ids uid) ->
  In (fr_post r) (stream_posts d) /\ visible_to ids uid (fr_post r) = true.
Proof.
  unfold stream_rows. intros Hin.
  apply in_flat_map in Hin. destruct Hin as (p & Hp & Hin).
  apply in_flat_map in Hin. destruct Hin as (u & Hu & Hin).
  apply in_flat_map in Hin. destruct Hin as (c & Hc & Hin).
  destruct ((u_id u =? sp_author_id p) && (c_id c =? sp_classroom_id p)
            && visible_to ids uid p) eqn:E; [|contradiction].
  destruct Hin as [<-|[]]. simpl.
  apply andb_prop in E. destruct E as [_ E]. auto.
Qed.

(** Under the key constraints every post that passes the WHERE clause joins
    with exactly one user and one classroom. *)
Lemma stream_rows_posts (d : db) (ids : list Z) (uid : Z) :
  primary_keys d -> authors_exist d ->
  (forall cid, In cid ids -> exists c, In c (classrooms d) /\ c_id c = cid) ->
  map fr_post (stream_rows d ids uid)
  = filter (visible_to ids uid) (stream_posts d).
Proof.
  intros [Hku Hkc] Hauth Hcls. unfold stream_rows.
  assert (Hsub : forall ps, incl ps (stream_posts d) ->
    map fr_post
      (flat_map (fun p =>
         flat_map (fun u =>
           flat_map (fun c =>
             if (u_id u =? sp_author_id p) && (c_id c =? sp_classroom_id p)
                && visible_to ids uid p
             then [{| fr_post := p; fr_author_name := u_name u;
                      fr_classroom_name := c_name c |}]
             else []) (classrooms d)) (users d)) ps)
    = filter (visible_to ids uid) ps).
  { induction ps as [|p ps IH]; intros Hincl; [reflexivity|].
    cbn [flat_map filter]. rewrite map_app, IH
      by (intros x Hx; apply Hincl; now right).
    destruct (visible_to ids uid p) eqn:Hv.
    - destruct (Hauth p (Hincl p (or_introl eq_refl))) as (u & Hu & Huid).
      apply visible_to_spec in Hv. destruct Hv as (Hin & _).
      destruct (Hcls _ Hin) as (c & Hc & Hcid).
      rewrite (@flat_map_unique _ _ u_id _ (users d) u Hku Hu).
      + rewrite (@flat_map_unique _ _ c_id _ (classrooms d) c Hkc Hc).
        * rewrite Huid, Hcid, !Z.eqb_refl. reflexivity.
        * intros c' Hne.
          replace (c_id c' =? sp_classroom_id p) with false
            by (symmetry; apply Z.eqb_neq; congruence).
          now rewrite andb_false_r.
      + intros u' Hne. apply flat_map_nil. intros c' _.
        replace (u_id u' =? sp_author_id p) with false
          by (symmetry; apply Z.eqb_neq; congruence).
        reflexivity.
    - rewrite flat_map_nil; [reflexivity|].
      intros u _. apply flat_map_nil. intros c _.
      now rewrite andb_false_r. }
  apply Hsub. apply incl_refl.
Qed.

Lemma in_firstn (A : Type) (n : nat) (l : list A) (x : A) :
  In x (firstn n l) -> In x l.
Proof.
  intros H. rewrite <- (firstn_skipn n l). apply in_or_app. now left.
Qed.

Lemma visible_to_no_classroom (uid : Z) (p : stream_post) :
  visible_to [] uid p = false.
Proof. reflexivity. Qed.

(** C9. Under the key constraints of the schema, the posts of the feed of a
    student are the first 30, newest first, of the posts that lie in a
    classroom the student joined and are addressed to the class or to that
    student, class-wide grade posts excluded. A post addressed to one
    student is in no other student's feed. *)
Theorem student_feed_contract (d : db) (uid : Z) :
  primary_keys d -> authors_exist d ->
  let matching :=
    filter (visible_to (map c_id (joined_classrooms d uid)) uid)
           (stream_posts d) in
  (forall p, In p matching <-> in_feed_contract d uid p)
  /\ map fr_post (student_feed d uid)
     = firstn 30 (sort_desc sp_created_at matching)
  /\ Permutation (sort_desc sp_created_at matching) matching
  /\ newest_first (sort_desc sp_created_at matching)
  /\ (forall other p,
        In p (map fr_post (student_feed d other)) ->
        sp_audience p = audience_student ->
        sp_student_id p = Some uid ->
        other = uid).
Proof.
  intros Hpk Hauth matching. split; [|split; [|split; [|split]]].
  - intros p. unfold matching, in_feed_contract.
    rewrite filter_In, visible_to_spec, joined_classrooms_ids. tauto.
  - unfold student_feed, get_stream_posts_for_student.
    destruct (map c_id (joined_classrooms d uid)) as [|cid ids] eqn:Hids.
    + unfold matching.
      rewrite (@filter_ext _ _ (fun _ => false))
        by (intros p; apply visible_to_no_classroom).
      clear. induction (stream_posts d); simpl; auto.
    + rewrite <- firstn_map.
      rewrite (sort_desc_map fr_post sp_created_at).
      rewrite stream_rows_posts; auto.
      intros c Hc. rewrite <- Hids in Hc.
      apply joined_classrooms_ids in Hc. apply Hc.
  - apply sort_desc_perm.
  - apply sort_desc_sorted.
  - intros other p Hin Haud Hsid.
    apply in_map_iff in Hin. destruct Hin as (r & <- & Hin).
    unfold student_feed, get_stream_posts_for_student in Hin.
    destruct (map c_id (joined_classrooms d other)) as [|cid ids];
      [contradiction|].
    apply in_firstn in Hin. apply sort_desc_in in Hin.
    apply stream_rows_visible in Hin. destruct Hin as [_ Hv].
    apply visible_to_spec in Hv. destruct Hv as (_ & [Hc|[_ Hs]] & _).
    + rewrite Haud in Hc. discriminate.
    + rewrite Hsid in Hs. congruence.
Qed.

(** ** Frame: reconciliation and the grade column *)

Lemma same_identity_refl (r : submission) : same_identity r r.
Proof. repeat split. Qed.

Lemma same_identity_trans (a b c : submission) :
  same_identity a b -> same_identity b c -> same_identity a c.
Proof. unfold same_identity. intuition congruence. Qed.

Lemma same_identity_set_completed (t sc : Z) (r : submission) :
  same_identity r (set_completed t sc r).
Proof. repeat split. Qed.

Lemma Forall2_same (A : Type) (R : A -> A -> Prop) (l : list A) :
  (forall x, R x x) -> Forall2 R l l.
Proof. intros H. induction l; constructor; auto. Qed.

Lemma Forall2_map_r (A : Type) (R : A -> A -> Prop) (f : A -> A) (l : list A) :
  (forall x, R x (f x)) -> Forall2 R l (map f l).
Proof. intros H. induction l; simpl; constructor; auto. Qed.

Lemma Forall2_trans (A : Type) (R : A -> A -> Prop) :
  (forall a b c, R a b -> R b c -> R a c) ->
  forall l1 l2 l3, Forall2 R l1 l2 -> Forall2 R l2 l3 -> Forall2 R l1 l3.
Proof.
  intros HR l1 l2 l3 H12. revert l3.
  induction H12; intros l3 H23; inversion H23; subst; constructor; eauto.
Qed.

Lemma grades_kept_refl (rows : list submission) : grades_kept rows rows.
Proof.
  exists rows, []. rewrite app_nil_r. repeat split.
  - apply Forall2_same, same_identity_refl.
  - constructor.
Qed.

Lemma grades_kept_trans (a b c : list submission) :
  grades_kept a b -> grades_kept b c -> grades_kept a c.
Proof.
  intros (o1 & n1 & -> & H1 & N1) (o2 & n2 & -> & H2 & N2).
  apply Forall2_app_inv_l in H2. destruct H2 as (o2a & o2b & Ha & Hb & ->).
  exists o2a, (o2b ++ n2). rewrite app_assoc. repeat split.
  - eapply Forall2_trans; eauto using same_identity_trans.
  - apply Forall_app. split; [|exact N2].
    clear - N1 Hb. induction Hb; constructor.
    + inversion N1; subst. destruct H as (_ & _ & _ & Hg). congruence.
    + inversion N1; subst. auto.
Qed.

Lemma grades_kept_map (f : submission -> submission) (rows : list submission) :
  (forall r, same_identity r (f r)) -> grades_kept rows (map f rows).
Proof.
  intros H. exists (map f rows), []. rewrite app_nil_r. repeat split.
  - now apply Forall2_map_r.
  - constructor.
Qed.

Lemma grades_kept_insert (id aid sid : Z) (st : sub_status)
    (at_ sc : option Z) (rows : list submission) :
  grades_kept rows (rows ++ [new_submission id aid sid st at_ sc]).
Proof.
  exists rows, [new_submission id aid sid st at_ sc]. repeat split.
  - apply Forall2_same, same_identity_refl.
  - repeat constructor.
Qed.

Lemma insert_or_ignore_grades (aid sid : Z) (st : sub_status)
    (at_ sc : option Z) (t : sub_table) :
  grades_kept (fst t) (fst (insert_or_ignore_submission aid sid st at_ sc t)).
Proof.
  unfold insert_or_ignore_submission.
  destruct (existsb _ _); simpl.
  - apply grades_kept_refl.
  - apply grades_kept_insert.
Qed.

Lemma upsert_completed_grades (aid sid at_ sc : Z) (t : sub_table) :
  grades_kept (fst t) (fst (upsert_completed aid sid at_ sc t)).
Proof.
  unfold upsert_completed. destruct (existsb _ _); simpl.
  - apply grades_kept_map. intros r.
    destruct (sub_key_eqb aid sid r);
      [apply same_identity_set_completed | apply same_identity_refl].
  - apply grades_kept_insert.
Qed.

Lemma ensure_loop_grades (now : clock) (ps : list progress_row) (aid : Z)
    (lang : string) (lid : Z) (students : list Z) (k : nat) (t : sub_table) :
  grades_kept (fst t) (fst (fst (ensure_loop now ps aid lang lid students k t))).
Proof.
  revert k t. induction students as [|st students IH]; intros k t; simpl.
  - apply grades_kept_refl.
  - destruct (backfill_values now k (existing_progress ps st lang lid))
      as [[[status at_] sc] k'].
    eapply grades_kept_trans; [|apply IH]. apply insert_or_ignore_grades.
Qed.

Lemma join_loop_grades (now : clock) (ps : list progress_row) (uid : Z)
    (rows : list assignment) (k : nat) (t : sub_table) :
  grades_kept (fst t) (fst (fst (join_loop now ps uid rows k t))).
Proof.
  revert k t. induction rows as [|a rows IH]; intros k t; simpl.
  - apply grades_kept_refl.
  - destruct (backfill_values now k
                (existing_progress ps uid (a_lesson_lang a) (a_lesson_id a)))
      as [[[status at_] sc] k'].
    eapply grades_kept_trans; [|apply IH]. apply insert_or_ignore_grades.
Qed.

Lemma backfill_loop_grades (now : clock) (ps : list progress_row) (uid : Z)
    (views : list assignment_view) (k : nat) (t : sub_table) :
  grades_kept (fst t) (fst (fst (backfill_loop now ps uid views k t))).
Proof.
  revert k t. induction views as [|v views IH]; intros k t; simpl.
  - apply grades_kept_refl.
  - destruct (is_completed (av_status v)); [apply IH|].
    destruct (existing_progress ps uid _ _); [|apply IH].
    eapply grades_kept_trans; [|apply IH]. apply upsert_completed_grades.
Qed.

Lemma complete_loop_rows (now : clock) (score : Z) (ids : list Z) (k : nat)
    (rows : list submission) :
  complete_loop now score ids k rows
  = (map (complete_row now score ids k) rows, (k + List.length ids)%nat).
Proof.
  revert k rows. induction ids as [|id ids IH]; intros k rows; simpl.
  - rewrite map_id. f_equal. lia.
  - rewrite IH, map_map. f_equal. lia.
Qed.

Lemma complete_row_spec (now : clock) (score : Z) (ids : list Z) (k : nat)
    (s : submission) :
  (~ In (s_id s) ids /\ complete_row now score ids k s = s)
  \/ (In (s_id s) ids
      /\ exists j, complete_row now score ids k s = set_completed (now j) score s).
Proof.
  revert k s. induction ids as [|id ids IH]; intros k s; simpl.
  - left. tauto.
  - destruct (s_id s =? id) eqn:E.
    + apply Z.eqb_eq in E. right. split; [now left|].
      destruct (IH (S k) (set_completed (now k) score s)) as [[_ H]|[_ [j H]]];
        rewrite H; [exists k | exists j]; reflexivity.
    + apply Z.eqb_neq in E.
      destruct (IH (S k) s) as [[Hn H]|[Hi [j H]]].
      * left. split; [|exact H]. intros [F|F]; [congruence|contradiction].
      * right. split; [now right|]. eauto.
Qed.

Lemma complete_row_identity (now : clock) (score : Z) (ids : list Z) (k : nat)
    (s : submission) :
  same_identity s (complete_row now score ids k s).
Proof.
  destruct (complete_row_spec now score ids k s) as [[_ H]|[_ [j H]]];
    rewrite H; [apply same_identity_refl | apply same_identity_set_completed].
Qed.

Lemma update_streak_tables (today uid : Z) (d d' : db) :
  update_streak today uid d = inl d' -> exists us, d' = with_users d us.
Proof.
  unfold update_streak. destruct (find_user d uid); [|discriminate].
  intros H. inversion H. eauto.
Qed.

Lemma notify_all_tables (now : clock) (students : list Z) (title body : string)
    (cid : option Z) (k : nat) (d : db) :
  exists ns,
    fst (notify_all now k students title body cid d) = with_notifications d ns.
Proof.
  revert k d. induction students as [|st students IH]; intros k d; simpl.
  - exists (notifications d). now destruct d.
  - destruct (IH (S k) (fst (create_notification now k st title body cid d)))
      as [ns Hns].
    simpl in Hns. exists ns. rewrite Hns. reflexivity.
Qed.

Lemma complete_assignment_rows (now : clock) (k : nat) (uid : Z) (lang : string)
    (lid score : Z) (d : db) :
  fst (fst (_complete_assignment_if_any now k uid lang lid score d))
  = with_submissions d
      (map (complete_row now score (pending_submissions d uid lid lang) k)
           (assignment_submissions d),
       seq_submissions d).
Proof.
  unfold _complete_assignment_if_any. rewrite complete_loop_rows. reflexivity.
Qed.

Lemma join_with_code_grades (now : clock) (uid : Z) (code : string) (d : db) :
  grades_kept (assignment_submissions d)
    (assignment_submissions (fst (join_with_code now uid code d))).
Proof.
  unfold join_with_code.
  destruct (find_classroom_by_code d code) as [c|]; [|apply grades_kept_refl].
  match goal with
  | |- context [join_loop ?n ?ps ?u ?rows ?k ?t] =>
      pose proof (join_loop_grades n ps u rows k t) as H;
      destruct (join_loop n ps u rows k t) as [t' k']
  end.
  exact H.
Qed.

Lemma ensure_grades (now : clock) (k : nat) (aid cid : Z) (lang : string)
    (lid : Z) (d : db) :
  grades_kept (assignment_submissions d)
    (assignment_submissions
       (fst (ensure_assignment_submissions now k aid cid lang lid d))).
Proof.
  unfold ensure_assignment_submissions.
  match goal with
  | |- context [ensure_loop ?n ?ps ?a ?l ?i ?sts ?k0 ?t] =>
      pose proof (ensure_loop_grades n ps a l i sts k0 t) as H;
      destruct (ensure_loop n ps a l i sts k0 t) as [t' k']
  end.
  exact H.
Qed.

Lemma grade_quiz_grades (data : list language) (now : clock) (today : Z)
    (s : session) (lang : string) (lid : Z) (form : answers) (d : db) :
  grades_kept (assignment_submissions d)
    (assignment_submissions (fst (grade_quiz data now today s lang lid form d))).
Proof.
  unfold grade_quiz.
  repeat match goal with
  | |- grades_kept ?r (assignment_submissions (fst (?d0, _))) =>
      apply grades_kept_refl
  | |- context [match ?x with _ => _ end] =>
      lazymatch x with
      | update_streak _ _ _ => fail
      | _complete_assignment_if_any _ _ _ _ _ _ _ => fail
      | _ => destruct x eqn:?
      end
  end.
  destruct (update_streak today _ _) as [d2|e] eqn:Hs;
    [|apply grades_kept_refl].
  apply update_streak_tables in Hs. destruct Hs as [us ->].
  match goal with
  | |- context [_complete_assignment_if_any ?n ?k ?u ?l ?i ?sc ?d2] =>
      pose proof (complete_assignment_rows n k u l i sc d2) as H;
      destruct (_complete_assignment_if_any n k u l i sc d2) as [[d3 k3] upd]
  end.
  simpl in H. subst d3. simpl.
  apply grades_kept_map. intros r. apply complete_row_identity.
Qed.

Lemma student_classroom_get_grades (now : clock) (s : session) (d : db) :
  grades_kept (assignment_submissions d)
    (assignment_submissions (fst (student_classroom_get now s d))).
Proof.
  unfold student_classroom_get.
  destruct (require_login s); [apply grades_kept_refl|].
  destruct (require_role s "Student"); [apply grades_kept_refl|].
  destruct (sess_user_id s) as [uid|]; [|apply grades_kept_refl].
  match goal with
  | |- context [backfill_loop ?n ?ps ?u ?vs ?k ?t] =>
      pose proof (backfill_loop_grades n ps u vs k t) as H;
      destruct (backfill_loop n ps u vs k t) as [t' k']
  end.
  exact H.
Qed.

Lemma teacher_create_assignment_grades (now : clock) (s : session) (cid : Z)
    (key : string) (due : option string) (comment : string) (d : db) :
  grades_kept (assignment_submissions d)
    (assignment_submissions
       (fst (teacher_create_assignment now s cid key due comment d))).
Proof.
  unfold teacher_create_assignment.
  destruct (require_login s); [apply grades_kept_refl|].
  destruct (require_role s "Teacher"); [apply grades_kept_refl|].
  destruct (sess_user_id s) as [tid|]; [|apply grades_kept_refl].
  destruct (parse_lesson_key key) as [[lang lid]|e]; [|apply grades_kept_refl].
  destruct (find_owned_classroom d cid tid) as [c|]; [|apply grades_kept_refl].
  match goal with
  | |- context [ensure_assignment_submissions ?n ?k ?a ?c0 ?l ?i ?d1] =>
      pose proof (ensure_grades n k a c0 l i d1) as H;
      destruct (ensure_assignment_submissions n k a c0 l i d1) as [d2 k2]
  end.
  simpl in H. unfold create_stream_post.
  match goal with
  | |- context [notify_all ?n ?k ?sts ?ti ?bo ?ci ?d3] =>
      destruct (notify_all_tables n sts ti bo ci k d3) as [ns Hns];
      destruct (notify_all n k sts ti bo ci d3) as [d4 k4]
  end.
  simpl in Hns. subst d4. exact H.
Qed.

(** ** The synchronizer does not read the grade *)

Lemma clear_grade_key (aid sid : Z) (r : submission) :
  sub_key_eqb aid sid (clear_grade r) = sub_key_eqb aid sid r.
Proof. reflexivity. Qed.

Lemma existsb_clear_grade (aid sid : Z) (rows : list submission) :
  existsb (sub_key_eqb aid sid) (map clear_grade rows)
  = existsb (sub_key_eqb aid sid) rows.
Proof. induction rows as [|r rows IH]; simpl; [reflexivity|]. now rewrite IH. Qed.

Lemma insert_or_ignore_clear (aid sid : Z) (st : sub_status)
    (at_ sc : option Z) (t : sub_table) :
  insert_or_ignore_submission aid sid st at_ sc (clear_table t)
  = clear_table (insert_or_ignore_submission aid sid st at_ sc t).
Proof.
  unfold insert_or_ignore_submission, clear_table. cbn [fst snd].
  rewrite existsb_clear_grade.
  destruct (existsb _ (fst t)); cbn [fst snd]; [reflexivity|].
  now rewrite map_app.
Qed.

Lemma ensure_loop_clear (now : clock) (ps : list progress_row) (aid : Z)
    (lang : string) (lid : Z) (students : list Z) :
  forall k t,
    ensure_loop now ps aid lang lid students k (clear_table t)
    = (clear_table (fst (ensure_loop now ps aid lang lid students k t)),
       snd (ensure_loop now ps aid lang lid students k t)).
Proof.
  induction students as [|st rest IH]; intros k t; simpl; [reflexivity|].
  destruct (backfill_values now k (existing_progress ps st lang lid))
    as [[[status at_] sc] k'].
  rewrite insert_or_ignore_clear. apply IH.
Qed.

Lemma join_loop_clear (now : clock) (ps : list progress_row) (uid : Z)
    (rows : list assignment) :
  forall k t,
    join_loop now ps uid rows k (clear_table t)
    = (clear_table (fst (join_loop now ps uid rows k t)),
       snd (join_loop now ps uid rows k t)).
Proof.
  induction rows as [|a rest IH]; intros k t; simpl; [reflexivity|].
  destruct (backfill_values now k
              (existing_progress ps uid (a_lesson_lang a) (a_lesson_id a)))
    as [[[status at_] sc] k'].
  rewrite insert_or_ignore_clear. apply IH.
Qed.

Lemma upsert_completed_clear (aid sid at_ sc : Z) (t : sub_table) :
  upsert_completed aid sid at_ sc (clear_table t)
  = clear_table (upsert_completed aid sid at_ sc t).
Proof.
  unfold upsert_completed, clear_table. cbn [fst snd].
  rewrite existsb_clear_grade.
  destruct (existsb _ (fst t)); cbn [fst snd].
  - f_equal. rewrite !map_map. apply map_ext. intros r.
    rewrite clear_grade_key. now destruct (sub_key_eqb aid sid r).
  - now rewrite map_app.
Qed.

Lemma backfill_loop_clear (now : clock) (ps : list progress_row) (uid : Z)
    (views : list assignment_view) :
  forall k t,
    backfill_loop now ps uid (map clear_view views) k (clear_table t)
    = (clear_table (fst (backfill_loop now ps uid views k t)),
       snd (backfill_loop now ps uid views k t)).
Proof.
  induction views as [|v rest IH]; intros k t; simpl; [reflexivity|].
  destruct (is_completed (av_status v)); [apply IH|].
  destruct (existing_progress ps uid (a_lesson_lang (av_assignment v))
              (a_lesson_id (av_assignment v))) as [p|]; [|apply IH].
  rewrite upsert_completed_clear. apply IH.
Qed.

Lemma flat_map_map (A B C : Type) (g : A -> B) (f : B -> list C) (l : list A) :
  flat_map f (map g l) = flat_map (fun x => f (g x)) l.
Proof. induction l as [|x l IH]; simpl; [reflexivity|]. now rewrite IH. Qed.

Lemma map_flat_map (A B C : Type) (g : B -> C) (f : A -> list B) (l : list A) :
  map g (flat_map f l) = flat_map (fun x => map g (f x)) l.
Proof.
  induction l as [|x l IH]; simpl; [reflexivity|]. now rewrite map_app, IH.
Qed.

Lemma filter_key_clear (aid sid : Z) (rows : list submission) :
  filter (sub_key_eqb aid sid) (map clear_grade rows)
  = map clear_grade (filter (sub_key_eqb aid sid) rows).
Proof.
  induction rows as [|r rows IH]; simpl; [reflexivity|].
  rewrite clear_grade_key. destruct (sub_key_eqb aid sid r); simpl;
    now rewrite IH.
Qed.

Lemma student_assignment_rows_clear (d : db) (uid : Z) :
  student_assignment_rows (without_grades d) uid
  = map clear_view (student_assignment_rows d uid).
Proof.
  unfold student_assignment_rows.
  match goal with
  | |- _ = map clear_view (sort_desc ?key ?l) =>
      transitivity (sort_desc key (map clear_view l));
        [|symmetry; exact (sort_desc_map clear_view key l)]
  end.
  f_equal. cbn [without_grades with_submissions assignments classrooms
                classroom_students assignment_submissions clear_table
                submissions_of fst snd].
  rewrite map_flat_map. apply flat_map_ext. intros a.
  rewrite map_flat_map. apply flat_map_ext. intros cs.
  rewrite map_flat_map. apply flat_map_ext. intros c.
  destruct ((cs_classroom_id cs =? a_classroom_id a)
            && (c_id c =? a_classroom_id a) && (cs_student_id cs =? uid));
    [|reflexivity].
  rewrite filter_key_clear.
  destruct (filter (sub_key_eqb (a_id a) (cs_student_id cs))
              (assignment_submissions d)) as [|r rows]; [reflexivity|].
  cbn [map]. f_equal. rewrite !map_map. reflexivity.
Qed.

Lemma pending_submissions_clear (d : db) (uid lid : Z) (lang : string) :
  pending_submissions (without_grades d) uid lid lang
  = pending_submissions d uid lid lang.
Proof.
  unfold pending_submissions.
  cbn [without_grades with_submissions assignments classroom_students
       assignment_submissions clear_table submissions_of fst snd].
  now rewrite flat_map_map.
Qed.

Lemma complete_loop_clear (now : clock) (score : Z) (ids : list Z) :
  forall k rows,
    complete_loop now score ids k (map clear_grade rows)
    = (map clear_grade (fst (complete_loop now score ids k rows)),
       snd (complete_loop now score ids k rows)).
Proof.
  induction ids as [|id rest IH]; intros k rows; simpl; [reflexivity|].
  rewrite <- IH. f_equal. rewrite !map_map. apply map_ext. intros r.
  cbn [clear_grade s_id]. now destruct (s_id r =? id).
Qed.

Lemma complete_assignment_clear (now : clock) (k : nat) (uid : Z)
    (lang : string) (lid score : Z) (d : db) :
  _complete_assignment_if_any now k uid lang lid score (without_grades d)
  = let '((d', k'), updated) :=
      _complete_assignment_if_any now k uid lang lid score d in
    ((without_grades d', k'), updated).
Proof.
  unfold _complete_assignment_if_any. rewrite pending_submissions_clear.
  cbn [without_grades with_submissions assignment_submissions clear_table
       submissions_of fst snd seq_submissions].
  rewrite complete_loop_clear.
  destruct (complete_loop now score (pending_submissions d uid lid lang) k
              (assignment_submissions d)) as [rows k']. reflexivity.
Qed.

Lemma update_streak_clear (today uid : Z) (d : db) :
  update_streak today uid (without_grades d)
  = match update_streak today uid d with
    | inl d' => inl (without_grades d')
    | inr e => inr e
    end.
Proof.
  unfold update_streak, find_user. cbn [without_grades with_submissions users].
  destruct (find _ (users d)); reflexivity.
Qed.

Lemma notify_all_clear (now : clock) (title body : string) (cid : option Z)
    (students : list Z) :
  forall k d,
    notify_all now k students title body cid (without_grades d)
    = (without_grades (fst (notify_all now k students title body cid d)),
       snd (notify_all now k students title body cid d)).
Proof.
  induction students as [|st rest IH]; intros k d; simpl; [reflexivity|].
  apply (IH (S k)
           (with_notifications d
              (notifications d ++
                 [{| n_user_id := st; n_title := title; n_body := body;
                     n_classroom_id := cid; n_is_read := false;
                     n_created_at := now k |}]))).
Qed.

Lemma grade_quiz_clear (data : list language) (now : clock) (today : Z)
    (s : session) (lang : string) (lid : Z) (form : answers) (d : db) :
  grade_quiz data now today s lang lid form (without_grades d)
  = (without_grades (fst (grade_quiz data now today s lang lid form d)),
     snd (grade_quiz data now today s lang lid form d)).
Proof.
  unfold grade_quiz.
  destruct (require_login s); [reflexivity|].
  destruct (require_role s "Student"); [reflexivity|].
  destruct (sess_user_id s) as [uid|]; [|reflexivity].
  destruct (get_lesson data lang lid) as [lesson|]; [|reflexivity].
  destruct (quiz_score _ _) as [score|e]; [|reflexivity].
  change (get_student_progress (without_grades d) uid lang)
    with (get_student_progress d uid lang).
  destruct ((passing_score <=? score)
            && negb (existsb (Z.eqb lid) (get_student_progress d uid lang)));
    [|reflexivity].
  change (progress (without_grades d)) with (progress d).
  destruct (insert_progress _ (progress d)) as [rows|]; [|reflexivity].
  change (with_progress (without_grades d) rows)
    with (without_grades (with_progress d rows)).
  rewrite update_streak_clear.
  destruct (update_streak today uid (with_progress d rows)) as [d2|e];
    [|reflexivity].
  rewrite complete_assignment_clear.
  destruct (_complete_assignment_if_any now 1 uid lang lid score d2)
    as [[d3 k3] updated]. reflexivity.
Qed.

Lemma join_with_code_clear (now : clock) (uid : Z) (code : string) (d : db) :
  join_with_code now uid code (without_grades d)
  = (without_grades (fst (join_with_code now uid code d)),
     snd (join_with_code now uid code d)).
Proof.
  unfold join_with_code.
  change (find_classroom_by_code (without_grades d) code)
    with (find_classroom_by_code d code).
  destruct (find_classroom_by_code d code) as [c|]; [|reflexivity].
  unfold assignments_of, without_grades, submissions_of.
  cbn [with_classroom_students with_submissions progress assignments
       assignment_submissions seq_submissions classroom_students].
  change (fst (clear_table (assignment_submissions d, seq_submissions d)),
          snd (clear_table (assignment_submissions d, seq_submissions d)))
    with (clear_table (assignment_submissions d, seq_submissions d)).
  rewrite join_loop_clear.
  destruct (join_loop _ _ _ _ _ _) as [t k]. reflexivity.
Qed.

Lemma student_classroom_get_clear (now : clock) (s : session) (d : db) :
  fst (student_classroom_get now s (without_grades d))
  = without_grades (fst (student_classroom_get now s d)).
Proof.
  unfold student_classroom_get.
  destruct (require_login s); [reflexivity|].
  destruct (require_role s "Student"); [reflexivity|].
  destruct (sess_user_id s) as [uid|]; [|reflexivity].
  rewrite student_assignment_rows_clear.
  change (progress (without_grades d)) with (progress d).
  change (submissions_of (without_grades d))
    with (clear_table (submissions_of d)).
  rewrite backfill_loop_clear.
  destruct (backfill_loop now (progress d) uid (student_assignment_rows d uid)
              0 (submissions_of d)) as [t k]. reflexivity.
Qed.

Lemma teacher_create_assignment_clear (now : clock) (s : session) (cid : Z)
    (key : string) (due : option string) (comment : string) (d : db) :
  teacher_create_assignment now s cid key due comment (without_grades d)
  = (without_grades
       (fst (teacher_create_assignment now s cid key due comment d)),
     snd (teacher_create_assignment now s cid key due comment d)).
Proof.
  unfold teacher_create_assignment.
  destruct (require_login s); [reflexivity|].
  destruct (require_role s "Teacher"); [reflexivity|].
  destruct (sess_user_id s) as [tid|]; [|reflexivity].
  destruct (parse_lesson_key key) as [[lang lid]|e]; [|reflexivity].
  change (find_owned_classroom (without_grades d) cid tid)
    with (find_owned_classroom d cid tid).
  destruct (find_owned_classroom d cid tid) as [c|]; [|reflexivity].
  unfold ensure_assignment_submissions, students_of, without_grades,
    submissions_of.
  cbn [with_assignments with_submissions progress assignments
       assignment_submissions seq_submissions classroom_students
       seq_assignments].
  change (fst (clear_table (assignment_submissions d, seq_submissions d)),
          snd (clear_table (assignment_submissions d, seq_submissions d)))
    with (clear_table (assignment_submissions d, seq_submissions d)).
  rewrite ensure_loop_clear.
  destruct (ensure_loop _ _ _ _ _ _ _ _) as [t k].
  cbn [fst snd create_stream_post].
  match goal with
  | |- context [notify_all now ?k0 ?sts ?ti ?bo ?ci
                  (with_stream_posts (with_submissions ?d1 (clear_table t)) ?ps)] =>
      change (with_stream_posts (with_submissions d1 (clear_table t)) ps)
        with (without_grades
                (with_stream_posts
                   (with_submissions
                      (with_assignments d
                         (assignments d ++
                            [{| a_id := seq_assignments d + 1;
                                a_classroom_id := cid; a_lesson_id := lid;
                                a_lesson_lang := lang; a_due_date := due;
                                a_comment := strip comment;
                                a_created_at := now 0%nat |}])
                         (seq_assignments d + 1)) t) ps))
  end.
  rewrite notify_all_clear.
  destruct (notify_all _ _ _ _ _ _ _) as [d4 k4]. reflexivity.
Qed.

(** C7. No request that runs the synchronizer writes or reads
    [grade_out_of_10]. It does not write it: after the request every
    submission row is still in place with its key and its grade, and the rows
    added have no grade. It does not read it: run on the database with every
    grade set to NULL, the request leaves the same database up to the grades,
    so two databases that differ in grades only are taken to databases that
    differ in grades only; and on the four write paths (quiz grading, the two
    join paths, assignment creation) it gives the same response. *)
Theorem reconcile_keeps_grades (now : clock) (s : session) (req : request)
    (d : db) :
  reconciles req ->
  grades_kept (assignment_submissions d)
    (assignment_submissions (fst (handle now s req d)))
  /\ fst (handle now s req (without_grades d))
     = without_grades (fst (handle now s req d))
  /\ (forall d2, without_grades d2 = without_grades d ->
        without_grades (fst (handle now s req d2))
        = without_grades (fst (handle now s req d)))
  /\ (write_path req ->
      snd (handle now s req (without_grades d)) = snd (handle now s req d)).
Proof.
  intros Hreq.
  assert (Hblind : forall d0,
            fst (handle now s req (without_grades d0))
            = without_grades (fst (handle now s req d0))
            /\ (write_path req ->
                snd (handle now s req (without_grades d0))
                = snd (handle now s req d0))).
  { intros d0. destruct req; simpl in *; try contradiction.
    - now rewrite grade_quiz_clear.
    - unfold student_classroom_post.
      destruct (require_login s); [auto|].
      destruct (require_role s "Student"); [auto|].
      destruct (sess_user_id s); [|auto].
      now rewrite join_with_code_clear.
    - split; [apply student_classroom_get_clear | contradiction].
    - unfold join_class_by_code.
      destruct (sess_user_id s); [|auto].
      destruct (negb (role_is s "Student")); [auto|].
      now rewrite join_with_code_clear.
    - now rewrite teacher_create_assignment_clear. }
  split; [|split; [apply Hblind | split; [|apply Hblind]]].
  - destruct req; simpl in *; try contradiction.
    + apply grade_quiz_grades.
    + unfold student_classroom_post.
      destruct (require_login s); [apply grades_kept_refl|].
      destruct (require_role s "Student"); [apply grades_kept_refl|].
      destruct (sess_user_id s); [|apply grades_kept_refl].
      apply join_with_code_grades.
    + apply student_classroom_get_grades.
    + unfold join_class_by_code.
      destruct (sess_user_id s); [|apply grades_kept_refl].
      destruct (negb (role_is s "Student")); [apply grades_kept_refl|].
      apply join_with_code_grades.
    + apply teacher_create_assignment_grades.
  - intros d2 E.
    rewrite <- (proj1 (Hblind d2)), <- (proj1 (Hblind d)). now rewrite E.
Qed.

Lemma reconcile_keeps_grades_witness :
  map s_grade_out_of_10 (assignment_submissions demo_graded) = [Some 8; None]
  /\ grades_kept (assignment_submissions demo_graded)
       (assignment_submissions
          (fst (handle demo_clock_later demo_student (JoinClassByCode "ab12cd")
                  demo_graded)))
  /\ without_grades
       (fst (handle demo_clock_later demo_student (JoinClassByCode "ab12cd")
               (with_submissions demo_graded
                  (map (set_grade 3) (assignment_submissions demo_graded),
                   seq_submissions demo_graded))))
     = without_grades
         (fst (handle demo_clock_later demo_student (JoinClassByCode "ab12cd")
                 demo_graded)).
Proof.
  split; [reflexivity|].
  destruct (@reconcile_keeps_grades demo_clock_later demo_student
              (JoinClassByCode "ab12cd") demo_graded I) as (G & _ & H & _).
  split; [exact G|]. apply H. reflexivity.
Defined.

Lemma student_feed_contract_witness :
  map (fun p => (sp_kind p, sp_student_id p))
      (map fr_post (student_feed demo_graded 2))
  = [(kind_grade, Some 2); (kind_assignment, None)]
  /\ map (fun p => (sp_kind p, sp_student_id p))
         (map fr_post (student_feed demo_graded 3))
     = [(kind_assignment, None)]
  /\ forall other p,
       In p (map fr_post (student_feed demo_graded other)) ->
       sp_audience p = audience_student ->
       sp_student_id p = Some 2 ->
       other = 2.
Proof.
  split; [reflexivity|]. split; [reflexivity|].
  apply (@student_feed_contract demo_graded 2).
  - split; simpl; repeat constructor; simpl; intuition discriminate.
  - intros p Hp. simpl in Hp.
    destruct Hp as [<-|[<-|[]]]; exists (demo_user 1 "Ada" "Teacher");
      (split; [simpl; auto | reflexivity]).
Defined.

(** ** Creation of submission rows *)

Lemma backfill_values_created (now : clock) (k : nat) (ps : list progress_row)
    (id aid sid : Z) (lang : string) (lid : Z) :
  let '((st, at_, sc), _) :=
    backfill_values now k (existing_progress ps sid lang lid) in
  created_from now ps lang lid (new_submission id aid sid st at_ sc).
Proof.
  unfold created_from. simpl.
  destruct (existing_progress ps sid lang lid) as [p|] eqn:E; simpl;
    rewrite ?E; eauto 6.
Qed.

Lemma ensure_loop_created (now : clock) (ps : list progress_row) (aid : Z)
    (lang : string) (lid : Z) (students : list Z) (k : nat) (t : sub_table) :
  exists news,
    fst (fst (ensure_loop now ps aid lang lid students k t)) = fst t ++ news
    /\ Forall (fun r => s_assignment_id r = aid
                         /\ In (s_student_id r) students
                         /\ created_from now ps lang lid r) news.
Proof.
  revert k t. induction students as [|st students IH]; intros k t; simpl.
  - exists []. now rewrite app_nil_r.
  - pose proof (backfill_values_created now k ps (snd t + 1) aid st lang lid)
      as Hc.
    destruct (backfill_values now k (existing_progress ps st lang lid))
      as [[[status at_] sc] k'].
    destruct (IH k' (insert_or_ignore_submission aid st status at_ sc t))
      as (news & Hn & HF).
    rewrite Hn. unfold insert_or_ignore_submission.
    destruct (existsb _ _); simpl.
    + exists news. split; [reflexivity|].
      eapply Forall_impl; [|exact HF]. simpl. tauto.
    + exists (new_submission (snd t + 1) aid st status at_ sc :: news).
      split; [now rewrite <- app_assoc|].
      constructor; [simpl; tauto|].
      eapply Forall_impl; [|exact HF]. simpl. tauto.
Qed.

Lemma join_loop_created (now : clock) (ps : list progress_row) (uid : Z)
    (rows : list assignment) (k : nat) (t : sub_table) :
  exists news,
    fst (fst (join_loop now ps uid rows k t)) = fst t ++ news
    /\ Forall (fun r => s_student_id r = uid
                         /\ exists a, In a rows /\ a_id a = s_assignment_id r
                              /\ created_from now ps (a_lesson_lang a)
                                   (a_lesson_id a) r) news.
Proof.
  revert k t. induction rows as [|a rows IH]; intros k t; simpl.
  - exists []. now rewrite app_nil_r.
  - pose proof (backfill_values_created now k ps (snd t + 1) (a_id a) uid
                  (a_lesson_lang a) (a_lesson_id a)) as Hc.
    destruct (backfill_values now k
                (existing_progress ps uid (a_lesson_lang a) (a_lesson_id a)))
      as [[[status at_] sc] k'].
    destruct (IH k' (insert_or_ignore_submission (a_id a) uid status at_ sc t))
      as (news & Hn & HF).
    assert (HF' : Forall (fun r => s_student_id r = uid
                    /\ exists a0, In a0 (a :: rows) /\ a_id a0 = s_assignment_id r
                         /\ created_from now ps (a_lesson_lang a0)
                              (a_lesson_id a0) r) news).
    { eapply Forall_impl; [|exact HF]. simpl.
      intros r (Hs & a0 & Ha0 & Hrest). split; [exact Hs|].
      exists a0. tauto. }
    rewrite Hn. unfold insert_or_ignore_submission.
    destruct (existsb _ _); simpl.
    + exists news. split; [reflexivity | exact HF'].
    + exists (new_submission (snd t + 1) (a_id a) uid status at_ sc :: news).
      split; [now rewrite <- app_assoc|].
      constructor; [|exact HF'].
      split; [reflexivity|]. exists a. simpl. tauto.
Qed.

Lemma sub_key_eqb_true (aid sid : Z) (r : submission) :
  sub_key_eqb aid sid r = true
  <-> s_assignment_id r = aid /\ s_student_id r = sid.
Proof. unfold sub_key_eqb. now rewrite andb_true_iff, !Z.eqb_eq. Qed.

Section BackfillCreated.
Variable now : clock.
Variable ps : list progress_row.
Variable uid : Z.
Variable known : list assignment.

Local Abbreviation made := (made_from now ps known).

Lemma upsert_completed_created (a : assignment) (p : progress_row) (k : nat)
    (rows0 : list submission) (t : sub_table) :
  In a known ->
  existing_progress ps uid (a_lesson_lang a) (a_lesson_id a) = Some p ->
  (exists olds news, fst t = olds ++ news
     /\ Forall2 same_identity rows0 olds /\ Forall made news) ->
  exists olds news,
    fst (upsert_completed (a_id a) uid (now k) (p_score p) t) = olds ++ news
    /\ Forall2 same_identity rows0 olds /\ Forall made news.
Proof.
  intros Ha Hp (olds & news & Ht & Ho & Hn).
  assert (Hnew : forall r, s_assignment_id r = a_id a -> s_student_id r = uid ->
            s_grade_out_of_10 r = None -> s_status r = completed ->
            s_score r = Some (p_score p) ->
            (exists j, s_completed_at r = Some (now j)) -> made r).
  { intros r H1 H2 H3 H4 H5 H6. exists a. split; [exact Ha|].
    split; [now symmetry|]. split; [exact H3|]. rewrite H2, Hp. auto. }
  unfold upsert_completed. destruct (existsb _ _); simpl; rewrite Ht.
  - rewrite map_app. eexists _, _. split; [reflexivity|]. split.
    + eapply Forall2_trans; [apply same_identity_trans | exact Ho |].
      apply Forall2_map_r. intros r.
      destruct (sub_key_eqb (a_id a) uid r);
        [apply same_identity_set_completed | apply same_identity_refl].
    + apply Forall_forall. intros r' Hr'. apply in_map_iff in Hr'.
      destruct Hr' as (r & <- & Hr).
      rewrite Forall_forall in Hn. specialize (Hn r Hr).
      destruct (sub_key_eqb (a_id a) uid r) eqn:E; [|exact Hn].
      apply sub_key_eqb_true in E. destruct E as [E1 E2].
      destruct Hn as (a0 & _ & _ & Hg & _).
      apply Hnew; simpl; eauto.
  - exists olds, (news ++ [new_submission (snd t + 1) (a_id a) uid completed
                             (Some (now k)) (Some (p_score p))]).
    split; [now rewrite app_assoc|]. split; [exact Ho|].
    apply Forall_app. split; [exact Hn|].
    constructor; [|constructor]. apply Hnew; simpl; eauto.
Qed.

Lemma backfill_loop_created (views : list assignment_view) (k : nat)
    (rows0 : list submission) (t : sub_table) :
  (forall v, In v views -> In (av_assignment v) known) ->
  (exists olds news, fst t = olds ++ news
     /\ Forall2 same_identity rows0 olds /\ Forall made news) ->
  exists olds news,
    fst (fst (backfill_loop now ps uid views k t)) = olds ++ news
    /\ Forall2 same_identity rows0 olds /\ Forall made news.
Proof.
  revert k t. induction views as [|v views IH]; intros k t Hv Ht; simpl.
  - exact Ht.
  - assert (Hv' : forall v0, In v0 views -> In (av_assignment v0) known)
      by (intros v0 H0; apply Hv; now right).
    destruct (is_completed (av_status v)); [now apply IH|].
    destruct (existing_progress ps uid _ _) as [p|] eqn:Hp; [|now apply IH].
    apply IH; [exact Hv'|].
    apply upsert_completed_created; auto. apply Hv. now left.
Qed.
End BackfillCreated.

Lemma student_assignment_rows_known (d : db) (uid : Z) (v : assignment_view) :
  In v (student_assignment_rows d uid) -> In (av_assignment v) (assignments d).
Proof.
  unfold student_assignment_rows. intros Hin. apply sort_desc_in in Hin.
  apply in_flat_map in Hin. destruct Hin as (a & Ha & Hin).
  apply in_flat_map in Hin. destruct Hin as (cs & _ & Hin).
  apply in_flat_map in Hin. destruct Hin as (c & _ & Hin).
  destruct (_ && _); [|contradiction].
  destruct (filter _ _) as [|m ms].
  - destruct Hin as [<-|[]]. exact Ha.
  - apply in_map_iff in Hin. destruct Hin as (s0 & <- & _). exact Ha.
Qed.

(** ** What each handler writes *)

Lemma grade_quiz_effect (data : list language) (now : clock) (today : Z)
    (s : session) (lang : string) (lid : Z) (form : answers) (d : db) :
  let res := grade_quiz data now today s lang lid form d in
  (fst res = d
   /\ forall uid lesson score,
        sess_user_id s = Some uid -> role_is s "Student" = true ->
        get_lesson data lang lid = Some lesson ->
        quiz_score (count_correct form 0%nat (l_quiz lesson))
          (Z.of_nat (List.length (l_quiz lesson))) = inl score ->
        passing_score <= score ->
        existing_progress (progress d) uid lang lid = None -> False)
  \/ exists uid lesson score xp,
       sess_user_id s = Some uid
       /\ get_lesson data lang lid = Some lesson
       /\ quiz_score (count_correct form 0%nat (l_quiz lesson))
            (Z.of_nat (List.length (l_quiz lesson))) = inl score
       /\ passing_score <= score
       /\ existing_progress (progress d) uid lang lid = None
       /\ let d1 := with_progress d
                      (progress d ++ [progress_row_of now uid lid lang score xp]) in
          (exists e, res = (d1, raised e) /\ find_user d uid = None)
          \/ exists us,
               let d2 := with_users d1 us in
               find_user d uid <> None
               /\ (find_user d uid <> None -> find_user d2 uid <> None)
               /\ completes (snd res)
               /\ fst res
                  = with_submissions d2
                      (map (complete_row now score
                              (pending_submissions d2 uid lid lang) 1)
                           (assignment_submissions d),
                       seq_submissions d).
Proof.
  cbv zeta. unfold grade_quiz, require_login, require_role.
  destruct (sess_user_id s) as [uid|] eqn:Hsess;
    [|left; split; [reflexivity | intros; congruence]].
  destruct (role_is s "Student") eqn:Hrole;
    [|left; split; [reflexivity | intros; congruence]].
  destruct (get_lesson data lang lid) as [lesson|] eqn:Hlesson;
    [|left; split; [reflexivity | intros; congruence]].
  destruct (quiz_score _ _) as [score|e] eqn:Hscore;
    [|left; split; [reflexivity | intros; congruence]].
  destruct (passing_score <=? score) eqn:Hp.
  2:{ left. split; [reflexivity|]. intros uid' lesson' score' E1 _ E2 E3 E4 _.
      apply Z.leb_gt in Hp. inversion E2; subst lesson'.
      rewrite Hscore in E3. inversion E3; subst score'. lia. }
  destruct (existsb (Z.eqb lid) (get_student_progress d uid lang)) eqn:Hdone.
  { left. split; [reflexivity|]. intros uid' lesson' score' E1 _ _ _ _ E2.
    inversion E1; subst uid'. apply existing_progress_none_iff in E2.
    unfold get_student_progress in Hdone. congruence. }
  cbn [andb negb]. apply Z.leb_le in Hp.
  set (xp := match l_xp lesson with Some x => x | None => 100 end).
  assert (Hnone : existing_progress (progress d) uid lang lid = None)
    by (apply existing_progress_none_iff; exact Hdone).
  unfold insert_progress. cbn [p_student_id p_lesson_lang p_lesson_id].
  rewrite Hnone.
  right. exists uid, lesson, score, xp.
  repeat (split; [first [assumption | reflexivity]|]).
  cbv zeta. fold (progress_row_of now uid lid lang score xp).
  destruct (find_user d uid) as [u|] eqn:Hu.
  - destruct (@update_streak_found today uid
                (with_progress d
                   (progress d ++ [progress_row_of now uid lid lang score xp]))
                u Hu) as (d2 & Hd2 & Hf2).
    rewrite Hd2. right.
    apply update_streak_tables in Hd2. destruct Hd2 as [us ->].
    exists us.
    match goal with
    | |- context [_complete_assignment_if_any ?n ?k ?u0 ?l ?i ?sc ?d2] =>
        pose proof (complete_assignment_rows n k u0 l i sc d2) as H;
        destruct (_complete_assignment_if_any n k u0 l i sc d2) as [[d3 k3] upd]
    end.
    simpl in H. subst d3.
    split; [discriminate|]. split; [intros _; rewrite Hf2; discriminate|].
    split; [intros e; discriminate | reflexivity].
  - left. unfold update_streak, find_user in *. simpl users. rewrite Hu. eauto.
Qed.

Lemma join_with_code_effect (now : clock) (uid : Z) (code : string) (d : db) :
  let res := join_with_code now uid code d in
  (fst res = d /\ find_classroom_by_code d code = None)
  \/ exists c t k,
       find_classroom_by_code d code = Some c
       /\ join_loop now (progress d) uid (assignments_of d (c_id c)) 1
            (submissions_of d) = (t, k)
       /\ fst res
          = with_submissions
              (with_classroom_students d
                 (insert_or_ignore_member (c_id c) uid (now 0%nat)
                    (classroom_students d))) t.
Proof.
  cbv zeta. unfold join_with_code.
  destruct (find_classroom_by_code d code) as [c|]; [|now left].
  right. exists c.
  unfold assignments_of, submissions_of.
  cbn [with_classroom_students progress assignments assignment_submissions
       seq_submissions].
  destruct (join_loop _ _ _ _ _ _) as [t' k'] eqn:E.
  exists t', k'. auto.
Qed.

(** Both join routes reduce to [join_with_code] or write nothing. *)
Lemma join_routes (now : clock) (s : session) (req : request) (d : db) :
  match req with
  | StudentClassroomPost _ | JoinClassByCode _ => True
  | _ => False
  end ->
  handle now s req d = (d, snd (handle now s req d))
  \/ exists uid code,
       sess_user_id s = Some uid
       /\ handle now s req d = join_with_code now uid code d.
Proof.
  destruct req; simpl; try contradiction; intros _.
  - unfold student_classroom_post.
    destruct (require_login s); [now left|].
    destruct (require_role s "Student"); [now left|].
    destruct (sess_user_id s) as [uid|] eqn:Hs; [|now left].
    right. eauto.
  - unfold join_class_by_code.
    destruct (sess_user_id s) as [uid|] eqn:Hs; [|now left].
    destruct (negb (role_is s "Student")); [now left|].
    right. eauto.
Qed.

Lemma teacher_create_assignment_effect (now : clock) (s : session) (cid : Z)
    (key : string) (due : option string) (comment : string) (d : db) :
  let res := teacher_create_assignment now s cid key due comment d in
  (fst res = d
   /\ forall tid lang lid c,
        sess_user_id s = Some tid -> role_is s "Teacher" = true ->
        parse_lesson_key key = inl (lang, lid) ->
        find_owned_classroom d cid tid = Some c -> False)
  \/ exists tid lang lid c t k posts ns,
       sess_user_id s = Some tid
       /\ parse_lesson_key key = inl (lang, lid)
       /\ find_owned_classroom d cid tid = Some c
       /\ ensure_loop now (progress d) (seq_assignments d + 1) lang lid
            (students_of d cid) 1 (submissions_of d) = (t, k)
       /\ res
          = (with_notifications
               (with_stream_posts
                  (with_submissions
                     (with_assignments d
                        (assignments d
                           ++ [assignment_row_of now d cid lid lang due
                                 (strip comment)])
                        (seq_assignments d + 1)) t) posts) ns,
             redirect "teacher_classroom" None).
Proof.
  cbv zeta. unfold teacher_create_assignment, require_login, require_role.
  destruct (sess_user_id s) as [tid|] eqn:Hs;
    [|left; split; [reflexivity | intros; congruence]].
  destruct (role_is s "Teacher") eqn:Hr;
    [|left; split; [reflexivity | intros; congruence]].
  destruct (parse_lesson_key key) as [[lang lid]|e] eqn:Hk;
    [|left; split; [reflexivity | intros; congruence]].
  destruct (find_owned_classroom d cid tid) as [c|] eqn:Hc;
    [|left; split; [reflexivity | intros; congruence]].
  right. exists tid, lang, lid, c.
  unfold ensure_assignment_submissions, students_of, submissions_of.
  cbn [with_assignments progress classroom_students assignment_submissions
       seq_submissions].
  destruct (ensure_loop _ _ _ _ _ _ _ _) as [t' k'] eqn:E.
  unfold create_stream_post.
  match goal with
  | |- context [notify_all ?n ?k ?sts ?ti ?bo ?ci ?d3] =>
      destruct (notify_all_tables n sts ti bo ci k d3) as [ns Hns];
      destruct (notify_all n k sts ti bo ci d3) as [d4 k4]
  end.
  simpl in Hns. subst d4.
  eexists t', k', _, ns. repeat split; auto.
Qed.

Lemma student_classroom_get_effect (now : clock) (s : session) (d : db) :
  let res := student_classroom_get now s d in
  (fst res = d)
  \/ exists uid t k,
       sess_user_id s = Some uid
       /\ backfill_loop now (progress d) uid (student_assignment_rows d uid)
            0 (submissions_of d) = (t, k)
       /\ fst res = with_submissions d t.
Proof.
  cbv zeta. unfold student_classroom_get.
  destruct (require_login s); [now left|].
  destruct (require_role s "Student"); [now left|].
  destruct (sess_user_id s) as [uid|] eqn:Hs; [|now left].
  right. exists uid.
  destruct (backfill_loop now (progress d) uid (student_assignment_rows d uid)
              0 (submissions_of d)) as [t' k'] eqn:E.
  exists t', k'. auto.
Qed.

Lemma rows_created_same (now : clock) (d d' : db) :
  Forall2 same_identity (assignment_submissions d) (assignment_submissions d') ->
  rows_created now d d'.
Proof.
  intros H. exists (assignment_submissions d'), [].
  rewrite app_nil_r. repeat split; [exact H | constructor].
Qed.

Lemma rows_created_unchanged (now : clock) (d d' : db) :
  assignment_submissions d' = assignment_submissions d -> rows_created now d d'.
Proof.
  intros H. apply rows_created_same. rewrite H.
  apply Forall2_same, same_identity_refl.
Qed.

Lemma join_with_code_created (now : clock) (uid : Z) (code : string) (d : db) :
  rows_created now d (fst (join_with_code now uid code d)).
Proof.
  destruct (join_with_code_effect now uid code d)
    as [[-> _]|(c & t & k & _ & Hloop & ->)].
  - now apply rows_created_unchanged.
  - destruct (join_loop_created now (progress d) uid (assignments_of d (c_id c))
                1 (submissions_of d)) as (news & Hn & HF).
    rewrite Hloop in Hn. simpl in Hn.
    exists (assignment_submissions d), news. simpl. repeat split.
    + exact Hn.
    + apply Forall2_same, same_identity_refl.
    + eapply Forall_impl; [|exact HF]. simpl.
      intros r (_ & a & Ha & Hid & Hc). exists a. simpl.
      apply filter_In in Ha. tauto.
Qed.

(** C5, as amended. A submission row created by a request that runs the
    synchronizer belongs to an assignment; when the progress table holds a
    row for its student and the lesson of the assignment, the new row is
    completed, its score is the score of that progress row and its
    completed_at is a reading of the clock of the request; when the
    progress table holds none, the new row is assigned with NULL score and
    completed_at. The rows present before stay in place. *)
Theorem created_rows_from_progress (now : clock) (s : session) (req : request)
    (d : db) :
  reconciles req -> rows_created now d (fst (handle now s req d)).
Proof.
  intros Hreq. destruct req; simpl in Hreq; try contradiction.
  - simpl handle.
    destruct (grade_quiz_effect data now today s lang lesson_id form d)
      as [[-> _]|(uid & lesson & score & xp & _ & _ & _ & _ & _
               & [(e & -> & _)|(us & _ & _ & _ & ->)])].
    + now apply rows_created_unchanged.
    + now apply rows_created_unchanged.
    + apply rows_created_same. simpl.
      apply Forall2_map_r. intros r. apply complete_row_identity.
  - destruct (@join_routes now s (StudentClassroomPost code) d I)
      as [->|(uid & c & _ & ->)].
    + now apply rows_created_unchanged.
    + apply join_with_code_created.
  - simpl handle.
    destruct (student_classroom_get_effect now s d)
      as [->|(uid & t & k & _ & Hloop & ->)].
    + now apply rows_created_unchanged.
    + destruct (@backfill_loop_created now (progress d) uid (assignments d)
                  (student_assignment_rows d uid) 0 (assignment_submissions d)
                  (submissions_of d)) as (olds & news & Hn & Ho & HF).
      * apply student_assignment_rows_known.
      * exists (assignment_submissions d), []. rewrite app_nil_r.
        repeat split; [apply Forall2_same, same_identity_refl | constructor].
      * rewrite Hloop in Hn. simpl in Hn.
        exists olds, news. simpl. repeat split; auto.
  - destruct (@join_routes now s (JoinClassByCode code) d I)
      as [->|(uid & c & _ & ->)].
    + now apply rows_created_unchanged.
    + apply join_with_code_created.
  - simpl handle.
    destruct (teacher_create_assignment_effect now s classroom_id lesson_key
                due_date comment d)
      as [[-> _]|(tid & lang & lid & c & t & k & posts & ns & _ & _ & _ & Hloop
               & ->)].
    + now apply rows_created_unchanged.
    + destruct (ensure_loop_created now (progress d) (seq_assignments d + 1)
                  lang lid (students_of d classroom_id) 1 (submissions_of d))
        as (news & Hn & HF).
      rewrite Hloop in Hn. simpl in Hn.
      exists (assignment_submissions d), news. simpl. repeat split.
      * exact Hn.
      * apply Forall2_same, same_identity_refl.
      * eapply Forall_impl; [|exact HF]. simpl.
        intros r (Hid & _ & Hc).
        exists (assignment_row_of now d classroom_id lid lang due_date
                  (strip comment)).
        simpl. split; [apply in_or_app; right; now left|].
        split; [now symmetry | exact Hc].
Qed.

Lemma created_rows_from_progress_witness :
  rows_created demo_clock_later demo_passed demo_backfilled.
Proof.
  apply (@created_rows_from_progress demo_clock_later demo_teacher
           (TeacherCreateAssignment 1 "python:3" None "") demo_passed).
  exact I.
Defined.

(** C5 as stated fails on [completed_at]: student 2 passed the lesson at
    instant 1000; the row created with the assignment at a later request is
    completed with the score 75 of the progress row, and its completed_at is
    the instant 2001 of that request. *)
Lemma created_row_not_copied :
  progress demo_passed = [progress_row_of demo_clock 2 3 "python" 75 50]
  /\ assignment_submissions demo_passed = []
  /\ assignment_submissions demo_backfilled
     = [new_submission 1 1 2 completed (Some 2001) (Some 75)]
  /\ Some (p_completed_at (progress_row_of demo_clock 2 3 "python" 75 50))
     <> s_completed_at (new_submission 1 1 2 completed (Some 2001) (Some 75)).
Proof.
  split; [vm_compute; reflexivity|].
  split; [vm_compute; reflexivity|].
  split; [vm_compute; reflexivity|].
  vm_compute. discriminate.
Qed.

(** ** Monotonicity of completion *)

Lemma NoDup_map_inj (A B : Type) (f : A -> B) (l : list A) (x y : A) :
  NoDup (map f l) -> In x l -> In y l -> f x = f y -> x = y.
Proof.
  induction l as [|z l IH]; intros Hnd Hx Hy Hf; [contradiction|].
  simpl in Hnd. inversion Hnd as [|? ? Hz Hnd']; subst.
  destruct Hx as [->|Hx], Hy as [->|Hy]; auto.
  - exfalso. apply Hz. rewrite Hf. now apply in_map.
  - exfalso. apply Hz. rewrite <- Hf. now apply in_map.
Qed.

Lemma nth_error_app_old (A : Type) (l news : list A) (i : nat) (x : A) :
  nth_error l i = Some x -> nth_error (l ++ news) i = Some x.
Proof.
  intros H. rewrite nth_error_app1; [exact H|].
  apply nth_error_Some. congruence.
Qed.

Lemma nth_error_map_fixed (A : Type) (f : A -> A) (l : list A) (i : nat) (x : A) :
  nth_error l i = Some x -> f x = x -> nth_error (map f l) i = Some x.
Proof. intros H Hf. rewrite nth_error_map, H. simpl. now rewrite Hf. Qed.

Lemma pending_submissions_in (d : db) (uid lid : Z) (lang : string) (id : Z) :
  In id (pending_submissions d uid lid lang)
  <-> exists s a cs,
        In s (assignment_submissions d) /\ In a (assignments d)
        /\ In cs (classroom_students d)
        /\ s_id s = id
        /\ a_id a = s_assignment_id s
        /\ cs_classroom_id cs = a_classroom_id a
        /\ s_student_id s = uid
        /\ a_lesson_id a = lid /\ a_lesson_lang a = lang
        /\ s_status s <> completed.
Proof.
  unfold pending_submissions. split.
  - intros Hin.
    apply in_flat_map in Hin. destruct Hin as (s & Hs & Hin).
    apply in_flat_map in Hin. destruct Hin as (a & Ha & Hin).
    apply in_flat_map in Hin. destruct Hin as (cs & Hcs & Hin).
    match type of Hin with In _ (if ?c then _ else _) => destruct c eqn:E end;
      [|contradiction].
    destruct Hin as [<-|[]].
    rewrite !andb_true_iff, !Z.eqb_eq, String.eqb_eq, negb_true_iff in E.
    exists s, a, cs. intuition.
    match goal with H : s_status s = completed |- _ => rewrite H in * end.
    discriminate.
  - intros (s & a & cs & Hs & Ha & Hcs & Hid & H1 & H2 & H3 & H4 & H5 & H6).
    apply in_flat_map. exists s. split; [exact Hs|].
    apply in_flat_map. exists a. split; [exact Ha|].
    apply in_flat_map. exists cs. split; [exact Hcs|].
    replace (a_id a =? s_assignment_id s) with true
      by (symmetry; now apply Z.eqb_eq).
    replace (cs_classroom_id cs =? a_classroom_id a) with true
      by (symmetry; now apply Z.eqb_eq).
    replace (s_student_id s =? uid) with true by (symmetry; now apply Z.eqb_eq).
    replace (a_lesson_id a =? lid) with true by (symmetry; now apply Z.eqb_eq).
    replace (String.eqb (a_lesson_lang a) lang) with true
      by (symmetry; now apply String.eqb_eq).
    destruct (s_status s); [|congruence]. simpl. now left.
Qed.

Lemma student_assignment_rows_status (d : db) (uid : Z) (v : assignment_view) :
  In v (student_assignment_rows d uid) ->
  (av_status v = None
   /\ filter (sub_key_eqb (a_id (av_assignment v)) uid)
        (assignment_submissions d) = [])
  \/ exists s0,
       In s0 (assignment_submissions d)
       /\ sub_key_eqb (a_id (av_assignment v)) uid s0 = true
       /\ av_status v = Some (s_status s0).
Proof.
  unfold student_assignment_rows. intros Hin. apply sort_desc_in in Hin.
  apply in_flat_map in Hin. destruct Hin as (a & Ha & Hin).
  apply in_flat_map in Hin. destruct Hin as (cs & _ & Hin).
  apply in_flat_map in Hin. destruct Hin as (c & _ & Hin).
  match type of Hin with In _ (if ?c then _ else _) => destruct c eqn:E end;
    [|contradiction].
  rewrite !andb_true_iff, !Z.eqb_eq in E. destruct E as [_ Eu].
  rewrite Eu in Hin.
  destruct (filter (sub_key_eqb (a_id a) uid) (assignment_submissions d))
    as [|m ms] eqn:F.
  - destruct Hin as [<-|[]]. left. simpl. auto.
  - apply in_map_iff in Hin. destruct Hin as (s0 & <- & Hs0).
    right. exists s0. rewrite <- F in Hs0. apply filter_In in Hs0.
    simpl. tauto.
Qed.

Lemma backfill_loop_protected (now : clock) (ps : list progress_row) (uid : Z)
    (guarded : submission -> Prop) (views : list assignment_view) (k : nat)
    (t : sub_table) (i : nat) (row : submission) :
  (forall v r, In v views -> is_completed (av_status v) = false -> guarded r ->
     sub_key_eqb (a_id (av_assignment v)) uid r = false) ->
  guarded row ->
  nth_error (fst t) i = Some row ->
  nth_error (fst (fst (backfill_loop now ps uid views k t))) i = Some row.
Proof.
  revert k t. induction views as [|v views IH]; intros k t Hv Hg Hn; simpl.
  - exact Hn.
  - assert (Hv' : forall v0 r, In v0 views ->
              is_completed (av_status v0) = false -> guarded r ->
              sub_key_eqb (a_id (av_assignment v0)) uid r = false)
      by (intros v0 r H0; apply Hv; now right).
    destruct (is_completed (av_status v)) eqn:Ec; [now apply IH|].
    destruct (existing_progress ps uid _ _) as [p|]; [|now apply IH].
    apply IH; [exact Hv' | exact Hg |].
    unfold upsert_completed. destruct (existsb _ _); simpl.
    + apply nth_error_map_fixed; [exact Hn|].
      rewrite (Hv v row); auto. now left.
    + now apply nth_error_app_old.
Qed.

Lemma join_with_code_appends (now : clock) (uid : Z) (code : string) (d : db) :
  exists news,
    assignment_submissions (fst (join_with_code now uid code d))
    = assignment_submissions d ++ news.
Proof.
  destruct (join_with_code_effect now uid code d)
    as [[-> _]|(c & t & k & _ & Hloop & ->)].
  - exists []. now rewrite app_nil_r.
  - destruct (join_loop_created now (progress d) uid (assignments_of d (c_id c))
                1 (submissions_of d)) as (news & Hn & _).
    rewrite Hloop in Hn. exists news. exact Hn.
Qed.

(** C3. Under the key constraints of [assignment_submissions], a request
    that runs the synchronizer leaves every completed row in place and
    unchanged: its status is not set back, and its completed_at and score
    keep their values. *)
Theorem completed_rows_stay (now : clock) (s : session) (req : request)
    (d : db) (i : nat) (row : submission) :
  reconciles req ->
  submission_keys d ->
  nth_error (assignment_submissions d) i = Some row ->
  s_status row = completed ->
  nth_error (assignment_submissions (fst (handle now s req d))) i = Some row.
Proof.
  intros Hreq [Hids Hkeys] Hrow Hdone.
  assert (Hin : In row (assignment_submissions d))
    by (eapply nth_error_In; eauto).
  destruct req; simpl in Hreq; try contradiction.
  - simpl handle.
    destruct (grade_quiz_effect data now today s lang lesson_id form d)
      as [[-> _]|(uid & lesson & score & xp & _ & _ & _ & _ & _
               & [(e & -> & _)|(us & _ & _ & _ & ->)])];
      try (simpl; exact Hrow).
    simpl. apply nth_error_map_fixed; [exact Hrow|].
    destruct (complete_row_spec now score
                (pending_submissions
                   (with_users
                      (with_progress d
                         (progress d
                            ++ [progress_row_of now uid lesson_id lang score xp]))
                      us) uid lesson_id lang) 1 row)
      as [[_ H]|[Hp _]]; [exact H|].
    apply pending_submissions_in in Hp.
    destruct Hp as (s0 & a & cs & Hs0 & _ & _ & Hid & _ & _ & _ & _ & _ & Hst).
    simpl in Hs0.
    assert (s0 = row)
      by (apply (@NoDup_map_inj _ _ s_id (assignment_submissions d)); auto).
    subst s0. contradiction.
  - destruct (@join_routes now s (StudentClassroomPost code) d I)
      as [->|(uid & c & _ & ->)]; auto.
    destruct (join_with_code_appends now uid c d) as [news ->].
    now apply nth_error_app_old.
  - simpl handle.
    destruct (student_classroom_get_effect now s d)
      as [->|(uid & t & k & _ & Hloop & ->)]; auto.
    pose proof (@backfill_loop_protected now (progress d) uid
                  (fun r => In r (assignment_submissions d)
                            /\ s_status r = completed)
                  (student_assignment_rows d uid) 0 (submissions_of d) i row)
      as H.
    rewrite Hloop in H. simpl in H. apply H; auto.
    intros v r Hv Hnc [Hr Hrc].
    destruct (sub_key_eqb (a_id (av_assignment v)) uid r) eqn:Ek; [|reflexivity].
    exfalso.
    destruct (student_assignment_rows_status d uid v Hv)
      as [[_ Hnone]|(s0 & Hs0 & Ek0 & Hst)].
    + assert (Hf : In r (filter (sub_key_eqb (a_id (av_assignment v)) uid)
                             (assignment_submissions d)))
        by (apply filter_In; auto).
      rewrite Hnone in Hf. contradiction.
    + apply sub_key_eqb_true in Ek. apply sub_key_eqb_true in Ek0.
      assert (s0 = r).
      { apply (@NoDup_map_inj _ _ sub_key (assignment_submissions d)); auto.
        unfold sub_key. destruct Ek, Ek0. congruence. }
      subst s0. rewrite Hst, Hrc in Hnc. discriminate.
  - destruct (@join_routes now s (JoinClassByCode code) d I)
      as [->|(uid & c & _ & ->)]; auto.
    destruct (join_with_code_appends now uid c d) as [news ->].
    now apply nth_error_app_old.
  - simpl handle.
    destruct (teacher_create_assignment_effect now s classroom_id lesson_key
                due_date comment d)
      as [[-> _]|(tid & lang & lid & c & t & k & posts & ns & _ & _ & _ & Hloop
               & ->)];
      auto.
    destruct (ensure_loop_created now (progress d) (seq_assignments d + 1)
                lang lid (students_of d classroom_id) 1 (submissions_of d))
      as (news & Hn & _).
    rewrite Hloop in Hn. simpl in Hn. simpl. rewrite Hn.
    now apply nth_error_app_old.
Qed.

Lemma completed_rows_stay_witness :
  nth_error
    (assignment_submissions
       (fst (handle demo_clock demo_student StudentClassroomGet demo_backfilled)))
    0
  = Some (new_submission 1 1 2 completed (Some 2001) (Some 75)).
Proof.
  apply (@completed_rows_stay demo_clock demo_student StudentClassroomGet
           demo_backfilled 0 (new_submission 1 1 2 completed (Some 2001) (Some 75))).
  - exact I.
  - split; simpl; repeat constructor; simpl; tauto.
  - reflexivity.
  - reflexivity.
Defined.

(** ** Idempotence of the reconciliation steps *)

Lemma key_exists_iff (aid sid : Z) (rows : list submission) :
  existsb (sub_key_eqb aid sid) rows = true <-> In (aid, sid) (map sub_key rows).
Proof.
  rewrite existsb_exists, in_map_iff. unfold sub_key.
  split; intros (r & H1 & H2).
  - apply sub_key_eqb_true in H2. destruct H2. exists r. split; congruence.
  - exists r. split; [exact H2|]. apply sub_key_eqb_true.
    inversion H1. auto.
Qed.

Lemma insert_or_ignore_present (aid sid : Z) (st : sub_status)
    (at_ sc : option Z) (t : sub_table) :
  existsb (sub_key_eqb aid sid)
    (fst (insert_or_ignore_submission aid sid st at_ sc t)) = true.
Proof.
  unfold insert_or_ignore_submission.
  destruct (existsb (sub_key_eqb aid sid) (fst t)) eqn:E; simpl; [exact E|].
  rewrite existsb_app. simpl. unfold sub_key_eqb at 2. simpl.
  now rewrite !Z.eqb_refl, orb_true_r.
Qed.

Lemma insert_or_ignore_absent (aid sid : Z) (st : sub_status)
    (at_ sc : option Z) (t : sub_table) :
  existsb (sub_key_eqb aid sid) (fst t) = true ->
  fst (insert_or_ignore_submission aid sid st at_ sc t) = fst t.
Proof. intros H. unfold insert_or_ignore_submission. now rewrite H. Qed.

Lemma insert_or_ignore_keys (aid sid : Z) (st : sub_status)
    (at_ sc : option Z) (t : sub_table) :
  NoDup (map sub_key (fst t)) ->
  NoDup (map sub_key (fst (insert_or_ignore_submission aid sid st at_ sc t))).
Proof.
  intros H. unfold insert_or_ignore_submission.
  destruct (existsb (sub_key_eqb aid sid) (fst t)) eqn:E; simpl; [exact H|].
  rewrite map_app. simpl.
  apply NoDup_app; [exact H | repeat constructor; simpl; tauto |].
  intros x Hx [<-|[]].
  change (In (aid, sid) (map sub_key (fst t))) in Hx.
  apply key_exists_iff in Hx. congruence.
Qed.

Lemma existsb_app_old (A : Type) (f : A -> bool) (l news : list A) :
  existsb f l = true -> existsb f (l ++ news) = true.
Proof. intros H. rewrite existsb_app, H. reflexivity. Qed.

Lemma ensure_loop_covers (now : clock) (ps : list progress_row) (aid : Z)
    (lang : string) (lid : Z) (students : list Z) (k : nat) (t : sub_table)
    (st : Z) :
  In st students ->
  existsb (sub_key_eqb aid st)
    (fst (fst (ensure_loop now ps aid lang lid students k t))) = true.
Proof.
  revert k t. induction students as [|s0 students IH]; intros k t Hin;
    [contradiction|]. simpl.
  destruct (backfill_values now k (existing_progress ps s0 lang lid))
    as [[[status at_] sc] k'].
  destruct Hin as [->|Hin]; [|now apply IH].
  destruct (ensure_loop_created now ps aid lang lid students k'
              (insert_or_ignore_submission aid st status at_ sc t))
    as (news & -> & _).
  apply existsb_app_old, insert_or_ignore_present.
Qed.

Lemma ensure_loop_noop (now : clock) (ps : list progress_row) (aid : Z)
    (lang : string) (lid : Z) (students : list Z) (k : nat) (t : sub_table) :
  (forall st, In st students -> existsb (sub_key_eqb aid st) (fst t) = true) ->
  fst (fst (ensure_loop now ps aid lang lid students k t)) = fst t.
Proof.
  revert k t. induction students as [|s0 students IH]; intros k t H; simpl;
    [reflexivity|].
  destruct (backfill_values now k (existing_progress ps s0 lang lid))
    as [[[status at_] sc] k'].
  assert (Hs0 : fst (insert_or_ignore_submission aid s0 status at_ sc t) = fst t)
    by (apply insert_or_ignore_absent, H; now left).
  rewrite IH; [exact Hs0|].
  intros st Hst. rewrite Hs0. apply H. now right.
Qed.

Lemma ensure_loop_keys (now : clock) (ps : list progress_row) (aid : Z)
    (lang : string) (lid : Z) (students : list Z) (k : nat) (t : sub_table) :
  NoDup (map sub_key (fst t)) ->
  NoDup (map sub_key (fst (fst (ensure_loop now ps aid lang lid students k t)))).
Proof.
  revert k t. induction students as [|s0 students IH]; intros k t H; simpl;
    [exact H|].
  destruct (backfill_values now k (existing_progress ps s0 lang lid))
    as [[[status at_] sc] k'].
  apply IH. now apply insert_or_ignore_keys.
Qed.

Lemma join_loop_covers (now : clock) (ps : list progress_row) (uid : Z)
    (rows : list assignment) (k : nat) (t : sub_table) (a : assignment) :
  In a rows ->
  existsb (sub_key_eqb (a_id a) uid)
    (fst (fst (join_loop now ps uid rows k t))) = true.
Proof.
  revert k t. induction rows as [|a0 rows IH]; intros k t Hin;
    [contradiction|]. simpl.
  destruct (backfill_values now k
              (existing_progress ps uid (a_lesson_lang a0) (a_lesson_id a0)))
    as [[[status at_] sc] k'].
  destruct Hin as [->|Hin]; [|now apply IH].
  destruct (join_loop_created now ps uid rows k'
              (insert_or_ignore_submission (a_id a) uid status at_ sc t))
    as (news & -> & _).
  apply existsb_app_old, insert_or_ignore_present.
Qed.

Lemma join_loop_noop (now : clock) (ps : list progress_row) (uid : Z)
    (rows : list assignment) (k : nat) (t : sub_table) :
  (forall a, In a rows -> existsb (sub_key_eqb (a_id a) uid) (fst t) = true) ->
  fst (fst (join_loop now ps uid rows k t)) = fst t.
Proof.
  revert k t. induction rows as [|a0 rows IH]; intros k t H; simpl;
    [reflexivity|].
  destruct (backfill_values now k
              (existing_progress ps uid (a_lesson_lang a0) (a_lesson_id a0)))
    as [[[status at_] sc] k'].
  assert (Hs0 : fst (insert_or_ignore_submission (a_id a0) uid status at_ sc t)
                = fst t)
    by (apply insert_or_ignore_absent, H; now left).
  rewrite IH; [exact Hs0|].
  intros a Ha. rewrite Hs0. apply H. now right.
Qed.

Lemma join_loop_keys (now : clock) (ps : list progress_row) (uid : Z)
    (rows : list assignment) (k : nat) (t : sub_table) :
  NoDup (map sub_key (fst t)) ->
  NoDup (map sub_key (fst (fst (join_loop now ps uid rows k t)))).
Proof.
  revert k t. induction rows as [|a0 rows IH]; intros k t H; simpl;
    [exact H|].
  destruct (backfill_values now k
              (existing_progress ps uid (a_lesson_lang a0) (a_lesson_id a0)))
    as [[[status at_] sc] k'].
  apply IH. now apply insert_or_ignore_keys.
Qed.

Lemma status_eqb_eq (a b : sub_status) : status_eqb a b = true <-> a = b.
Proof. destruct a, b; simpl; split; congruence. Qed.

Lemma no_element (A : Type) (l : list A) : (forall x, ~ In x l) -> l = [].
Proof.
  destruct l as [|x l]; [reflexivity|]. intros H. exfalso. apply (H x). now left.
Qed.

Lemma pending_after_complete (now : clock) (k : nat) (uid : Z) (lang : string)
    (lid score : Z) (d : db) :
  pending_submissions
    (fst (fst (_complete_assignment_if_any now k uid lang lid score d)))
    uid lid lang = [].
Proof.
  rewrite complete_assignment_rows. apply no_element. intros id Hin.
  apply pending_submissions_in in Hin.
  destruct Hin as (s' & a & cs & Hs' & Ha & Hcs & Hid & H1 & H2 & H3 & H4 & H5 & H6).
  simpl in Hs', Ha, Hcs. apply in_map_iff in Hs'. destruct Hs' as (s0 & <- & Hs0).
  destruct (complete_row_spec now score (pending_submissions d uid lid lang) k s0)
    as [[Hn He]|[_ [j He]]]; rewrite He in *.
  - apply Hn. apply pending_submissions_in. exists s0, a, cs. tauto.
  - apply H6. reflexivity.
Qed.

Lemma upsert_keeps_completed (aid uid aid' uid' at_ sc : Z) (t : sub_table) :
  all_completed aid' uid' (fst t) ->
  all_completed aid' uid' (fst (upsert_completed aid uid at_ sc t)).
Proof.
  intros H r Hr Hk. unfold upsert_completed in Hr.
  destruct (existsb _ _); simpl in Hr.
  - apply in_map_iff in Hr. destruct Hr as (r0 & <- & Hr0).
    destruct (sub_key_eqb aid uid r0); [reflexivity|]. now apply H.
  - apply in_app_or in Hr. destruct Hr as [Hr|[<-|[]]]; [now apply H|].
    reflexivity.
Qed.

Lemma upsert_keeps_key (aid uid aid' uid' at_ sc : Z) (t : sub_table) :
  existsb (sub_key_eqb aid' uid') (fst t) = true ->
  existsb (sub_key_eqb aid' uid') (fst (upsert_completed aid uid at_ sc t)) = true.
Proof.
  intros H. unfold upsert_completed. destruct (existsb (sub_key_eqb aid uid) _);
    simpl.
  - apply existsb_exists in H. destruct H as (r & Hr & Hk).
    apply existsb_exists.
    exists (if sub_key_eqb aid uid r then set_completed at_ sc r else r).
    split.
    + apply in_map_iff. exists r. auto.
    + destruct (sub_key_eqb aid uid r); exact Hk.
  - now apply existsb_app_old.
Qed.

Lemma upsert_settles (aid uid at_ sc : Z) (t : sub_table) :
  all_completed aid uid (fst (upsert_completed aid uid at_ sc t))
  /\ existsb (sub_key_eqb aid uid) (fst (upsert_completed aid uid at_ sc t))
     = true.
Proof.
  unfold upsert_completed.
  destruct (existsb (sub_key_eqb aid uid) (fst t)) eqn:E; simpl.
  - split.
    + intros r Hr Hk. apply in_map_iff in Hr. destruct Hr as (r0 & <- & _).
      destruct (sub_key_eqb aid uid r0) eqn:E0; [reflexivity | congruence].
    + apply existsb_exists in E. destruct E as (r & Hr & Hk).
      apply existsb_exists. exists (set_completed at_ sc r). split.
      * apply in_map_iff. exists r. rewrite Hk. auto.
      * exact Hk.
  - split.
    + intros r Hr Hk. apply in_app_or in Hr. destruct Hr as [Hr|[<-|[]]].
      * assert (existsb (sub_key_eqb aid uid) (fst t) = true)
          by (apply existsb_exists; eauto).
        congruence.
      * reflexivity.
    + rewrite existsb_app. simpl. unfold sub_key_eqb at 2. simpl.
      now rewrite !Z.eqb_refl, orb_true_r.
Qed.

Lemma backfill_loop_keeps (now : clock) (ps : list progress_row) (uid : Z)
    (views : list assignment_view) (k : nat) (t : sub_table) (aid' uid' : Z) :
  all_completed aid' uid' (fst t)
  /\ existsb (sub_key_eqb aid' uid') (fst t) = true ->
  all_completed aid' uid' (fst (fst (backfill_loop now ps uid views k t)))
  /\ existsb (sub_key_eqb aid' uid')
       (fst (fst (backfill_loop now ps uid views k t))) = true.
Proof.
  revert k t. induction views as [|v views IH]; intros k t H; simpl; [exact H|].
  destruct (is_completed (av_status v)); [now apply IH|].
  destruct (existing_progress ps uid _ _); [|now apply IH].
  apply IH. destruct H. split.
  - now apply upsert_keeps_completed.
  - now apply upsert_keeps_key.
Qed.

Lemma backfill_loop_settles (now : clock) (ps : list progress_row) (uid : Z)
    (views : list assignment_view) (k : nat) (t : sub_table)
    (v : assignment_view) (p : progress_row) :
  In v views ->
  is_completed (av_status v) = false ->
  existing_progress ps uid (a_lesson_lang (av_assignment v))
    (a_lesson_id (av_assignment v)) = Some p ->
  all_completed (a_id (av_assignment v)) uid
    (fst (fst (backfill_loop now ps uid views k t)))
  /\ existsb (sub_key_eqb (a_id (av_assignment v)) uid)
       (fst (fst (backfill_loop now ps uid views k t))) = true.
Proof.
  revert k t. induction views as [|v0 views IH]; intros k t Hin Hc Hp;
    [contradiction|]. simpl.
  destruct Hin as [->|Hin].
  - rewrite Hc, Hp. apply backfill_loop_keeps. apply upsert_settles.
  - destruct (is_completed (av_status v0)); [now apply IH|].
    destruct (existing_progress ps uid (a_lesson_lang (av_assignment v0))
                (a_lesson_id (av_assignment v0))); now apply IH.
Qed.

Lemma backfill_loop_noop (now : clock) (ps : list progress_row) (uid : Z)
    (views : list assignment_view) (k : nat) (t : sub_table) :
  (forall v, In v views ->
     is_completed (av_status v) = true
     \/ existing_progress ps uid (a_lesson_lang (av_assignment v))
          (a_lesson_id (av_assignment v)) = None) ->
  fst (fst (backfill_loop now ps uid views k t)) = fst t.
Proof.
  revert k t. induction views as [|v views IH]; intros k t H; simpl;
    [reflexivity|].
  assert (H' : forall v0, In v0 views ->
            is_completed (av_status v0) = true
            \/ existing_progress ps uid (a_lesson_lang (av_assignment v0))
                 (a_lesson_id (av_assignment v0)) = None)
    by (intros v0 H0; apply H; now right).
  destruct (H v (or_introl eq_refl)) as [Hc|Hn].
  - rewrite Hc. now apply IH.
  - destruct (is_completed (av_status v)); [now apply IH|].
    rewrite Hn. now apply IH.
Qed.

Lemma backfill_loop_keys (now : clock) (ps : list progress_row) (uid : Z)
    (views : list assignment_view) (k : nat) (t : sub_table) :
  NoDup (map sub_key (fst t)) ->
  NoDup (map sub_key (fst (fst (backfill_loop now ps uid views k t)))).
Proof.
  revert k t. induction views as [|v views IH]; intros k t H; simpl; [exact H|].
  destruct (is_completed (av_status v)); [now apply IH|].
  destruct (existing_progress ps uid _ _) as [p|]; [|now apply IH].
  apply IH. unfold upsert_completed.
  destruct (existsb (sub_key_eqb (a_id (av_assignment v)) uid) (fst t)) eqn:E;
    simpl.
  - rewrite map_map.
    rewrite (@map_ext _ _ _ sub_key); [exact H|].
    intros r. now destruct (sub_key_eqb _ _ r).
  - rewrite map_app. simpl.
    apply NoDup_app; [exact H | repeat constructor; simpl; tauto |].
    intros x Hx [<-|[]].
    change (In (a_id (av_assignment v), uid) (map sub_key (fst t))) in Hx.
    apply key_exists_iff in Hx. congruence.
Qed.

Lemma student_assignment_rows_in (d : db) (uid : Z) (v : assignment_view) :
  In v (student_assignment_rows d uid)
  <-> exists a cs c,
        In a (assignments d) /\ In cs (classroom_students d)
        /\ In c (classrooms d)
        /\ cs_classroom_id cs = a_classroom_id a
        /\ c_id c = a_classroom_id a
        /\ cs_student_id cs = uid
        /\ ((filter (sub_key_eqb (a_id a) uid) (assignment_submissions d) = []
             /\ v = view_of a c None)
            \/ exists s0,
                 In s0 (filter (sub_key_eqb (a_id a) uid)
                          (assignment_submissions d))
                 /\ v = view_of a c (Some s0)).
Proof.
  unfold student_assignment_rows. rewrite sort_desc_in. split.
  - intros Hin.
    apply in_flat_map in Hin. destruct Hin as (a & Ha & Hin).
    apply in_flat_map in Hin. destruct Hin as (cs & Hcs & Hin).
    apply in_flat_map in Hin. destruct Hin as (c & Hc & Hin).
    match type of Hin with In _ (if ?c then _ else _) => destruct c eqn:E end;
      [|contradiction].
    rewrite !andb_true_iff, !Z.eqb_eq in E. destruct E as [[E1 E2] E3].
    rewrite E3 in Hin. exists a, cs, c. repeat (split; [assumption|]).
    destruct (filter (sub_key_eqb (a_id a) uid) (assignment_submissions d))
      as [|m ms].
    + destruct Hin as [<-|[]]. left. auto.
    + apply in_map_iff in Hin. destruct Hin as (s0 & <- & Hs0). right. eauto.
  - intros (a & cs & c & Ha & Hcs & Hc & E1 & E2 & E3 & Hv).
    apply in_flat_map. exists a. split; [exact Ha|].
    apply in_flat_map. exists cs. split; [exact Hcs|].
    apply in_flat_map. exists c. split; [exact Hc|].
    replace (cs_classroom_id cs =? a_classroom_id a) with true
      by (symmetry; now apply Z.eqb_eq).
    replace (c_id c =? a_classroom_id a) with true
      by (symmetry; now apply Z.eqb_eq).
    replace (cs_student_id cs =? uid) with true by (symmetry; now apply Z.eqb_eq).
    cbn [andb]. rewrite E3.
    destruct Hv as [[Hn ->]|(s0 & Hs0 & ->)].
    + rewrite Hn. now left.
    + destruct (filter (sub_key_eqb (a_id a) uid) (assignment_submissions d))
        as [|m ms]; [contradiction|].
      apply in_map_iff. eauto.
Qed.

Lemma view_backfill_settled (now : clock) (d : db) (uid : Z) (t : sub_table)
    (k : nat) (v : assignment_view) :
  backfill_loop now (progress d) uid (student_assignment_rows d uid) 0
    (submissions_of d) = (t, k) ->
  In v (student_assignment_rows (with_submissions d t) uid) ->
  is_completed (av_status v) = true
  \/ existing_progress (progress d) uid (a_lesson_lang (av_assignment v))
       (a_lesson_id (av_assignment v)) = None.
Proof.
  intros Hloop Hv.
  apply student_assignment_rows_in in Hv.
  destruct Hv as (a & cs & c & Ha & Hcs & Hc & E1 & E2 & E3 & Hv).
  simpl in Ha, Hcs, Hc, Hv.
  assert (Ha_v : av_assignment v = a)
    by (destruct Hv as [[_ ->]|(s0 & _ & ->)]; reflexivity).
  rewrite Ha_v.
  destruct (existing_progress (progress d) uid (a_lesson_lang a) (a_lesson_id a))
    as [p|] eqn:Hp; [left | now right].
  assert (Hsettled : all_completed (a_id a) uid (fst t)
                     /\ existsb (sub_key_eqb (a_id a) uid) (fst t) = true).
  { set (matches := filter (sub_key_eqb (a_id a) uid) (assignment_submissions d)).
    assert (Hview : forall v1,
              (matches = [] /\ v1 = view_of a c None)
              \/ (exists s0, In s0 matches /\ v1 = view_of a c (Some s0)) ->
              In v1 (student_assignment_rows d uid)).
    { intros v1 Hv1. apply student_assignment_rows_in.
      exists a, cs, c. tauto. }
    destruct matches as [|m ms] eqn:Hm.
    - pose proof (@backfill_loop_settles now (progress d) uid
                    (student_assignment_rows d uid) 0 (submissions_of d)
                    (view_of a c None) p) as H.
      rewrite Hloop in H. apply H; auto.
    - destruct (forallb (fun s0 => status_eqb (s_status s0) completed) matches)
        eqn:Hall.
      + pose proof (@backfill_loop_keeps now (progress d) uid
                      (student_assignment_rows d uid) 0 (submissions_of d)
                      (a_id a) uid) as H.
        rewrite Hloop in H. apply H. simpl. split.
        * intros r Hr Hk. rewrite forallb_forall in Hall.
          apply status_eqb_eq, Hall. unfold matches. apply filter_In. auto.
        * apply existsb_exists. exists m.
          assert (Hin : In m matches) by (rewrite Hm; now left).
          unfold matches in Hin. apply filter_In in Hin. exact Hin.
      + assert (Hex : exists s0, In s0 matches /\ s_status s0 <> completed).
        { clear - Hall. induction matches as [|x l IH]; [discriminate|].
          simpl in Hall. apply andb_false_iff in Hall.
          destruct Hall as [Hx|Hl].
          - exists x. split; [now left|]. intros F.
            apply status_eqb_eq in F. congruence.
          - destruct (IH Hl) as (s0 & H1 & H2). exists s0. split; [now right|].
            exact H2. }
        destruct Hex as (s0 & Hs0 & Hst).
        pose proof (@backfill_loop_settles now (progress d) uid
                      (student_assignment_rows d uid) 0 (submissions_of d)
                      (view_of a c (Some s0)) p) as H.
        rewrite Hloop in H. apply H; auto.
        * apply Hview. right. exists s0. rewrite <- Hm. auto.
        * simpl. destruct (s_status s0); [reflexivity | congruence]. }
  destruct Hsettled as [Hall Hex].
  destruct Hv as [[Hn _]|(s0 & Hs0 & ->)].
  - apply existsb_exists in Hex. destruct Hex as (r & Hr & Hk).
    assert (F : In r (filter (sub_key_eqb (a_id a) uid) (fst t)))
      by (apply filter_In; auto).
    rewrite Hn in F. contradiction.
  - apply filter_In in Hs0. destruct Hs0 as [Hs0 Hk].
    simpl. rewrite (Hall s0 Hs0 Hk). reflexivity.
Qed.

Lemma ensure_twice (now1 now2 : clock) (k1 k2 : nat) (aid cid : Z)
    (lang : string) (lid : Z) (d : db) :
  let d1 := fst (ensure_assignment_submissions now1 k1 aid cid lang lid d) in
  assignment_submissions
    (fst (ensure_assignment_submissions now2 k2 aid cid lang lid d1))
  = assignment_submissions d1.
Proof.
  cbv zeta. unfold ensure_assignment_submissions.
  pose proof (fun st => @ensure_loop_covers now1 (progress d) aid lang lid
                          (students_of d cid) k1 (submissions_of d) st) as Hcov.
  destruct (ensure_loop now1 (progress d) aid lang lid (students_of d cid) k1
              (submissions_of d)) as [t1 j1].
  simpl in Hcov. cbn [fst].
  unfold students_of, submissions_of in *.
  cbn [with_submissions progress classroom_students assignment_submissions
       seq_submissions fst snd].
  pose proof (@ensure_loop_noop now2 (progress d) aid lang lid
                (map cs_student_id
                   (filter (fun cs => cs_classroom_id cs =? cid)
                      (classroom_students d))) k2 (fst t1, snd t1) Hcov) as Hno.
  destruct (ensure_loop now2 _ _ _ _ _ _ _) as [t2 j2].
  exact Hno.
Qed.

Lemma find_classroom_by_code_frame (d d' : db) (code : string) :
  classrooms d' = classrooms d ->
  find_classroom_by_code d' code = find_classroom_by_code d code.
Proof. unfold find_classroom_by_code. now intros ->. Qed.

Lemma join_twice (now1 now2 : clock) (uid : Z) (code : string) (d : db) :
  let d1 := fst (join_with_code now1 uid code d) in
  assignment_submissions (fst (join_with_code now2 uid code d1))
  = assignment_submissions d1.
Proof.
  cbv zeta.
  destruct (join_with_code_effect now1 uid code d)
    as [[-> Hnone]|(c & t1 & j1 & Hc & Hloop & ->)].
  - unfold join_with_code. now rewrite Hnone.
  - pose proof (fun a => @join_loop_covers now1 (progress d) uid
                           (assignments_of d (c_id c)) 1 (submissions_of d) a)
      as Hcov.
    rewrite Hloop in Hcov. simpl in Hcov.
    unfold join_with_code.
    rewrite (@find_classroom_by_code_frame d) by reflexivity.
    rewrite Hc.
    unfold assignments_of, submissions_of in *.
    cbn [with_submissions with_classroom_students progress assignments
         assignment_submissions seq_submissions fst snd].
    pose proof (@join_loop_noop now2 (progress d) uid
                  (filter (fun a => a_classroom_id a =? c_id c) (assignments d))
                  1 (fst t1, snd t1) Hcov) as Hno.
    destruct (join_loop now2 _ _ _ _ _) as [t2 j2].
    exact Hno.
Qed.

Lemma complete_twice (now1 now2 : clock) (k1 k2 : nat) (uid : Z) (lang : string)
    (lid score : Z) (d : db) :
  let d1 := fst (fst (_complete_assignment_if_any now1 k1 uid lang lid score d)) in
  assignment_submissions
    (fst (fst (_complete_assignment_if_any now2 k2 uid lang lid score d1)))
  = assignment_submissions d1.
Proof.
  cbv zeta. rewrite (complete_assignment_rows now2).
  rewrite pending_after_complete. simpl. apply map_id.
Qed.

Lemma view_backfill_twice (now1 now2 : clock) (s : session) (d : db) :
  let d1 := fst (student_classroom_get now1 s d) in
  assignment_submissions (fst (student_classroom_get now2 s d1))
  = assignment_submissions d1.
Proof.
  cbv zeta. unfold student_classroom_get.
  destruct (require_login s); [reflexivity|].
  destruct (require_role s "Student"); [reflexivity|].
  destruct (sess_user_id s) as [uid|]; [|reflexivity].
  destruct (backfill_loop now1 (progress d) uid (student_assignment_rows d uid)
              0 (submissions_of d)) as [t1 j1] eqn:Hloop.
  cbn [fst].
  pose proof (@backfill_loop_noop now2 (progress d) uid
                (student_assignment_rows (with_submissions d t1) uid) 0
                (submissions_of (with_submissions d t1))
                (fun v Hv => @view_backfill_settled now1 d uid t1 j1 v Hloop Hv))
    as Hno.
  change (progress (with_submissions d t1)) with (progress d).
  destruct (backfill_loop now2 (progress d) uid
              (student_assignment_rows (with_submissions d t1) uid) 0
              (submissions_of (with_submissions d t1))) as [t2 j2].
  exact Hno.
Qed.

(** C4. Running a reconciliation step a second time, at any later readings
    of the clock, leaves every submission row as the first run left it; and
    a run adds no second row for a pair (assignment_id, student_id). *)
Theorem reconcile_idempotent (st : reconcile_step) (now1 now2 : clock)
    (k1 k2 : nat) (d : db) :
  let d1 := run_step now1 k1 st d in
  assignment_submissions (run_step now2 k2 st d1) = assignment_submissions d1
  /\ (NoDup (map sub_key (assignment_submissions d)) ->
      NoDup (map sub_key (assignment_submissions d1))).
Proof.
  cbv zeta. split.
  - destruct st; simpl.
    + apply ensure_twice.
    + apply join_twice.
    + apply complete_twice.
    + apply view_backfill_twice.
  - intros Hnd. destruct st; simpl.
    + unfold ensure_assignment_submissions.
      pose proof (@ensure_loop_keys now1 (progress d) assignment_id lesson_lang
                    lesson_id (students_of d classroom_id) k1 (submissions_of d)
                    Hnd) as H.
      destruct (ensure_loop _ _ _ _ _ _ _ _) as [t1 j1]. exact H.
    + destruct (join_with_code_effect now1 user_id code d)
        as [[-> _]|(c & t1 & j1 & _ & Hloop & ->)]; [exact Hnd|].
      pose proof (@join_loop_keys now1 (progress d) user_id
                    (assignments_of d (c_id c)) 1 (submissions_of d) Hnd) as H.
      rewrite Hloop in H. exact H.
    + rewrite complete_assignment_rows. simpl. rewrite map_map.
      rewrite (@map_ext _ _ _ sub_key); [exact Hnd|].
      intros r. unfold sub_key.
      destruct (complete_row_identity now1 score
                  (pending_submissions d user_id lesson_id lang) k1 r)
        as (_ & -> & -> & _).
      reflexivity.
    + destruct (student_classroom_get_effect now1 s d)
        as [->|(uid & t1 & j1 & _ & Hloop & ->)]; [exact Hnd|].
      pose proof (@backfill_loop_keys now1 (progress d) uid
                    (student_assignment_rows d uid) 0 (submissions_of d) Hnd)
        as H.
      rewrite Hloop in H. exact H.
Qed.

Lemma reconcile_idempotent_witness :
  NoDup (map sub_key
           (assignment_submissions
              (run_step demo_clock 1 (EnsureSubmissions 1 1 "python" 3)
                 demo_graded))).
Proof.
  apply (proj2 (@reconcile_idempotent (EnsureSubmissions 1 1 "python" 3)
                  demo_clock demo_clock_later 1 1 demo_graded)).
  simpl. repeat constructor; simpl; intuition discriminate.
Defined.

(** ** The derived-status invariant *)

Lemma existing_progress_some (ps : list progress_row) (uid : Z) (lang : string)
    (lid : Z) (p : progress_row) :
  existing_progress ps uid lang lid = Some p ->
  In p ps /\ p_key p = (uid, lang, lid).
Proof.
  unfold existing_progress. intros H. apply find_some in H.
  destruct H as [Hin H].
  rewrite !andb_true_iff, !Z.eqb_eq, String.eqb_eq in H.
  unfold p_key. destruct H as [[-> ->] ->]. auto.
Qed.

Lemma existing_progress_none (ps : list progress_row) (uid : Z) (lang : string)
    (lid : Z) (p : progress_row) :
  existing_progress ps uid lang lid = None ->
  In p ps -> p_key p <> (uid, lang, lid).
Proof.
  unfold existing_progress. intros H Hin E.
  pose proof (find_none _ _ H p Hin) as F. simpl in F.
  unfold p_key in E. inversion E; subst.
  now rewrite !Z.eqb_refl, String.eqb_refl in F.
Qed.

Lemma has_progress_key (d : db) (uid : Z) (lang : string) (lid : Z) :
  has_progress d uid lang lid
  <-> exists p, In p (progress d) /\ p_key p = (uid, lang, lid).
Proof.
  unfold has_progress, p_key. split; intros (p & Hp & H); exists p.
  - destruct H as (-> & -> & ->). auto.
  - inversion H. auto.
Qed.

Lemma created_from_status (now : clock) (d : db) (lang : string) (lid : Z)
    (r : submission) :
  created_from now (progress d) lang lid r ->
  (s_status r = completed <-> has_progress d (s_student_id r) lang lid).
Proof.
  intros [_ H]. rewrite has_progress_key.
  destruct (existing_progress (progress d) (s_student_id r) lang lid)
    as [p|] eqn:E.
  - apply existing_progress_some in E. destruct H as (-> & _). split; eauto.
  - destruct H as (-> & _). split; [discriminate|].
    intros (p & Hp & Hk). exfalso.
    eapply existing_progress_none; eauto.
Qed.

Lemma created_from_score (now : clock) (d : db) (lang : string) (lid : Z)
    (r : submission) (p : progress_row) :
  NoDup (map p_key (progress d)) ->
  created_from now (progress d) lang lid r ->
  In p (progress d) -> p_key p = (s_student_id r, lang, lid) ->
  s_score r = Some (p_score p).
Proof.
  intros Hnd [_ H] Hp Hk.
  destruct (existing_progress (progress d) (s_student_id r) lang lid)
    as [p0|] eqn:E.
  - apply existing_progress_some in E. destruct E as [Hp0 Hk0].
    assert (p0 = p)
      by (apply (@NoDup_map_inj _ _ p_key (progress d)); congruence).
    subst p0. tauto.
  - exfalso. eapply existing_progress_none; eauto.
Qed.

Lemma insert_or_ignore_ids (aid sid : Z) (st : sub_status) (at_ sc : option Z)
    (t : sub_table) :
  sub_ids_ok t -> sub_ids_ok (insert_or_ignore_submission aid sid st at_ sc t).
Proof.
  intros [Hnd Hle]. unfold insert_or_ignore_submission, sub_ids_ok.
  destruct (existsb _ _); simpl.
  - split; [exact Hnd|]. intros s Hs. specialize (Hle s Hs). lia.
  - split.
    + rewrite map_app. simpl.
      apply NoDup_app; [exact Hnd | repeat constructor; simpl; tauto |].
      intros x Hx [<-|[]]. apply in_map_iff in Hx.
      destruct Hx as (s & Hid & Hs). specialize (Hle s Hs). lia.
    + intros s Hs. apply in_app_or in Hs. destruct Hs as [Hs|[<-|[]]].
      * specialize (Hle s Hs). lia.
      * simpl. lia.
Qed.

Lemma ensure_loop_ids (now : clock) (ps : list progress_row) (aid : Z)
    (lang : string) (lid : Z) (students : list Z) (k : nat) (t : sub_table) :
  sub_ids_ok t ->
  sub_ids_ok (fst (ensure_loop now ps aid lang lid students k t)).
Proof.
  revert k t. induction students as [|s0 students IH]; intros k t H; simpl;
    [exact H|].
  destruct (backfill_values now k (existing_progress ps s0 lang lid))
    as [[[status at_] sc] k'].
  apply IH. now apply insert_or_ignore_ids.
Qed.

Lemma join_loop_ids (now : clock) (ps : list progress_row) (uid : Z)
    (rows : list assignment) (k : nat) (t : sub_table) :
  sub_ids_ok t -> sub_ids_ok (fst (join_loop now ps uid rows k t)).
Proof.
  revert k t. induction rows as [|a0 rows IH]; intros k t H; simpl; [exact H|].
  destruct (backfill_values now k
              (existing_progress ps uid (a_lesson_lang a0) (a_lesson_id a0)))
    as [[[status at_] sc] k'].
  apply IH. now apply insert_or_ignore_ids.
Qed.

Lemma insert_or_ignore_member_in (cid uid at_ : Z) (rows : list classroom_student)
    (cs : classroom_student) :
  In cs (insert_or_ignore_member cid uid at_ rows)
  -> In cs rows \/ (cs_classroom_id cs = cid /\ cs_student_id cs = uid).
Proof.
  unfold insert_or_ignore_member. destruct (existsb _ _); [now left|].
  intros H. apply in_app_or in H. destruct H as [H|[<-|[]]]; auto.
Qed.

Lemma insert_or_ignore_member_old (cid uid at_ : Z) (rows : list classroom_student)
    (cs : classroom_student) :
  In cs rows -> In cs (insert_or_ignore_member cid uid at_ rows).
Proof.
  unfold insert_or_ignore_member. destruct (existsb _ _); [auto|].
  intros H. apply in_or_app. now left.
Qed.

Lemma insert_or_ignore_member_new (cid uid at_ : Z) (rows : list classroom_student) :
  exists cs, In cs (insert_or_ignore_member cid uid at_ rows)
             /\ cs_classroom_id cs = cid /\ cs_student_id cs = uid.
Proof.
  unfold insert_or_ignore_member.
  destruct (existsb _ rows) eqn:E.
  - apply existsb_exists in E. destruct E as (cs & Hcs & E).
    rewrite andb_true_iff, !Z.eqb_eq in E. exists cs. tauto.
  - eexists. split; [apply in_or_app; right; now left|]. simpl. auto.
Qed.

Section JoinPreserves.
Variable now : clock.
Variable uid : Z.
Variable code : string.
Variable d : db.

Local Abbreviation d' := (fst (join_with_code now uid code d)).

Lemma join_with_code_shape :
  d' = d
  \/ exists c members news seq',
       find_classroom_by_code d code = Some c
       /\ d' = with_submissions (with_classroom_students d members)
                 (assignment_submissions d ++ news, seq')
       /\ (forall cs, In cs members ->
             In cs (classroom_students d)
             \/ (cs_classroom_id cs = c_id c /\ cs_student_id cs = uid))
       /\ (forall cs, In cs (classroom_students d) -> In cs members)
       /\ (exists cs, In cs members
                      /\ cs_classroom_id cs = c_id c /\ cs_student_id cs = uid)
       /\ Forall (fun r => s_student_id r = uid
                    /\ exists a, In a (assignments d)
                         /\ a_classroom_id a = c_id c
                         /\ a_id a = s_assignment_id r
                         /\ created_from now (progress d) (a_lesson_lang a)
                              (a_lesson_id a) r) news
       /\ (sub_ids_ok (submissions_of d) ->
           sub_ids_ok (assignment_submissions d ++ news, seq'))
       /\ (NoDup (map sub_key (assignment_submissions d)) ->
           NoDup (map sub_key (assignment_submissions d ++ news)))
       /\ (forall a, In a (assignments d) -> a_classroom_id a = c_id c ->
             existsb (sub_key_eqb (a_id a) uid)
               (assignment_submissions d ++ news) = true).
Proof.
  destruct (join_with_code_effect now uid code d)
    as [[-> _]|(c & t & k & Hc & Hloop & ->)]; [now left|].
  right.
  destruct (join_loop_created now (progress d) uid (assignments_of d (c_id c))
              1 (submissions_of d)) as (news & Hn & HF).
  pose proof (@join_loop_ids now (progress d) uid (assignments_of d (c_id c))
                1 (submissions_of d)) as Hids.
  pose proof (@join_loop_keys now (progress d) uid (assignments_of d (c_id c))
                1 (submissions_of d)) as Hkeys.
  pose proof (@join_loop_covers now (progress d) uid
                (assignments_of d (c_id c)) 1 (submissions_of d)) as Hcov.
  rewrite Hloop in *. simpl in Hn, Hids, Hkeys, Hcov.
  destruct t as [rows' seq']. simpl in *. subst rows'.
  exists c, (insert_or_ignore_member (c_id c) uid (now 0%nat)
               (classroom_students d)), news, seq'.
  split; [exact Hc|]. split; [reflexivity|].
  split; [apply insert_or_ignore_member_in|].
  split; [apply insert_or_ignore_member_old|].
  split; [apply insert_or_ignore_member_new|].
  split.
  { eapply Forall_impl; [|exact HF]. simpl.
    intros r (Hs & a & Ha & Hrest). split; [exact Hs|].
    exists a. apply filter_In in Ha. destruct Ha as [Ha Hcid].
    apply Z.eqb_eq in Hcid. tauto. }
  split; [exact Hids|]. split; [exact Hkeys|].
  intros a Ha Hcid. apply Hcov. apply filter_In. split; [exact Ha|].
  now apply Z.eqb_eq.
Qed.

Lemma join_with_code_wf : db_wf d -> db_wf d'.
Proof.
  intros W.
  destruct join_with_code_shape
    as [->|(c & members & news & seq' & _ & -> & Hm & Hold & Hnew & HF
            & Hids & Hkeys & _)]; [exact W|].
  destruct W as [W1 W2 W3 W4 W5 W6].
  constructor; simpl; auto.
  intros s Hs. apply in_app_or in Hs. destruct Hs as [Hs|Hs].
  - destruct (W6 s Hs) as (a & cs & Ha & Hid & Hcs & H1 & H2).
    exists a, cs. auto 6.
  - rewrite Forall_forall in HF. destruct (HF s Hs) as (Hu & a & Ha & Hc & Hid & _).
    destruct Hnew as (cs & Hcs & H1 & H2).
    exists a, cs. repeat split; auto; congruence.
Qed.

Lemma join_with_code_derived : db_wf d -> derived_status d -> derived_status d'.
Proof.
  intros W D.
  destruct join_with_code_shape
    as [->|(c & members & news & seq' & _ & -> & _ & _ & _ & HF & _)];
    [exact D|].
  intros s a Hs Ha Hid. simpl in Hs, Ha.
  change (has_progress _ ?u ?l ?i) with (has_progress d u l i).
  apply in_app_or in Hs. destruct Hs as [Hs|Hs]; [now apply D|].
  rewrite Forall_forall in HF. destruct (HF s Hs) as (_ & a0 & Ha0 & _ & Hid0 & Hc).
  assert (a0 = a)
    by (apply (@NoDup_map_inj _ _ a_id (assignments d));
        [apply W | | | congruence]; auto).
  subst a0. eapply created_from_status; eauto.
Qed.

Lemma join_with_code_score :
  db_wf d -> score_consistent d -> score_consistent d'.
Proof.
  intros W D.
  destruct join_with_code_shape
    as [->|(c & members & news & seq' & _ & -> & _ & _ & _ & HF & _)];
    [exact D|].
  intros s a p Hs Ha Hid Hp Hk Hst. simpl in Hs, Ha, Hp.
  apply in_app_or in Hs. destruct Hs as [Hs|Hs]; [eapply D; eauto|].
  rewrite Forall_forall in HF. destruct (HF s Hs) as (_ & a0 & Ha0 & _ & Hid0 & Hc).
  assert (a0 = a)
    by (apply (@NoDup_map_inj _ _ a_id (assignments d));
        [apply W | | | congruence]; auto).
  subst a0. eapply created_from_score; eauto. apply W.
Qed.

Lemma join_with_code_coverage : coverage d -> coverage d'.
Proof.
  intros C.
  destruct join_with_code_shape
    as [->|(c & members & news & seq' & _ & -> & Hm & _ & _ & _ & _ & _ & Hcov)];
    [exact C|].
  intros a cs Ha Hcs Hcid. simpl in *.
  destruct (Hm cs Hcs) as [Hold|[H1 H2]].
  - apply existsb_app_old. now apply C.
  - rewrite H2. apply Hcov; [exact Ha | congruence].
Qed.
End JoinPreserves.

Lemma students_of_in (d : db) (cid st : Z) :
  In st (students_of d cid)
  <-> exists cs, In cs (classroom_students d)
                 /\ cs_classroom_id cs = cid /\ cs_student_id cs = st.
Proof.
  unfold students_of. rewrite in_map_iff. split.
  - intros (cs & Hst & Hin). apply filter_In in Hin. destruct Hin as [Hin E].
    apply Z.eqb_eq in E. eauto.
  - intros (cs & Hin & E & Hst). exists cs. split; [exact Hst|].
    apply filter_In. split; [exact Hin | now apply Z.eqb_eq].
Qed.

Section CreatePreserves.
Variable now : clock.
Variable s : session.
Variable cid : Z.
Variable key : string.
Variable due : option string.
Variable comment : string.
Variable d : db.

Local Abbreviation d' :=
  (fst (teacher_create_assignment now s cid key due comment d)).

Lemma teacher_create_assignment_shape :
  d' = d
  \/ exists tid lang lid c news seq' posts ns,
       sess_user_id s = Some tid
       /\ parse_lesson_key key = inl (lang, lid)
       /\ find_owned_classroom d cid tid = Some c
       /\ let a := assignment_row_of now d cid lid lang due (strip comment) in
          d' = with_notifications
                 (with_stream_posts
                    (with_submissions
                       (with_assignments d (assignments d ++ [a])
                          (seq_assignments d + 1))
                       (assignment_submissions d ++ news, seq')) posts) ns
          /\ Forall (fun r => s_assignment_id r = a_id a
                       /\ In (s_student_id r) (students_of d cid)
                       /\ created_from now (progress d) lang lid r) news
          /\ (sub_ids_ok (submissions_of d) ->
              sub_ids_ok (assignment_submissions d ++ news, seq'))
          /\ (NoDup (map sub_key (assignment_submissions d)) ->
              NoDup (map sub_key (assignment_submissions d ++ news)))
          /\ (forall st, In st (students_of d cid) ->
                existsb (sub_key_eqb (a_id a) st)
                  (assignment_submissions d ++ news) = true).
Proof.
  destruct (teacher_create_assignment_effect now s cid key due comment d)
    as [[-> _]|(tid & lang & lid & c & t & k & posts & ns & Hs & Hk & Hc
                & Hloop & ->)]; [now left|].
  right.
  destruct (ensure_loop_created now (progress d) (seq_assignments d + 1) lang
              lid (students_of d cid) 1 (submissions_of d))
    as (news & Hn & HF).
  pose proof (@ensure_loop_ids now (progress d) (seq_assignments d + 1) lang
                lid (students_of d cid) 1 (submissions_of d)) as Hids.
  pose proof (@ensure_loop_keys now (progress d) (seq_assignments d + 1) lang
                lid (students_of d cid) 1 (submissions_of d)) as Hkeys.
  pose proof (@ensure_loop_covers now (progress d) (seq_assignments d + 1)
                lang lid (students_of d cid) 1 (submissions_of d)) as Hcov.
  rewrite Hloop in *. simpl in Hn, Hids, Hkeys, Hcov.
  destruct t as [rows' seq']. simpl in *. subst rows'.
  exists tid, lang, lid, c, news, seq', posts, ns.
  repeat (split; [first [assumption | reflexivity]|]).
  exact Hcov.
Qed.

Lemma old_submission_not_new (r : submission) :
  db_wf d -> In r (assignment_submissions d) ->
  s_assignment_id r <> seq_assignments d + 1.
Proof.
  intros W Hr. destruct (wf_sub_refs W r Hr) as (a & _ & Ha & Hid & _).
  pose proof (wf_assignment_seq W a Ha). lia.
Qed.

Lemma teacher_create_assignment_wf : db_wf d -> db_wf d'.
Proof.
  intros W. pose proof (old_submission_not_new) as Hfresh.
  destruct teacher_create_assignment_shape
    as [->|(tid & lang & lid & c & news & seq' & posts & ns & _ & _ & _
            & -> & HF & Hids & Hkeys & _)]; [exact W|].
  destruct W as [W1 W2 W3 W4 W5 W6].
  constructor; simpl; auto.
  - rewrite map_app. simpl.
    apply NoDup_app; [exact W3 | repeat constructor; simpl; tauto |].
    intros x Hx [<-|[]]. apply in_map_iff in Hx.
    destruct Hx as (a & Hid & Ha). specialize (W4 a Ha). lia.
  - intros a Ha. apply in_app_or in Ha. destruct Ha as [Ha|[<-|[]]].
    + specialize (W4 a Ha). lia.
    + simpl. lia.
  - intros r Hr. apply in_app_or in Hr. destruct Hr as [Hr|Hr].
    + destruct (W6 r Hr) as (a & cs & Ha & Hid & Hcs & H1 & H2).
      exists a, cs. repeat split; auto. apply in_or_app. now left.
    + rewrite Forall_forall in HF. destruct (HF r Hr) as (Hid & Hst & _).
      apply students_of_in in Hst. destruct Hst as (cs & Hcs & H1 & H2).
      exists (assignment_row_of now d cid lid lang due (strip comment)), cs.
      repeat split; auto. apply in_or_app. right. now left.
Qed.

(** The assignments of the new state that a row refers to. *)
Lemma created_assignment_cases (r : submission) (a : assignment)
    (lang : string) (lid : Z) (news : list submission) :
  db_wf d ->
  Forall (fun r0 => s_assignment_id r0 = seq_assignments d + 1) news ->
  In r (assignment_submissions d ++ news) ->
  In a (assignments d
          ++ [assignment_row_of now d cid lid lang due (strip comment)]) ->
  a_id a = s_assignment_id r ->
  (In r (assignment_submissions d) /\ In a (assignments d))
  \/ (In r news
      /\ a = assignment_row_of now d cid lid lang due (strip comment)).
Proof.
  intros W HF Hr Ha Hid.
  apply in_app_or in Hr. apply in_app_or in Ha.
  destruct Hr as [Hr|Hr], Ha as [Ha|[<-|[]]]; auto.
  - exfalso. apply (@old_submission_not_new r W Hr). rewrite <- Hid. reflexivity.
  - exfalso. rewrite Forall_forall in HF. specialize (HF r Hr).
    pose proof (wf_assignment_seq W a Ha). lia.
Qed.

Lemma teacher_create_assignment_derived :
  db_wf d -> derived_status d -> derived_status d'.
Proof.
  intros W D.
  destruct teacher_create_assignment_shape
    as [->|(tid & lang & lid & c & news & seq' & posts & ns & _ & _ & _
            & -> & HF & _)]; [exact D|].
  intros r a Hr Ha Hid. simpl in Hr, Ha.
  change (has_progress _ ?u ?l ?i) with (has_progress d u l i).
  destruct (@created_assignment_cases r a lang lid news W) as [[Hr' Ha']|[Hr' ->]];
    auto.
  - eapply Forall_impl; [|exact HF]. simpl. tauto.
  - rewrite Forall_forall in HF. destruct (HF r Hr') as (_ & _ & Hc).
    simpl. eapply created_from_status; eauto.
Qed.

Lemma teacher_create_assignment_score :
  db_wf d -> score_consistent d -> score_consistent d'.
Proof.
  intros W D.
  destruct teacher_create_assignment_shape
    as [->|(tid & lang & lid & c & news & seq' & posts & ns & _ & _ & _
            & -> & HF & _)]; [exact D|].
  intros r a p Hr Ha Hid Hp Hk Hst. simpl in Hr, Ha, Hp.
  destruct (@created_assignment_cases r a lang lid news W) as [[Hr' Ha']|[Hr' ->]];
    auto.
  - eapply Forall_impl; [|exact HF]. simpl. tauto.
  - eapply D; eauto.
  - rewrite Forall_forall in HF. destruct (HF r Hr') as (_ & _ & Hc).
    simpl in Hk. eapply created_from_score; eauto. apply W.
Qed.

Lemma teacher_create_assignment_coverage : coverage d -> coverage d'.
Proof.
  intros C.
  destruct teacher_create_assignment_shape
    as [->|(tid & lang & lid & c & news & seq' & posts & ns & _ & _ & _
            & -> & _ & _ & _ & Hcov)]; [exact C|].
  intros a cs Ha Hcs Hcid. simpl in *.
  apply in_app_or in Ha. destruct Ha as [Ha|[<-|[]]].
  - apply existsb_app_old. now apply C.
  - apply Hcov. apply students_of_in. exists cs. simpl in Hcid. auto.
Qed.
End CreatePreserves.

Section QuizPreserves.
Variable data : list language.
Variable now : clock.
Variable today : Z.
Variable s : session.
Variable lang : string.
Variable lid : Z.
Variable form : answers.
Variable d : db.

Local Abbreviation res := (grade_quiz data now today s lang lid form d).

(** The three outcomes: nothing written; the progress row written and an
    exception before any submission is touched; the progress row written and
    the pending submissions of the student for the lesson completed. *)
Lemma grade_quiz_shape :
  fst res = d
  \/ exists uid score xp,
       sess_user_id s = Some uid
       /\ passing_score <= score
       /\ existing_progress (progress d) uid lang lid = None
       /\ let p := progress_row_of now uid lid lang score xp in
          (exists e, res = (with_progress d (progress d ++ [p]), raised e))
          \/ exists us,
               fst res
               = with_submissions
                   (with_users (with_progress d (progress d ++ [p])) us)
                   (map (complete_row now score
                           (pending_submissions d uid lid lang) 1)
                        (assignment_submissions d),
                    seq_submissions d).
Proof.
  destruct (grade_quiz_effect data now today s lang lid form d)
    as [[H _]|(uid & lesson & score & xp & Hs & _ & _ & Hp & Hn
               & [(e & He & _)|(us & _ & _ & _ & He)])]; [now left| |];
    right; exists uid, score, xp; repeat (split; [assumption|]);
    [left | right]; eauto.
Qed.

Lemma progress_keys_extended (uid score xp : Z) :
  NoDup (map p_key (progress d)) ->
  existing_progress (progress d) uid lang lid = None ->
  NoDup (map p_key (progress d ++ [progress_row_of now uid lid lang score xp])).
Proof.
  intros Hnd Hnone. rewrite map_app. simpl.
  apply NoDup_app; [exact Hnd | repeat constructor; simpl; tauto |].
  intros x Hx [<-|[]]. apply in_map_iff in Hx. destruct Hx as (p & Hk & Hp).
  eapply existing_progress_none; eauto.
Qed.

Lemma completed_rows_ids (score : Z) (ids : list Z) (k : nat)
    (rows : list submission) :
  map s_id (map (complete_row now score ids k) rows) = map s_id rows
  /\ map sub_key (map (complete_row now score ids k) rows) = map sub_key rows.
Proof.
  rewrite !map_map. split; apply map_ext; intros r;
    destruct (complete_row_identity now score ids k r) as (H1 & H2 & H3 & _).
  - exact H1.
  - unfold sub_key. now rewrite H2, H3.
Qed.

Lemma grade_quiz_wf : db_wf d -> db_wf (fst res).
Proof.
  intros W.
  destruct grade_quiz_shape
    as [->|(uid & score & xp & _ & _ & Hnone & [[e ->]|[us ->]])];
    [exact W| |]; destruct W as [[W1a W1b] W2 W3 W4 W5 W6].
  - constructor; simpl; auto; [now split|].
    now apply progress_keys_extended.
  - destruct (completed_rows_ids score (pending_submissions d uid lid lang) 1
                (assignment_submissions d)) as [Hi Hk].
    constructor; simpl; auto.
    + split; simpl; [now rewrite Hi|].
      intros r Hr. apply in_map_iff in Hr. destruct Hr as (r0 & <- & Hr0).
      destruct (complete_row_identity now score
                  (pending_submissions d uid lid lang) 1 r0) as (-> & _).
      now apply W1b.
    + now rewrite Hk.
    + now apply progress_keys_extended.
    + intros r Hr. apply in_map_iff in Hr. destruct Hr as (r0 & <- & Hr0).
      destruct (complete_row_identity now score
                  (pending_submissions d uid lid lang) 1 r0)
        as (_ & -> & -> & _).
      now apply W6.
Qed.

Lemma grade_quiz_coverage : coverage d -> coverage (fst res).
Proof.
  intros C.
  destruct grade_quiz_shape
    as [->|(uid & score & xp & _ & _ & Hnone & [[e ->]|[us ->]])];
    [exact C | exact C |].
  intros a cs Ha Hcs Hcid. simpl in *.
  specialize (C a cs Ha Hcs Hcid).
  apply key_exists_iff in C. apply key_exists_iff.
  destruct (completed_rows_ids score (pending_submissions d uid lid lang) 1
              (assignment_submissions d)) as [_ Hk].
  now rewrite Hk.
Qed.

(** A row of the student for the lesson is selected unless completed. *)
Lemma pending_selected (W : db_wf d) (uid : Z) (r : submission) (a : assignment) :
  In r (assignment_submissions d) -> In a (assignments d) ->
  a_id a = s_assignment_id r ->
  s_student_id r = uid -> a_lesson_lang a = lang -> a_lesson_id a = lid ->
  s_status r <> completed ->
  In (s_id r) (pending_submissions d uid lid lang).
Proof.
  intros Hr Ha Hid Hu Hl Hi Hst.
  destruct (wf_sub_refs W r Hr) as (a0 & cs & Ha0 & Hid0 & Hcs & Hc & _).
  assert (a0 = a)
    by (apply (@NoDup_map_inj _ _ a_id (assignments d));
        [apply W | | | congruence]; auto).
  subst a0. apply pending_submissions_in. exists r, a, cs. tauto.
Qed.

Lemma pending_row (W : db_wf d) (uid : Z) (r : submission) (a : assignment) :
  In r (assignment_submissions d) -> In a (assignments d) ->
  a_id a = s_assignment_id r ->
  In (s_id r) (pending_submissions d uid lid lang) ->
  s_student_id r = uid /\ a_lesson_lang a = lang /\ a_lesson_id a = lid
  /\ s_status r <> completed.
Proof.
  intros Hr Ha Hid Hp. apply pending_submissions_in in Hp.
  destruct Hp as (s0 & a0 & cs & Hs0 & Ha0 & _ & Hid0 & Haid & _ & Hu & Hl & Hi
                  & Hst).
  assert (s0 = r)
    by (apply (@NoDup_map_inj _ _ s_id (assignment_submissions d));
        [apply W | | |]; auto).
  subst s0.
  assert (a0 = a)
    by (apply (@NoDup_map_inj _ _ a_id (assignments d));
        [apply W | | | congruence]; auto).
  subst a0. tauto.
Qed.
End QuizPreserves.

Lemma has_progress_extended (d : db) (rows : list progress_row)
    (p : progress_row) (uid : Z) (lang : string) (lid : Z) :
  progress d = rows ->
  forall d', progress d' = rows ++ [p] ->
  (has_progress d' uid lang lid
   <-> has_progress d uid lang lid \/ p_key p = (uid, lang, lid)).
Proof.
  intros Hd d' Hd'. rewrite !has_progress_key, Hd, Hd'. split.
  - intros (q & Hq & Hk). apply in_app_or in Hq.
    destruct Hq as [Hq|[<-|[]]]; eauto.
  - intros [(q & Hq & Hk)|Hk].
    + exists q. split; [apply in_or_app; now left | exact Hk].
    + exists p. split; [apply in_or_app; right; now left | exact Hk].
Qed.

Section QuizStatus.
Variable data : list language.
Variable now : clock.
Variable today : Z.
Variable s : session.
Variable lang : string.
Variable lid : Z.
Variable form : answers.
Variable d : db.
Hypothesis W : db_wf d.
Hypothesis D : derived_status d.

Local Abbreviation res := (grade_quiz data now today s lang lid form d).

Lemma grade_quiz_derived : completes (snd res) -> derived_status (fst res).
Proof.
  intros Hok.
  destruct (grade_quiz_shape data now today s lang lid form d)
    as [->|(uid & score & xp & _ & _ & Hnone & [[e He]|[us ->]])];
    [exact D | rewrite He in Hok; exfalso; now apply (Hok e) |].
  intros r' a Hr' Ha Hid. simpl in Hr', Ha.
  apply in_map_iff in Hr'. destruct Hr' as (r & <- & Hr).
  set (ids := pending_submissions d uid lid lang) in *.
  pose proof (complete_row_identity now score ids 1 r) as (_ & Ha_id & Hst_id & _).
  rewrite Ha_id in Hid. rewrite Hst_id.
  rewrite (@has_progress_extended d (progress d)
             (progress_row_of now uid lid lang score xp)) by reflexivity.
  unfold p_key. simpl.
  destruct (complete_row_spec now score ids 1 r) as [[Hn ->]|[Hp [j ->]]].
  - rewrite (D r a Hr Ha Hid). split; [now left|].
    intros [H|H]; [exact H|].
    inversion H. apply D; auto.
    destruct (s_status r) eqn:Est; [|reflexivity].
    exfalso. apply Hn. eapply pending_selected; eauto. congruence.
  - simpl. split; [|reflexivity]. intros _. right.
    destruct (@pending_row lang lid d W uid r a) as (-> & -> & -> & _); auto.
Qed.

Lemma grade_quiz_score :
  score_consistent d -> completes (snd res) -> score_consistent (fst res).
Proof.
  intros SC Hok.
  destruct (grade_quiz_shape data now today s lang lid form d)
    as [->|(uid & score & xp & _ & _ & Hnone & [[e He]|[us ->]])];
    [exact SC | rewrite He in Hok; exfalso; now apply (Hok e) |].
  intros r' a p Hr' Ha Hid Hp Hk Hst. simpl in Hr', Ha, Hp.
  apply in_map_iff in Hr'. destruct Hr' as (r & <- & Hr).
  set (ids := pending_submissions d uid lid lang) in *.
  pose proof (complete_row_identity now score ids 1 r) as (_ & Ha_id & Hst_id & _).
  rewrite Ha_id in Hid. rewrite Hst_id in Hk.
  destruct (complete_row_spec now score ids 1 r) as [[Hn He]|[Hpend [j He]]];
    rewrite He in *.
  - apply in_app_or in Hp. destruct Hp as [Hp|[<-|[]]]; [eapply SC; eauto|].
    exfalso. apply (D r a Hr Ha Hid) in Hst.
    apply has_progress_key in Hst. destruct Hst as (p0 & Hp0 & Hk0).
    apply (@existing_progress_none _ _ _ _ _ Hnone Hp0).
    rewrite Hk0, <- Hk. reflexivity.
  - simpl.
    destruct (@pending_row lang lid d W uid r a) as (Hu & Hl & Hi & _); auto.
    apply in_app_or in Hp. destruct Hp as [Hp|[<-|[]]]; [|reflexivity].
    exfalso. apply (@existing_progress_none _ _ _ _ _ Hnone Hp).
    rewrite Hk. congruence.
Qed.
End QuizStatus.

Lemma teacher_grade_submission_effect (now : clock) (s : session)
    (referrer : option string) (sid : Z) (grade : option string) (d : db) :
  let d' := fst (teacher_grade_submission now s referrer sid grade d) in
  d' = d
  \/ exists v ns posts,
       d' = with_stream_posts
              (with_notifications
                 (with_submissions d
                    (map (fun r => if s_id r =? sid then set_grade v r else r)
                         (assignment_submissions d),
                     seq_submissions d)) ns) posts.
Proof.
  cbv zeta. unfold teacher_grade_submission.
  destruct (require_login s); [now left|].
  destruct (require_role s "Teacher"); [now left|].
  destruct (sess_user_id s) as [tid|]; [|now left].
  destruct (int_of_field grade) as [v|]; [|now left].
  destruct ((v <? 0) || (10 <? v)); [now left|].
  destruct (graded_submission d sid) as [[sub a]|]; [|now left].
  right. eexists v, _, _. reflexivity.
Qed.

Lemma set_grade_columns (v sid : Z) (r : submission) :
  let r' := if s_id r =? sid then set_grade v r else r in
  s_id r' = s_id r /\ sub_key r' = sub_key r /\ s_status r' = s_status r
  /\ s_score r' = s_score r.
Proof. cbv zeta. destruct (s_id r =? sid); auto. Qed.

Lemma teacher_grade_submission_wf (now : clock) (s : session)
    (referrer : option string) (sid : Z) (grade : option string) (d : db) :
  db_wf d -> db_wf (fst (teacher_grade_submission now s referrer sid grade d)).
Proof.
  intros W.
  destruct (teacher_grade_submission_effect now s referrer sid grade d)
    as [->|(v & ns & posts & ->)]; [exact W|].
  destruct W as [[W1a W1b] W2 W3 W4 W5 W6].
  assert (Hi : map s_id (map (fun r => if s_id r =? sid then set_grade v r else r)
                           (assignment_submissions d))
               = map s_id (assignment_submissions d))
    by (rewrite map_map; apply map_ext; intros r; apply set_grade_columns).
  assert (Hk : map sub_key
                 (map (fun r => if s_id r =? sid then set_grade v r else r)
                    (assignment_submissions d))
               = map sub_key (assignment_submissions d))
    by (rewrite map_map; apply map_ext; intros r; apply set_grade_columns).
  constructor; simpl; auto.
  - split; simpl; [now rewrite Hi|].
    intros r Hr. apply in_map_iff in Hr. destruct Hr as (r0 & <- & Hr0).
    destruct (set_grade_columns v sid r0) as (-> & _). now apply W1b.
  - now rewrite Hk.
  - intros r Hr. apply in_map_iff in Hr. destruct Hr as (r0 & <- & Hr0).
    destruct (W6 r0 Hr0) as (a & cs & Ha & Hid & Hcs & H1 & H2).
    exists a, cs. destruct (s_id r0 =? sid); simpl; auto 6.
Qed.

Lemma teacher_grade_submission_derived (now : clock) (s : session)
    (referrer : option string) (sid : Z) (grade : option string) (d : db) :
  derived_status d ->
  derived_status (fst (teacher_grade_submission now s referrer sid grade d)).
Proof.
  intros D.
  destruct (teacher_grade_submission_effect now s referrer sid grade d)
    as [->|(v & ns & posts & ->)]; [exact D|].
  intros r a Hr Ha Hid. simpl in Hr, Ha.
  change (has_progress _ ?u ?l ?i) with (has_progress d u l i).
  apply in_map_iff in Hr. destruct Hr as (r0 & <- & Hr0).
  specialize (D r0 a Hr0 Ha).
  destruct (s_id r0 =? sid); simpl in *; auto.
Qed.

(** C2. On a database that meets the constraints of the schema and where
    every submission row has status = completed iff a ProgressRecord exists
    for (its student, the lesson and language of its assignment), each of the
    five write paths that runs to completion leaves a database with the same
    two properties. *)
Theorem derived_status_invariant (now : clock) (s : session) (req : request)
    (d : db) :
  write_path req ->
  db_wf d ->
  derived_status d ->
  completes (snd (handle now s req d)) ->
  derived_status (fst (handle now s req d)) /\ db_wf (fst (handle now s req d)).
Proof.
  intros Hreq W D Hok. destruct req; simpl in Hreq; try contradiction.
  - simpl handle in *. split.
    + now apply grade_quiz_derived.
    + now apply grade_quiz_wf.
  - destruct (@join_routes now s (StudentClassroomPost code) d I)
      as [->|(uid & c & _ & ->)]; [now split|].
    split; [now apply join_with_code_derived | now apply join_with_code_wf].
  - destruct (@join_routes now s (JoinClassByCode code) d I)
      as [->|(uid & c & _ & ->)]; [now split|].
    split; [now apply join_with_code_derived | now apply join_with_code_wf].
  - simpl handle. split.
    + now apply teacher_create_assignment_derived.
    + now apply teacher_create_assignment_wf.
  - simpl handle. split.
    + now apply teacher_grade_submission_derived.
    + now apply teacher_grade_submission_wf.
Qed.

Lemma demo_assigned_wf : db_wf demo_assigned.
Proof.
  constructor.
  - split; vm_compute.
    + repeat constructor; simpl; intuition discriminate.
    + intros s [<-|[<-|[]]]; discriminate.
  - vm_compute. repeat constructor; simpl; intuition discriminate.
  - vm_compute. repeat constructor; simpl; intuition discriminate.
  - vm_compute. intros a [<-|[]]. discriminate.
  - vm_compute. constructor.
  - intros s Hs.
    assert (Ha : In (assignment_row_of demo_clock demo_both 1 3 "python" None "")
                   (assignments demo_assigned)) by (vm_compute; auto).
    assert (Hm : forall st, st = 2 \/ st = 3 ->
              exists cs, In cs (classroom_students demo_assigned)
                         /\ cs_classroom_id cs = 1 /\ cs_student_id cs = st).
    { intros st [ -> | -> ].
      - exists {| cs_classroom_id := 1; cs_student_id := 2; cs_joined_at := 1000 |}.
        split; [vm_compute; auto | split; reflexivity].
      - exists {| cs_classroom_id := 1; cs_student_id := 3; cs_joined_at := 1000 |}.
        split; [vm_compute; auto | split; reflexivity]. }
    vm_compute in Hs. destruct Hs as [<-|[<-|[]]].
    + destruct (Hm 2 (or_introl eq_refl)) as (cs & Hcs & H1 & H2).
      eexists _, cs. split; [exact Ha|]. repeat split; auto.
    + destruct (Hm 3 (or_intror eq_refl)) as (cs & Hcs & H1 & H2).
      eexists _, cs. split; [exact Ha|]. repeat split; auto.
Qed.

Lemma demo_assigned_derived : derived_status demo_assigned.
Proof.
  intros s a Hs Ha Hid.
  assert (Hno : forall u l i, ~ has_progress demo_assigned u l i).
  { intros u l i (p & Hp & _). vm_compute in Hp. contradiction. }
  split; [|intros H; now apply Hno in H].
  vm_compute in Hs. destruct Hs as [<-|[<-|[]]]; discriminate.
Qed.

Lemma derived_status_invariant_witness :
  derived_status
    (fst (handle demo_clock_later demo_student
            (GradeQuiz demo_lessons 10 "python" 3 demo_answers) demo_assigned))
  /\ db_wf
       (fst (handle demo_clock_later demo_student
               (GradeQuiz demo_lessons 10 "python" 3 demo_answers) demo_assigned)).
Proof.
  apply (@derived_status_invariant demo_clock_later demo_student
           (GradeQuiz demo_lessons 10 "python" 3 demo_answers) demo_assigned).
  - exact I.
  - exact demo_assigned_wf.
  - exact demo_assigned_derived.
  - intros e. vm_compute. discriminate.
Defined.

(** ** Order-independence of reconciliation *)


(** ** Order-independence of reconciliation *)

Section Scenario.
Variable sc : scenario.
Variable d0 : db.
Variable student_id score aid : Z.
Hypothesis WP : well_posed sc d0 student_id score.

Local Abbreviation at_stage := (stage sc d0).

Lemma find_owned_classroom_frame (d : db) (cid tid : Z) :
  classrooms d = classrooms d0 ->
  find_owned_classroom d cid tid = find_owned_classroom d0 cid tid.
Proof. unfold find_owned_classroom. now intros ->. Qed.

Lemma teacher_creates_step (d : db) (joined passed : bool) :
  at_stage d student_id score aid false joined passed ->
  at_stage (run_event sc d TeacherCreates) student_id score aid true joined
    passed.
Proof.
  intros [[W D S C] Hcl Hacc Hcr Hj Hp].
  destruct (wp_teacher WP) as (tid & c & Hs & Hr & Hc).
  rewrite <- (@find_owned_classroom_frame d (sc_classroom_id sc) tid Hcl) in Hc.
  pose proof (wp_lesson_key WP) as Hk.
  unfold run_event. simpl event_session. simpl event_request. simpl handle.
  set (now := sc_clock sc TeacherCreates).
  pose proof (@teacher_create_assignment_wf now (sc_teacher sc)
                (sc_classroom_id sc) (sc_lesson_key sc) (sc_due_date sc)
                (sc_comment sc) d W) as W'.
  pose proof (@teacher_create_assignment_derived now (sc_teacher sc)
                (sc_classroom_id sc) (sc_lesson_key sc) (sc_due_date sc)
                (sc_comment sc) d W D) as D'.
  pose proof (@teacher_create_assignment_score now (sc_teacher sc)
                (sc_classroom_id sc) (sc_lesson_key sc) (sc_due_date sc)
                (sc_comment sc) d W S) as S'.
  pose proof (@teacher_create_assignment_coverage now (sc_teacher sc)
                (sc_classroom_id sc) (sc_lesson_key sc) (sc_due_date sc)
                (sc_comment sc) d C) as C'.
  destruct (teacher_create_assignment_effect now (sc_teacher sc)
              (sc_classroom_id sc) (sc_lesson_key sc) (sc_due_date sc)
              (sc_comment sc) d)
    as [[_ F]|(tid' & lang & lid & c' & t & k & posts & ns & _ & Hk' & _ & _
               & E)];
    [exfalso; eapply F; eauto|].
  rewrite Hk in Hk'. inversion Hk'; subst lang lid.
  rewrite E in *. simpl fst in *.
  constructor; [now constructor | exact Hcl | exact Hacc | | exact Hj | exact Hp].
  eexists. split; [simpl; apply in_or_app; right; now left|].
  simpl. auto.
Qed.

Lemma student_joins_step (d : db) (created joined passed : bool) :
  at_stage d student_id score aid created joined passed ->
  at_stage (run_event sc d StudentJoins) student_id score aid created true
    passed.
Proof.
  intros [[W D S C] Hcl Hacc Hcr Hj Hp].
  destruct (wp_student WP) as [Hs Hr].
  destruct (wp_code WP) as (c & Hc & Hcid).
  rewrite <- (@find_classroom_by_code_frame d0 d) in Hc by exact Hcl.
  unfold run_event. simpl event_session. simpl event_request. simpl handle.
  set (now := sc_clock sc StudentJoins).
  unfold join_class_by_code. rewrite Hs, Hr. cbn [negb].
  pose proof (@join_with_code_wf now student_id (upper (sc_code sc)) d W) as W'.
  pose proof (@join_with_code_derived now student_id (upper (sc_code sc)) d W D)
    as D'.
  pose proof (@join_with_code_score now student_id (upper (sc_code sc)) d W S)
    as S'.
  pose proof (@join_with_code_coverage now student_id (upper (sc_code sc)) d C)
    as C'.
  destruct (join_with_code_effect now student_id (upper (sc_code sc)) d)
    as [[_ F]|(c' & t & k & Hc' & _ & E)]; [congruence|].
  rewrite Hc in Hc'. inversion Hc'; subst c'.
  rewrite E in *.
  constructor; [now constructor | exact Hcl | exact Hacc | exact Hcr | | exact Hp].
  simpl. rewrite <- Hcid. apply insert_or_ignore_member_new.
Qed.

Lemma student_passes_step (d : db) (created joined : bool) :
  at_stage d student_id score aid created joined false ->
  at_stage (run_event sc d StudentPasses) student_id score aid created joined
    true.
Proof.
  intros [[W D S C] Hcl Hacc Hcr Hj Hp].
  destruct (wp_student WP) as [Hs Hr].
  destruct (wp_quiz WP) as (lesson & Hl & Hq & Hpass).
  unfold run_event. simpl event_session. simpl event_request. simpl handle.
  set (now := sc_clock sc StudentPasses).
  pose proof (@grade_quiz_wf (sc_lessons sc) now (sc_today sc) (sc_student sc)
                (sc_lang sc) (sc_lesson_id sc) (sc_form sc) d W) as W'.
  pose proof (@grade_quiz_derived (sc_lessons sc) now (sc_today sc)
                (sc_student sc) (sc_lang sc) (sc_lesson_id sc) (sc_form sc) d
                W D) as D'.
  pose proof (@grade_quiz_score (sc_lessons sc) now (sc_today sc)
                (sc_student sc) (sc_lang sc) (sc_lesson_id sc) (sc_form sc) d
                W D S) as S'.
  pose proof (@grade_quiz_coverage (sc_lessons sc) now (sc_today sc)
                (sc_student sc) (sc_lang sc) (sc_lesson_id sc) (sc_form sc) d
                C) as C'.
  destruct (grade_quiz_effect (sc_lessons sc) now (sc_today sc) (sc_student sc)
              (sc_lang sc) (sc_lesson_id sc) (sc_form sc) d)
    as [[_ F]|(uid & lesson' & score' & xp & Hs' & Hl' & Hq' & _ & _
               & [(e & _ & Hnone)|(us & _ & Hu & Hok & E)])].
  - exfalso. eapply F; eauto.
  - exfalso. rewrite Hs in Hs'. inversion Hs'; subst uid.
    destruct Hacc as [u Hu]. congruence.
  - rewrite Hs in Hs'. inversion Hs'; subst uid.
    rewrite Hl in Hl'. inversion Hl'; subst lesson'.
    rewrite Hq in Hq'. inversion Hq'; subst score'.
    specialize (D' Hok). specialize (S' Hok).
    rewrite E in *.
    constructor; [now constructor | exact Hcl | | exact Hcr | exact Hj |].
    + destruct Hacc as [u Hu0].
      destruct (find_user (with_users
                  (with_progress d
                     (progress d
                        ++ [progress_row_of now student_id (sc_lesson_id sc)
                              (sc_lang sc) score xp])) us) student_id)
        as [u'|] eqn:Hu'.
      * exists u'. exact Hu'.
      * exfalso. apply Hu; congruence.
    + exists (progress_row_of now student_id (sc_lesson_id sc) (sc_lang sc)
                score xp).
      split; [simpl; apply in_or_app; right; now left|].
      split; reflexivity.
Qed.
End Scenario.

Lemma event_eqb_eq (a b : event) : event_eqb a b = true <-> a = b.
Proof. destruct a, b; simpl; split; congruence. Qed.

Lemma happened_in (e : event) (order : list event) :
  happened e order = true <-> In e order.
Proof.
  unfold happened. rewrite existsb_exists. split.
  - intros (x & Hx & E). apply event_eqb_eq in E. now subst.
  - intros H. exists e. split; [exact H | now apply event_eqb_eq].
Qed.

Lemma run_events_stage (sc : scenario) (d0 : db) (student_id score aid : Z) :
  well_posed sc d0 student_id score ->
  forall order d created joined passed,
    NoDup order ->
    (created = true -> ~ In TeacherCreates order) ->
    (passed = true -> ~ In StudentPasses order) ->
    stage sc d0 d student_id score aid created joined passed ->
    stage sc d0 (run_events sc order d) student_id score aid
      (created || happened TeacherCreates order)
      (joined || happened StudentJoins order)
      (passed || happened StudentPasses order).
Proof.
  intros WP order.
  induction order as [|e order IH]; intros d c j p Hnd Hc Hp St.
  - simpl. now rewrite !orb_false_r.
  - inversion Hnd as [|? ? He Hnd']; subst.
    unfold run_events. cbn [fold_left]. fold (run_events sc order (run_event sc d e)).
    destruct e; cbn [happened existsb event_eqb orb].
    + destruct c; [exfalso; apply Hc; [reflexivity | now left]|].
      apply (@teacher_creates_step sc d0 student_id score aid WP) in St.
      specialize (IH _ true j p Hnd' (fun _ => He)
                    (fun H F => Hp H (or_intror F)) St).
      cbn [orb] in IH. rewrite !orb_true_r. fold (happened StudentJoins order).
      fold (happened StudentPasses order). exact IH.
    + apply (@student_joins_step sc d0 student_id score aid WP) in St.
      specialize (IH _ c true p Hnd' (fun H F => Hc H (or_intror F))
                    (fun H F => Hp H (or_intror F)) St).
      cbn [orb] in IH. rewrite !orb_true_r. fold (happened TeacherCreates order).
      fold (happened StudentPasses order). exact IH.
    + destruct p; [exfalso; apply Hp; [reflexivity | now left]|].
      apply (@student_passes_step sc d0 student_id score aid WP) in St.
      specialize (IH _ c j true Hnd' (fun H F => Hc H (or_intror F))
                    (fun _ => He) St).
      cbn [orb] in IH. rewrite !orb_true_r. fold (happened TeacherCreates order).
      fold (happened StudentJoins order). exact IH.
Qed.

Lemma all_happened_submission (sc : scenario) (d0 d : db)
    (student_id score aid : Z) :
  stage sc d0 d student_id score aid true true true ->
  exists row,
    In row (assignment_submissions d)
    /\ sub_key row = (aid, student_id)
    /\ s_status row = completed
    /\ s_score row = Some score
    /\ forall r, In r (assignment_submissions d) ->
         sub_key r = sub_key row -> r = row.
Proof.
  intros [[W D S C] _ _ (a & Ha & Hid & Hcid & Hl & Hi) (cs & Hcs & Hc & Hu)
          (p & Hp & Hk & Hsc)].
  assert (Hex : existsb (sub_key_eqb (a_id a) (cs_student_id cs))
                  (assignment_submissions d) = true)
    by (apply C; auto; congruence).
  apply existsb_exists in Hex. destruct Hex as (row & Hrow & Hkey).
  apply sub_key_eqb_true in Hkey. destruct Hkey as [K1 K2].
  assert (Hprog : has_progress d (s_student_id row) (a_lesson_lang a)
                    (a_lesson_id a)).
  { apply has_progress_key. exists p. split; [exact Hp|]. congruence. }
  assert (Hdone : s_status row = completed) by (apply (D row a); auto).
  exists row. split; [exact Hrow|].
  split; [unfold sub_key; congruence|].
  split; [exact Hdone|]. split.
  - rewrite <- Hsc. apply (S row a p); auto. congruence.
  - intros r Hr Hkr.
    apply (@NoDup_map_inj _ _ sub_key (assignment_submissions d)); auto.
    apply W.
Qed.


Lemma demo_db_consistent : consistent demo_db.
Proof.
  constructor.
  - constructor.
    + split; [constructor | intros s []].
    + constructor.
    + constructor.
    + intros a [].
    + constructor.
    + intros s [].
  - intros s a [].
  - intros s a p [].
  - intros a cs [].
Qed.

Lemma demo_scenario_well_posed : well_posed demo_scenario demo_db 2 75.
Proof.
  constructor.
  - exists 1, {| c_id := 1; c_teacher_id := 1; c_name := "Room";
                 c_code := "AB12CD" |}.
    repeat split; reflexivity.
  - split; reflexivity.
  - eexists. reflexivity.
  - eexists. split; reflexivity.
  - reflexivity.
  - eexists. split; [reflexivity|]. split; [vm_compute; reflexivity|].
    unfold passing_score. lia.
  - reflexivity.
Qed.


(** * Further properties of the handlers *)

(** ** Guards *)

(** X1. A request without a logged-in user, or whose session does not carry
    the role its route asks for, writes nothing. *)
Theorem unauthorized_writes_nothing (now : clock) (s : session) (req : request)
    (d : db) :
  sess_user_id s = None \/ role_is s (required_role req) = false ->
  fst (handle now s req d) = d.
Proof.
  intros H. destruct req; simpl;
    unfold grade_quiz, student_classroom_post, student_classroom_get,
      join_class_by_code, teacher_create_assignment, teacher_grade_submission,
      require_login, require_role;
    simpl in H;
    destruct (sess_user_id s) as [uid|]; try reflexivity;
    destruct H as [H|H]; try discriminate; rewrite H; reflexivity.
Qed.

Lemma unauthorized_writes_nothing_witness :
  fst (handle demo_clock demo_student
         (TeacherGradeSubmission None 1 (Some "10")) demo_graded) = demo_graded.
Proof.
  apply (@unauthorized_writes_nothing demo_clock demo_student
           (TeacherGradeSubmission None 1 (Some "10")) demo_graded).
  right. reflexivity.
Defined.

(** ** Progress Ledger *)

Lemma get_student_progress_in (d : db) (uid : Z) (lang : string) (lid : Z) :
  In lid (get_student_progress d uid lang) <-> has_progress d uid lang lid.
Proof.
  unfold get_student_progress, has_progress. rewrite in_map_iff. split.
  - intros (p & Hl & Hp). apply filter_In in Hp. destruct Hp as [Hp E].
    rewrite andb_true_iff, Z.eqb_eq, String.eqb_eq in E. exists p. tauto.
  - intros (p & Hp & H1 & H2 & H3). exists p. split; [exact H3|].
    apply filter_In. split; [exact Hp|].
    rewrite andb_true_iff, Z.eqb_eq, String.eqb_eq. auto.
Qed.

(** X3. A quiz attempt below the passing score of 70, or on a lesson the
    student has already passed, writes nothing: no progress row, no streak
    update, no submission change; the page shows the score. *)
Theorem quiz_without_pass_writes_nothing (data : list language) (now : clock)
    (today : Z) (s : session) (lang : string) (lid : Z) (form : answers)
    (d : db) (uid : Z) (lesson : lesson) (score : Z) :
  sess_user_id s = Some uid ->
  role_is s "Student" = true ->
  get_lesson data lang lid = Some lesson ->
  quiz_score (count_correct form 0%nat (l_quiz lesson))
    (Z.of_nat (List.length (l_quiz lesson))) = inl score ->
  score < passing_score \/ has_progress d uid lang lid ->
  grade_quiz data now today s lang lid form d
  = (d, render_quiz {| qr_score := score;
                       qr_passed := passing_score <=? score;
                       qr_passing_score := passing_score;
                       qr_assignment_completed := false |}).
Proof.
  intros Hs Hr Hl Hq H. unfold grade_quiz. pass_guards Hs Hr.
  rewrite Hl, Hq.
  destruct H as [H|H].
  - replace (passing_score <=? score) with false
      by (symmetry; apply Z.leb_gt; exact H).
    reflexivity.
  - apply get_student_progress_in in H. apply existsb_eqb_in in H.
    rewrite H. now rewrite andb_false_r.
Qed.

Lemma quiz_without_pass_writes_nothing_witness :
  fst (grade_quiz demo_lessons demo_clock_later 11 demo_student "python" 3
         demo_answers demo_passed) = demo_passed.
Proof.
  rewrite (@quiz_without_pass_writes_nothing demo_lessons demo_clock_later 11
             demo_student "python" 3 demo_answers demo_passed 2
             {| l_id := 3;
                l_quiz := [demo_question "a"; demo_question "b";
                           demo_question "a"; demo_question "a"];
                l_xp := Some 50 |} 75 eq_refl eq_refl eq_refl).
  - reflexivity.
  - vm_compute. reflexivity.
  - right. exists (progress_row_of demo_clock 2 3 "python" 75 50).
    split; [vm_compute; auto | repeat split].
Defined.

Lemma grade_quiz_progress (data : list language) (now : clock) (today : Z)
    (s : session) (lang : string) (lid : Z) (form : answers) (d : db)
    (uid : Z) (lesson : lesson) (score : Z) :
  sess_user_id s = Some uid ->
  role_is s "Student" = true ->
  get_lesson data lang lid = Some lesson ->
  quiz_score (count_correct form 0%nat (l_quiz lesson))
    (Z.of_nat (List.length (l_quiz lesson))) = inl score ->
  passing_score <= score ->
  ~ has_progress d uid lang lid ->
  progress (fst (grade_quiz data now today s lang lid form d))
  = progress d ++ [progress_row_of now uid lid lang score (lesson_xp lesson)].
Proof.
  intros Hs Hr Hl Hq Hp Hn. unfold grade_quiz. pass_guards Hs Hr.
  rewrite Hl, Hq.
  replace (passing_score <=? score) with true
    by (symmetry; apply Z.leb_le; exact Hp).
  destruct (existsb (Z.eqb lid) (get_student_progress d uid lang)) eqn:Hdone.
  { exfalso. apply Hn. apply get_student_progress_in.
    now apply existsb_eqb_in. }
  cbn [andb negb]. rewrite insert_progress_fresh by exact Hdone.
  fold (lesson_xp lesson). fold (progress_row_of now uid lid lang score
                                   (lesson_xp lesson)).
  destruct (update_streak today uid _) as [d2|e] eqn:Hu; [|reflexivity].
  apply update_streak_tables in Hu. destruct Hu as [us ->].
  match goal with
  | |- context [_complete_assignment_if_any ?n ?k ?u0 ?l ?i ?sc ?d2] =>
      pose proof (complete_assignment_rows n k u0 l i sc d2) as H;
      destruct (_complete_assignment_if_any n k u0 l i sc d2) as [[d3 k3] upd]
  end.
  simpl in H. subst d3. reflexivity.
Qed.

Lemma get_total_xp_app (d : db) (rows news : list progress_row) (v : Z) :
  fold_right Z.add 0
    (map p_xp (filter (fun p => p_student_id p =? v) (rows ++ news)))
  = fold_right Z.add 0 (map p_xp (filter (fun p => p_student_id p =? v) rows))
    + fold_right Z.add 0 (map p_xp (filter (fun p => p_student_id p =? v) news)).
Proof.
  rewrite filter_app, map_app, fold_right_app.
  generalize (map p_xp (filter (fun p => p_student_id p =? v) news)).
  intros l. induction (map p_xp (filter _ rows)) as [|x xs IH]; simpl; lia.
Qed.

(** X4. A passing attempt on a lesson not yet passed credits the experience
    points of the lesson (100 when the lesson names none) to the student and
    to nobody else, the points stored and the new total being non-negative
    and within the INTEGER range, where the INSERT succeeds and SUM does not
    overflow. *)
Theorem passing_credits_xp (data : list language) (now : clock) (today : Z)
    (s : session) (lang : string) (lid : Z) (form : answers) (d : db)
    (uid : Z) (lesson : lesson) (score : Z) (v : Z) :
  sess_user_id s = Some uid ->
  role_is s "Student" = true ->
  get_lesson data lang lid = Some lesson ->
  quiz_score (count_correct form 0%nat (l_quiz lesson))
    (Z.of_nat (List.length (l_quiz lesson))) = inl score ->
  passing_score <= score ->
  ~ has_progress d uid lang lid ->
  int64 lid ->
  Forall (fun p => 0 <= p_xp p) (progress d) ->
  0 <= lesson_xp lesson ->
  get_total_xp d v + lesson_xp lesson < 2 ^ 63 ->
  get_total_xp (fst (grade_quiz data now today s lang lid form d)) v
  = get_total_xp d v + (if v =? uid then lesson_xp lesson else 0).
Proof.
  intros Hs Hr Hl Hq Hp Hn _ _ _ _. unfold get_total_xp.
  rewrite (@grade_quiz_progress data now today s lang lid form d uid lesson score)
    by assumption.
  rewrite (get_total_xp_app d). f_equal. simpl.
  rewrite (Z.eqb_sym uid v). destruct (v =? uid); simpl; lia.
Qed.

Lemma passing_credits_xp_witness :
  get_total_xp demo_passed 2 = 50
  /\ get_total_xp
       (fst (grade_quiz demo_lessons demo_clock_later 11 demo_student "python"
               5 demo_answers demo_passed)) 2 = 50 + 100.
Proof.
  split; [reflexivity|].
  apply (@passing_credits_xp demo_lessons demo_clock_later 11 demo_student
           "python" 5 demo_answers demo_passed 2
           {| l_id := 5; l_quiz := repeat (demo_question "a") 50;
              l_xp := None |} 100 2 eq_refl eq_refl eq_refl).
  - vm_compute. reflexivity.
  - unfold passing_score. lia.
  - intros (p & Hp & _ & _ & E). vm_compute in Hp.
    destruct Hp as [<-|[]]. discriminate.
  - unfold int64. lia.
  - vm_compute. repeat constructor. discriminate.
  - vm_compute. discriminate.
  - vm_compute. reflexivity.
Defined.

Lemma join_with_code_progress (now : clock) (uid : Z) (code : string) (d : db) :
  progress (fst (join_with_code now uid code d)) = progress d.
Proof.
  destruct (join_with_code_effect now uid code d)
    as [[-> _]|(c & t & k & _ & _ & ->)]; reflexivity.
Qed.

(** X5. The progress table is append-only: a request keeps every progress
    row in place and adds at most one, and only for a lesson the student had
    no progress row for, with a score of at least 70. *)
Theorem progress_append_only (now : clock) (s : session) (req : request)
    (d : db) :
  exists news,
    progress (fst (handle now s req d)) = progress d ++ news
    /\ (List.length news <= 1)%nat
    /\ Forall (fun p => passing_score <= p_score p
                        /\ ~ has_progress d (p_student_id p) (p_lesson_lang p)
                               (p_lesson_id p)) news.
Proof.
  assert (Hsame : forall d', progress d' = progress d ->
            exists news, progress d' = progress d ++ news
              /\ (List.length news <= 1)%nat
              /\ Forall (fun p => passing_score <= p_score p
                           /\ ~ has_progress d (p_student_id p)
                                  (p_lesson_lang p) (p_lesson_id p)) news).
  { intros d' H. exists []. rewrite app_nil_r. simpl. auto. }
  destruct req.
  - simpl handle.
    destruct (grade_quiz_effect data now today s lang lesson_id form d)
      as [[-> _]|(uid & lesson & score & xp & _ & _ & _ & Hp & Hn
                  & [(e & -> & _)|(us & _ & _ & _ & ->)])];
      [now apply Hsame | |];
      (exists [progress_row_of now uid lesson_id lang score xp];
       split; [reflexivity|]; split; [simpl; lia|];
       constructor; [|constructor]; split; [exact Hp|];
       intros (p & Hin & H1 & H2 & H3);
       apply (@existing_progress_none _ _ _ _ p Hn Hin);
       unfold p_key; simpl in *; congruence).
  - destruct (@join_routes now s (StudentClassroomPost code) d I)
      as [->|(uid & c & _ & ->)]; [now apply Hsame|].
    apply Hsame, join_with_code_progress.
  - simpl handle.
    destruct (student_classroom_get_effect now s d)
      as [->|(uid & t & k & _ & _ & ->)]; now apply Hsame.
  - destruct (@join_routes now s (JoinClassByCode code) d I)
      as [->|(uid & c & _ & ->)]; [now apply Hsame|].
    apply Hsame, join_with_code_progress.
  - simpl handle.
    destruct (teacher_create_assignment_effect now s classroom_id lesson_key
                due_date comment d)
      as [[-> _]|(tid & lang & lid & c & t & k & posts & ns & _ & _ & _ & _
                  & ->)]; now apply Hsame.
  - simpl handle.
    destruct (teacher_grade_submission_effect now s referrer submission_id
                grade d) as [->|(v & ns & posts & ->)]; now apply Hsame.
Qed.

(** ** The synchronisation invariants on every route *)

Lemma teacher_grade_submission_score (now : clock) (s : session)
    (referrer : option string) (sid : Z) (grade : option string) (d : db) :
  score_consistent d ->
  score_consistent (fst (teacher_grade_submission now s referrer sid grade d)).
Proof.
  intros D.
  destruct (teacher_grade_submission_effect now s referrer sid grade d)
    as [->|(v & ns & posts & ->)]; [exact D|].
  intros r a p Hr Ha Hid Hp Hk Hst. simpl in Hr, Ha, Hp.
  apply in_map_iff in Hr. destruct Hr as (r0 & <- & Hr0).
  specialize (D r0 a p Hr0 Ha).
  destruct (s_id r0 =? sid); simpl in *; auto.
Qed.

Lemma teacher_grade_submission_coverage (now : clock) (s : session)
    (referrer : option string) (sid : Z) (grade : option string) (d : db) :
  coverage d ->
  coverage (fst (teacher_grade_submission now s referrer sid grade d)).
Proof.
  intros C.
  destruct (teacher_grade_submission_effect now s referrer sid grade d)
    as [->|(v & ns & posts & ->)]; [exact C|].
  intros a cs Ha Hcs Hcid. simpl in *.
  specialize (C a cs Ha Hcs Hcid).
  apply key_exists_iff in C. apply key_exists_iff.
  rewrite map_map.
  rewrite (@map_ext _ _ _ sub_key); [exact C|].
  intros r. apply set_grade_columns.
Qed.

(** X6. Each of the five write paths that runs to completion preserves, with
    the constraints of the schema and the derived status, two further
    invariants: every member of the classroom of an assignment has a
    submission row for it, and the score of a completed submission is the
    score of the student's progress row for the lesson. *)
Theorem write_paths_keep_consistency (now : clock) (s : session) (req : request)
    (d : db) :
  write_path req ->
  consistent d ->
  completes (snd (handle now s req d)) ->
  consistent (fst (handle now s req d)).
Proof.
  intros Hreq [W D S C] Hok.
  destruct req; simpl in Hreq; try contradiction.
  - simpl handle in *. constructor.
    + now apply grade_quiz_wf.
    + now apply grade_quiz_derived.
    + now apply grade_quiz_score.
    + now apply grade_quiz_coverage.
  - destruct (@join_routes now s (StudentClassroomPost code) d I)
      as [->|(uid & c & _ & ->)]; [now constructor|].
    constructor;
      [now apply join_with_code_wf | now apply join_with_code_derived
      | now apply join_with_code_score | now apply join_with_code_coverage].
  - destruct (@join_routes now s (JoinClassByCode code) d I)
      as [->|(uid & c & _ & ->)]; [now constructor|].
    constructor;
      [now apply join_with_code_wf | now apply join_with_code_derived
      | now apply join_with_code_score | now apply join_with_code_coverage].
  - simpl handle. constructor.
    + now apply teacher_create_assignment_wf.
    + now apply teacher_create_assignment_derived.
    + now apply teacher_create_assignment_score.
    + now apply teacher_create_assignment_coverage.
  - simpl handle. constructor.
    + now apply teacher_grade_submission_wf.
    + now apply teacher_grade_submission_derived.
    + now apply teacher_grade_submission_score.
    + now apply teacher_grade_submission_coverage.
Qed.

Lemma demo_assigned_consistent : consistent demo_assigned.
Proof.
  constructor.
  - exact demo_assigned_wf.
  - exact demo_assigned_derived.
  - intros r a p _ _ _ Hp. vm_compute in Hp. contradiction.
  - intros a cs Ha Hcs _. vm_compute in Ha. destruct Ha as [<-|[]].
    vm_compute in Hcs. destruct Hcs as [<-|[<-|[]]]; reflexivity.
Qed.

Lemma write_paths_keep_consistency_witness :
  consistent
    (fst (handle demo_clock_later demo_student
            (GradeQuiz demo_lessons 10 "python" 3 demo_answers) demo_assigned)).
Proof.
  apply (@write_paths_keep_consistency demo_clock_later demo_student
           (GradeQuiz demo_lessons 10 "python" 3 demo_answers) demo_assigned).
  - exact I.
  - exact demo_assigned_consistent.
  - intros e. vm_compute. discriminate.
Defined.

Lemma upsert_completed_rows (aid uid at_ sc : Z) (t : sub_table) (r' : submission) :
  In r' (fst (upsert_completed aid uid at_ sc t)) ->
  In r' (fst t)
  \/ (s_assignment_id r' = aid /\ s_student_id r' = uid
      /\ s_status r' = completed /\ s_score r' = Some sc).
Proof.
  unfold upsert_completed. destruct (existsb _ _); simpl.
  - intros H. apply in_map_iff in H. destruct H as (r & <- & Hr).
    destruct (sub_key_eqb aid uid r) eqn:E; [|now left].
    apply sub_key_eqb_true in E. right. simpl. tauto.
  - intros H. apply in_app_or in H. destruct H as [H|[<-|[]]]; [now left|].
    right. simpl. auto.
Qed.

Lemma upsert_completed_ids (aid uid at_ sc : Z) (t : sub_table) :
  sub_ids_ok t -> sub_ids_ok (upsert_completed aid uid at_ sc t).
Proof.
  intros [Hnd Hle]. unfold upsert_completed, sub_ids_ok.
  destruct (existsb _ _); simpl.
  - split.
    + rewrite map_map. rewrite (@map_ext _ _ _ s_id); [exact Hnd|].
      intros r. now destruct (sub_key_eqb aid uid r).
    + intros r' H. apply in_map_iff in H. destruct H as (r & <- & Hr).
      specialize (Hle r Hr). destruct (sub_key_eqb aid uid r); simpl; lia.
  - split.
    + rewrite map_app. simpl.
      apply NoDup_app; [exact Hnd | repeat constructor; simpl; tauto |].
      intros x Hx [<-|[]]. apply in_map_iff in Hx.
      destruct Hx as (r & Hid & Hr). specialize (Hle r Hr). lia.
    + intros r H. apply in_app_or in H. destruct H as [H|[<-|[]]].
      * specialize (Hle r H). lia.
      * simpl. lia.
Qed.

(** A property of the table kept by every upsert of the backfill loop is
    kept by the loop. *)
Lemma backfill_loop_invariant (now : clock) (ps : list progress_row) (uid : Z)
    (keeps : sub_table -> Prop) (views : list assignment_view) :
  (forall v p k t, In v views ->
     existing_progress ps uid (a_lesson_lang (av_assignment v))
       (a_lesson_id (av_assignment v)) = Some p ->
     keeps t ->
     keeps (upsert_completed (a_id (av_assignment v)) uid (now k) (p_score p) t)) ->
  forall k t, keeps t -> keeps (fst (backfill_loop now ps uid views k t)).
Proof.
  induction views as [|v views IH]; intros Hstep k t Ht; simpl; [exact Ht|].
  assert (Hstep' : forall v0 p k0 t0, In v0 views ->
            existing_progress ps uid (a_lesson_lang (av_assignment v0))
              (a_lesson_id (av_assignment v0)) = Some p ->
            keeps t0 ->
            keeps (upsert_completed (a_id (av_assignment v0)) uid (now k0)
                     (p_score p) t0))
    by (intros v0 p k0 t0 H0; apply Hstep; now right).
  destruct (is_completed (av_status v)); [now apply IH|].
  destruct (existing_progress ps uid (a_lesson_lang (av_assignment v))
              (a_lesson_id (av_assignment v))) as [p|] eqn:Hp;
    [|now apply IH].
  apply IH; [exact Hstep'|]. apply Hstep; auto. now left.
Qed.

Lemma student_assignment_rows_member (d : db) (uid : Z) (v : assignment_view) :
  In v (student_assignment_rows d uid) ->
  In (av_assignment v) (assignments d)
  /\ exists cs, In cs (classroom_students d)
                /\ cs_classroom_id cs = a_classroom_id (av_assignment v)
                /\ cs_student_id cs = uid.
Proof.
  intros H. apply student_assignment_rows_in in H.
  destruct H as (a & cs & c & Ha & Hcs & _ & E1 & _ & E3 & Hv).
  assert (av_assignment v = a)
    by (destruct Hv as [[_ ->]|(s0 & _ & ->)]; reflexivity).
  subst a. eauto.
Qed.

(** X7. The GET of the student page, which backfills submissions from the
    progress table, preserves the constraints of the schema, the derived
    status, the score of completed submissions and the coverage of members. *)
Theorem student_page_keeps_consistency (now : clock) (s : session) (d : db) :
  consistent d -> consistent (fst (student_classroom_get now s d)).
Proof.
  intros [W D S C].
  destruct (student_classroom_get_effect now s d)
    as [->|(uid & t & k & _ & Hloop & ->)]; [now constructor|].
  set (views := student_assignment_rows d uid) in *.
  set (good := fun t0 : sub_table =>
         sub_ids_ok t0
         /\ (forall a cs, In a (assignments d) -> In cs (classroom_students d) ->
               cs_classroom_id cs = a_classroom_id a ->
               existsb (sub_key_eqb (a_id a) (cs_student_id cs)) (fst t0) = true)
         /\ forall r, In r (fst t0) ->
              (exists a cs, In a (assignments d) /\ a_id a = s_assignment_id r
                 /\ In cs (classroom_students d)
                 /\ cs_classroom_id cs = a_classroom_id a
                 /\ cs_student_id cs = s_student_id r)
              /\ forall a, In a (assignments d) -> a_id a = s_assignment_id r ->
                   (s_status r = completed
                    <-> has_progress d (s_student_id r) (a_lesson_lang a)
                          (a_lesson_id a))
                   /\ forall p, In p (progress d) ->
                        p_key p = (s_student_id r, a_lesson_lang a, a_lesson_id a) ->
                        s_status r = completed -> s_score r = Some (p_score p)).
  assert (Hgood : good t).
  { pose proof (@backfill_loop_invariant now (progress d) uid good views) as H.
    change t with (fst (t, k)). rewrite <- Hloop. apply H.
    - intros v p k0 t0 Hv Hp (Hids & Hcov & Hrows).
      destruct (student_assignment_rows_member d uid v Hv)
        as (Ha0 & cs0 & Hcs0 & Hc0 & Hu0).
      apply existing_progress_some in Hp. destruct Hp as [Hp Hk].
      split; [now apply upsert_completed_ids|].
      split; [intros a cs Ha Hcs Hcid; apply upsert_keeps_key; now apply Hcov|].
      intros r' Hr'. apply upsert_completed_rows in Hr'.
      destruct Hr' as [Hr'|(K1 & K2 & Hst & Hsc)]; [now apply Hrows|].
      split.
      + exists (av_assignment v), cs0. repeat split; auto; congruence.
      + intros a Ha Hid.
        assert (a = av_assignment v)
          by (apply (@NoDup_map_inj _ _ a_id (assignments d));
              [apply W | | | congruence]; auto).
        subst a. split.
        * split; [|intros _; exact Hst]. intros _.
          apply has_progress_key. exists p. split; [exact Hp | congruence].
        * intros p' Hp' Hk' _. rewrite Hsc. f_equal. f_equal.
          apply (@NoDup_map_inj _ _ p_key (progress d));
            [apply W | | | congruence]; auto.
    - split; [apply W|]. split; [exact C|].
      intros r Hr. split; [now apply (wf_sub_refs W)|].
      intros a Ha Hid. split; [now apply D|].
      intros p Hp Hk Hst. eapply S; eauto. }
  destruct Hgood as (Hids & Hcov & Hrows).
  pose proof (@backfill_loop_keys now (progress d) uid views 0
                (submissions_of d) (wf_sub_keys W)) as Hkeys.
  rewrite Hloop in Hkeys. simpl in Hkeys.
  constructor.
  - destruct W as [W1 W2 W3 W4 W5 W6].
    constructor; simpl; auto.
    intros r Hr. apply (Hrows r Hr).
  - intros r a Hr Ha Hid. simpl in *. now apply (Hrows r Hr).
  - intros r a p Hr Ha Hid Hp Hk Hst. simpl in *.
    destruct (Hrows r Hr) as [_ H]. now apply (H a Ha Hid).
  - intros a cs Ha Hcs Hcid. simpl in *. now apply Hcov.
Qed.

Lemma student_page_keeps_consistency_witness :
  consistent (fst (student_classroom_get demo_clock_later demo_student
                     demo_assigned)).
Proof.
  apply (@student_page_keeps_consistency demo_clock_later demo_student
           demo_assigned).
  exact demo_assigned_consistent.
Defined.

(** A column that is unique in a table stays unique in the rows a DELETE
    leaves. *)
Lemma NoDup_map_filter (Row Key : Type) (column : Row -> Key)
    (kept : Row -> bool) (table : list Row) :
  NoDup (map column table) -> NoDup (map column (filter kept table)).
Proof.
  intros Hnd. induction table as [|r table IH]; cbn; [constructor|].
  apply NoDup_cons_iff in Hnd. destruct Hnd as [Hr Hnd].
  destruct (kept r); cbn; [|now apply IH].
  constructor; [|now apply IH].
  intros Hin. apply in_map_iff in Hin. destruct Hin as (y & E & Hy).
  apply filter_In in Hy. apply Hr. apply in_map_iff. exists y. tauto.
Qed.

Lemma delete_submissions_of_filter (ids : list Z) (rows : list submission) :
  delete_submissions_of ids rows
  = filter (fun r => negb (existsb (Z.eqb (s_assignment_id r)) ids)) rows.
Proof.
  revert rows. induction ids as [|aid ids IH]; intros rows; simpl.
  - induction rows as [|r rows IHr]; simpl; [reflexivity|]. now rewrite <- IHr.
  - rewrite IH. induction rows as [|r rows IHr]; simpl; [reflexivity|].
    destruct (s_assignment_id r =? aid); simpl; [exact IHr|].
    destruct (existsb _ ids); simpl; [exact IHr | now rewrite IHr].
Qed.

Lemma delete_submissions_of_In (d : db) (cid : Z) (r : submission) :
  NoDup (map a_id (assignments d)) ->
  (exists a, In a (assignments d) /\ a_id a = s_assignment_id r) ->
  In r (delete_submissions_of (map a_id (assignments_of d cid))
          (assignment_submissions d))
  <-> In r (assignment_submissions d)
      /\ forall a, In a (assignments d) -> a_id a = s_assignment_id r ->
                   a_classroom_id a <> cid.
Proof.
  intros Hnd (a0 & Ha0 & Hid0).
  rewrite delete_submissions_of_filter, filter_In, negb_true_iff.
  split; intros [Hr H]; split; auto.
  - intros a Ha Hid Hc.
    assert (E : existsb (Z.eqb (s_assignment_id r))
                  (map a_id (assignments_of d cid)) = true).
    { apply existsb_exists. exists (a_id a). split; [|now apply Z.eqb_eq].
      apply in_map. apply filter_In. split; [exact Ha | now apply Z.eqb_eq]. }
    congruence.
  - destruct (existsb _ _) eqn:E; [|reflexivity]. exfalso.
    apply existsb_exists in E. destruct E as (x & Hx & Ex).
    apply Z.eqb_eq in Ex. apply in_map_iff in Hx.
    destruct Hx as (a & <- & Ha). apply filter_In in Ha.
    destruct Ha as [Ha Hc]. apply Z.eqb_eq in Hc.
    now apply (H a Ha).
Qed.

Lemma teacher_delete_classroom_effect (s : session) (cid tid : Z) (d : db)
    (c : classroom) :
  sess_user_id s = Some tid -> role_is s "Teacher" = true ->
  find_owned_classroom d cid tid = Some c ->
  teacher_delete_classroom s cid d
  = ({| users := users d;
        classrooms := filter (fun c => negb (c_id c =? cid)) (classrooms d);
        classroom_students :=
          filter (fun cs => negb (cs_classroom_id cs =? cid))
            (classroom_students d);
        assignments :=
          filter (fun a => negb (a_classroom_id a =? cid)) (assignments d);
        seq_assignments := seq_assignments d;
        assignment_submissions :=
          delete_submissions_of (map a_id (assignments_of d cid))
            (assignment_submissions d);
        seq_submissions := seq_submissions d;
        progress := progress d;
        notifications :=
          filter (fun n => negb (opt_eqb (n_classroom_id n) cid))
            (notifications d);
        stream_posts := stream_posts d |},
     redirect "teacher_home" (Some "Classroom deleted.")).
Proof.
  intros Huid Hrole Hc. unfold teacher_delete_classroom, require_login,
    require_role. now rewrite Huid, Hrole, Hc.
Qed.

(** X8. Deleting a classroom, by the teacher who owns it, leaves no classroom,
    membership, assignment or notification row of that classroom, removes
    exactly the submissions of its assignments, keeps the database
    consistent, and takes every post of the classroom out of the students'
    feeds although the posts themselves are not deleted. *)
Theorem delete_classroom_leaves_no_trace (s : session) (cid tid : Z) (d : db)
    (c : classroom) :
  sess_user_id s = Some tid -> role_is s "Teacher" = true ->
  find_owned_classroom d cid tid = Some c ->
  consistent d ->
  let d' := fst (teacher_delete_classroom s cid d) in
  no_trace d' cid
  /\ consistent d'
  /\ (forall r, In r (assignment_submissions d')
        <-> In r (assignment_submissions d)
            /\ forall a, In a (assignments d) -> a_id a = s_assignment_id r ->
                         a_classroom_id a <> cid)
  /\ stream_posts d' = stream_posts d
  /\ forall v row, In row (student_feed d' v) ->
       sp_classroom_id (fr_post row) <> cid.
Proof.
  intros Huid Hrole Hc [W D S C]. cbv zeta.
  rewrite (@teacher_delete_classroom_effect s cid tid d c Huid Hrole Hc). cbn [fst].
  assert (Hsub : forall r,
            In r (delete_submissions_of (map a_id (assignments_of d cid))
                    (assignment_submissions d))
            <-> In r (assignment_submissions d)
                /\ forall a, In a (assignments d) -> a_id a = s_assignment_id r ->
                             a_classroom_id a <> cid).
  { intros r. split.
    - intros H. assert (Hr : In r (assignment_submissions d))
        by (rewrite delete_submissions_of_filter in H;
            now apply filter_In in H).
      destruct (wf_sub_refs W r Hr) as (a & cs & Ha & Hid & _).
      apply (@delete_submissions_of_In d cid r (wf_assignment_ids W)); eauto.
    - intros [Hr H]. destruct (wf_sub_refs W r Hr) as (a & cs & Ha & Hid & _).
      apply (@delete_submissions_of_In d cid r (wf_assignment_ids W)); eauto. }
  assert (Hneq : forall x y : Z, negb (x =? y) = true <-> x <> y)
    by (intros x y; rewrite negb_true_iff; apply Z.eqb_neq).
  split; [|split; [|split; [|split]]].
  - unfold no_trace; simpl. repeat split.
    + intros c0 H. apply filter_In in H. now apply Hneq.
    + intros cs H. apply filter_In in H. now apply Hneq.
    + intros a H. apply filter_In in H. now apply Hneq.
    + intros n H E. apply filter_In in H. destruct H as [_ H].
      rewrite E in H. simpl in H. now rewrite Z.eqb_refl in H.
  - constructor.
    + destruct W as [[W1 W1'] W2 W3 W4 W5 W6].
      constructor; simpl.
      * split; simpl.
        -- rewrite delete_submissions_of_filter. now apply NoDup_map_filter.
        -- intros r Hr. apply Hsub in Hr. now apply W1'.
      * rewrite delete_submissions_of_filter. now apply NoDup_map_filter.
      * now apply NoDup_map_filter.
      * intros a Ha. apply filter_In in Ha. now apply W4.
      * exact W5.
      * intros r Hr. apply Hsub in Hr. destruct Hr as [Hr Hk].
        destruct (W6 r Hr) as (a & cs & Ha & Hid & Hcs & Hcc & Hcu).
        exists a, cs. pose proof (Hk a Ha Hid) as Hne.
        repeat split; auto; apply filter_In; split; auto; apply Hneq;
          congruence.
    + intros r a Hr Ha Hid. simpl in *. apply Hsub in Hr.
      apply filter_In in Ha. exact (D r a (proj1 Hr) (proj1 Ha) Hid).
    + intros r a p Hr Ha Hid Hp Hk Hst. simpl in *. apply Hsub in Hr.
      apply filter_In in Ha. exact (S r a p (proj1 Hr) (proj1 Ha) Hid Hp Hk Hst).
    + intros a cs Ha Hcs Hcid. simpl in *.
      apply filter_In in Ha. destruct Ha as [Ha Hac]. apply Hneq in Hac.
      apply filter_In in Hcs. destruct Hcs as [Hcs _].
      pose proof (C a cs Ha Hcs Hcid) as E.
      apply existsb_exists in E. destruct E as (r & Hr & Hk).
      apply existsb_exists. exists r. split; [|exact Hk].
      apply sub_key_eqb_true in Hk. destruct Hk as [Hk1 _].
      apply Hsub. split; [exact Hr|].
      intros a' Ha' Hid'.
      assert (a' = a)
        by (apply (@NoDup_map_inj _ _ a_id (assignments d));
            [apply W | | | congruence]; auto).
      now subst a'.
  - exact Hsub.
  - reflexivity.
  - intros v row Hrow Hcid.
    unfold student_feed, get_stream_posts_for_student in Hrow.
    destruct (map c_id _) as [|c0 cids] eqn:Hids; [destruct Hrow|].
    rewrite <- Hids in Hrow. apply in_firstn in Hrow.
    apply sort_desc_in in Hrow.
    unfold stream_rows in Hrow.
    apply in_flat_map in Hrow. destruct Hrow as (p & _ & Hrow).
    apply in_flat_map in Hrow. destruct Hrow as (u & _ & Hrow).
    apply in_flat_map in Hrow. destruct Hrow as (c1 & _ & Hrow).
    destruct (_ && _ && visible_to _ _ _) eqn:E; [|destruct Hrow].
    destruct Hrow as [<-|[]]. simpl in Hcid.
    rewrite !andb_true_iff in E. destruct E as [_ E].
    unfold visible_to in E. rewrite !andb_true_iff in E.
    destruct E as [[E _] _]. apply existsb_exists in E.
    destruct E as (x & Hx & Ex). apply Z.eqb_eq in Ex. subst x.
    apply in_map_iff in Hx. destruct Hx as (c2 & Hc2 & Hj).
    unfold joined_classrooms in Hj. apply in_flat_map in Hj.
    destruct Hj as (c3 & Hc3 & Hj). apply in_flat_map in Hj.
    destruct Hj as (cs & _ & Hj). destruct (_ && _); [|destruct Hj].
    destruct Hj as [<-|[]]. simpl in Hc3. apply filter_In in Hc3.
    destruct Hc3 as [_ Hc3]. apply Hneq in Hc3. congruence.
Qed.

Lemma delete_classroom_leaves_no_trace_witness :
  no_trace (fst (teacher_delete_classroom demo_teacher 1 demo_assigned)) 1.
Proof.
  exact (proj1 (@delete_classroom_leaves_no_trace demo_teacher 1 1 demo_assigned
                  {| c_id := 1; c_teacher_id := 1; c_name := "Room";
                     c_code := "AB12CD" |}
                  eq_refl eq_refl eq_refl demo_assigned_consistent)).
Defined.

(** [notify_all] appends one unread notification per student, in order, and
    touches no other table. *)
Lemma notify_all_effect (now : clock) (title body : string) (cid : option Z)
    (students : list Z) :
  forall (k : nat) (d : db),
  exists news k',
    notify_all now k students title body cid d
    = (with_notifications d (notifications d ++ news), k')
    /\ map n_user_id news = students
    /\ Forall (fun n => n_is_read n = false /\ n_classroom_id n = cid
                        /\ n_title n = title /\ n_body n = body) news.
Proof.
  induction students as [|st rest IH]; intros k d; simpl.
  - exists [], k. rewrite app_nil_r. split; [|split; [reflexivity|constructor]].
    now destruct d.
  - destruct (IH (S k)
                (with_notifications d
                   (notifications d ++
                      [{| n_user_id := st; n_title := title; n_body := body;
                          n_classroom_id := cid; n_is_read := false;
                          n_created_at := now k |}])))
      as (news & k' & E & Hm & Hf).
    exists ({| n_user_id := st; n_title := title; n_body := body;
               n_classroom_id := cid; n_is_read := false;
               n_created_at := now k |} :: news), k'.
    split; [|split].
    + rewrite E. unfold with_notifications; simpl. now rewrite <- app_assoc.
    + simpl. now rewrite Hm.
    + constructor; [simpl; auto | exact Hf].
Qed.

Lemma teacher_post_announcement_effect (now : clock) (s : session)
    (cid tid : Z) (message_field : string) (d : db) (c : classroom) :
  sess_user_id s = Some tid -> role_is s "Teacher" = true ->
  nonempty (strip message_field) = true ->
  find_owned_classroom d cid tid = Some c ->
  exists news,
    teacher_post_announcement now s cid message_field d
    = ({| users := users d; classrooms := classrooms d;
          classroom_students := classroom_students d;
          assignments := assignments d; seq_assignments := seq_assignments d;
          assignment_submissions := assignment_submissions d;
          seq_submissions := seq_submissions d;
          progress := progress d;
          notifications := notifications d ++ news;
          stream_posts :=
            stream_posts d ++
              [{| sp_classroom_id := cid; sp_author_id := tid;
                  sp_kind := kind_announcement; sp_title := "Announcement";
                  sp_body := strip message_field;
                  sp_audience := audience_class; sp_student_id := None;
                  sp_created_at := now 0%nat |}] |},
       redirect "teacher_classroom" (Some "Announcement posted."))
    /\ map n_user_id news = students_of d cid
    /\ Forall (fun n => n_is_read n = false /\ n_classroom_id n = Some cid
                        /\ n_title n = "New announcement"
                        /\ n_body n = (c_name c ++ ": " ++ strip message_field)%string)
         news.
Proof.
  intros Huid Hrole Hmsg Hc.
  unfold teacher_post_announcement, require_login, require_role.
  rewrite Huid, Hrole, Hmsg, Hc. cbn [negb create_stream_post].
  match goal with
  | |- context [notify_all ?n ?k ?st ?t ?b ?ci ?d0] =>
      destruct (notify_all_effect n t b ci st k d0) as (news & k' & E & Hm & Hf);
      rewrite E
  end.
  exists news. split; [reflexivity|]. split; [exact Hm | exact Hf].
Qed.

Section SortHead.
Variable A : Type.
Variable key : A -> Z.

(** Rows of the largest key, at the end of the table, come first. *)
Lemma sort_desc_newest_first (l m : list A) (K : Z) :
  m <> [] ->
  (forall x, In x m -> key x = K) ->
  (forall y, In y l -> key y < K) ->
  exists r rest, sort_desc key (l ++ m) = r :: rest /\ In r m.
Proof.
  intros Hm HK Hl. induction l as [|y l IH]; simpl.
  - destruct (sort_desc key m) as [|r rest] eqn:E.
    + exfalso. destruct m as [|x m]; [now apply Hm|].
      assert (H : In x (sort_desc key (x :: m))) by (apply sort_desc_in; now left).
      rewrite E in H. destruct H.
    + exists r, rest. split; [reflexivity|].
      apply (sort_desc_in key m). rewrite E. now left.
  - destruct IH as (r & rest & E & Hr); [intros y0 H0; apply Hl; now right|].
    rewrite E. simpl.
    assert (key y < key r) by (rewrite (HK r Hr); apply Hl; now left).
    destruct (key r <=? key y) eqn:Hle; [apply Z.leb_le in Hle; lia|].
    exists r, (insert_desc key y rest). auto.
Qed.

End SortHead.

(** X9. An announcement, its message being ASCII text, reaches the members
    of the classroom and nobody else: one class post is added, and the
    notifications added are one unread notification per member, in whatever
    order the members are read; the other tables are unchanged; and, the
    clock having advanced past the posts stored, every member finds the
    announcement at the top of the feed of the student page. *)
Theorem announcement_reaches_members (now : clock) (s : session) (cid tid : Z)
    (message_field : string) (d : db) (c : classroom) (u : user) :
  sess_user_id s = Some tid -> role_is s "Teacher" = true ->
  find_user d tid = Some u ->
  ascii_text message_field = true ->
  nonempty (strip message_field) = true ->
  find_owned_classroom d cid tid = Some c ->
  (forall p, In p (stream_posts d) -> sp_created_at p < now 0%nat) ->
  let d' := fst (teacher_post_announcement now s cid message_field d) in
  exists post news,
    stream_posts d' = stream_posts d ++ [post]
    /\ sp_kind post = kind_announcement /\ sp_audience post = audience_class
    /\ sp_classroom_id post = cid /\ sp_author_id post = tid
    /\ sp_body post = strip message_field
    /\ notifications d' = notifications d ++ news
    /\ Permutation (map n_user_id news) (students_of d cid)
    /\ Forall (fun n => n_is_read n = false /\ n_classroom_id n = Some cid) news
    /\ (users d', classrooms d', classroom_students d', assignments d',
        assignment_submissions d', progress d')
       = (users d, classrooms d, classroom_students d, assignments d,
          assignment_submissions d, progress d)
    /\ forall v, In v (students_of d cid) ->
         exists row rest, student_feed d' v = row :: rest /\ fr_post row = post.
Proof.
  intros Huid Hrole Hu _ Hmsg Hc Hclock. cbv zeta.
  destruct (@teacher_post_announcement_effect now s cid tid message_field d c
              Huid Hrole Hmsg Hc) as (news & E & Hm & Hf).
  rewrite E. cbn [fst].
  set (post := {| sp_classroom_id := cid; sp_author_id := tid;
                  sp_kind := kind_announcement; sp_title := "Announcement";
                  sp_body := strip message_field;
                  sp_audience := audience_class; sp_student_id := None;
                  sp_created_at := now 0%nat |}).
  exists post, news. cbn [stream_posts notifications users classrooms
    classroom_students assignments assignment_submissions progress].
  repeat (split; [reflexivity || assumption|]).
  split; [now rewrite Hm|].
  split; [eapply Forall_impl; [|exact Hf]; simpl; tauto|].
  split; [reflexivity|].
  intros v Hv.
  apply find_some in Hc. destruct Hc as [Hc Hcid].
  apply andb_true_iff in Hcid. destruct Hcid as [Hcid _].
  apply Z.eqb_eq in Hcid.
  apply find_some in Hu. destruct Hu as [Hu Huid']. apply Z.eqb_eq in Huid'.
  unfold students_of in Hv. apply in_map_iff in Hv.
  destruct Hv as (cs & Hcsv & Hcs). apply filter_In in Hcs.
  destruct Hcs as [Hcs Hcsc]. apply Z.eqb_eq in Hcsc.
  unfold student_feed, get_stream_posts_for_student.
  assert (Hj : forall d0, classrooms d0 = classrooms d ->
                 classroom_students d0 = classroom_students d ->
                 joined_classrooms d0 v = joined_classrooms d v)
    by (intros d0 H1 H2; unfold joined_classrooms; now rewrite H1, H2).
  match goal with
  | |- context [joined_classrooms ?d0 v] => rewrite (Hj d0 eq_refl eq_refl)
  end.
  assert (Hjoin : In cid (map c_id (joined_classrooms d v))).
  { apply in_map_iff. exists c. split; [exact Hcid|].
    unfold joined_classrooms. apply in_flat_map. exists c. split; [exact Hc|].
    apply in_flat_map. exists cs. split; [exact Hcs|].
    rewrite Hcsc, Hcid, Hcsv, !Z.eqb_refl. now left. }
  destruct (map c_id (joined_classrooms d v)) as [|c0 cids] eqn:Hids;
    [destruct Hjoin|].
  rewrite <- Hids in *.
  set (cidsv := map c_id (joined_classrooms d v)) in *.
  unfold stream_rows. cbn [stream_posts users classrooms].
  rewrite flat_map_app.
  fold (stream_rows d cidsv v).
  assert (Hvis : visible_to cidsv v post = true).
  { unfold visible_to, post.
    cbn [sp_classroom_id sp_audience sp_kind sp_student_id audience_eqb
         kind_eqb orb andb negb].
    rewrite !andb_true_r. apply existsb_exists. exists cid.
    split; [exact Hjoin | apply Z.eqb_refl]. }
  match goal with
  | |- context [sort_desc ?k (?l ++ ?m)] =>
      destruct (@sort_desc_newest_first _ k l m (now 0%nat))
        as (row & rest & Es & Hrow)
  end.
  - intros Hnil. 
    assert (Hin : In {| fr_post := post; fr_author_name := u_name u;
                        fr_classroom_name := c_name c |}
                    (flat_map (fun p =>
                       flat_map (fun u0 =>
                         flat_map (fun c1 =>
                           if (u_id u0 =? sp_author_id p)
                              && (c_id c1 =? sp_classroom_id p)
                              && visible_to cidsv v p
                           then [{| fr_post := p; fr_author_name := u_name u0;
                                    fr_classroom_name := c_name c1 |}]
                           else []) (classrooms d)) (users d)) [post])).
    { apply in_flat_map. exists post. split; [now left|].
      apply in_flat_map. exists u. split; [exact Hu|].
      apply in_flat_map. exists c. split; [exact Hc|].
      rewrite Hvis. simpl. rewrite Huid', Hcid, !Z.eqb_refl. now left. }
    rewrite Hnil in Hin. destruct Hin.
  - intros x Hx. apply in_flat_map in Hx. destruct Hx as (p & [<-|[]] & Hx).
    apply in_flat_map in Hx. destruct Hx as (u0 & _ & Hx).
    apply in_flat_map in Hx. destruct Hx as (c1 & _ & Hx).
    destruct (_ && _ && _); [|destruct Hx]. destruct Hx as [<-|[]].
    reflexivity.
  - intros y Hy. unfold stream_rows in Hy.
    apply in_flat_map in Hy. destruct Hy as (p & Hp & Hy).
    apply in_flat_map in Hy. destruct Hy as (u0 & _ & Hy).
    apply in_flat_map in Hy. destruct Hy as (c1 & _ & Hy).
    destruct (_ && _ && _); [|destruct Hy]. destruct Hy as [<-|[]].
    simpl. now apply Hclock.
  - rewrite Es. exists row, (firstn 29 rest). split; [reflexivity|].
    apply in_flat_map in Hrow. destruct Hrow as (p & [<-|[]] & Hx).
    apply in_flat_map in Hx. destruct Hx as (u0 & _ & Hx).
    apply in_flat_map in Hx. destruct Hx as (c1 & _ & Hx).
    destruct (_ && _ && _); [|destruct Hx]. destruct Hx as [<-|[]].
    reflexivity.
Qed.

Lemma announcement_reaches_members_witness :
  exists post,
    In post (stream_posts
               (fst (teacher_post_announcement demo_clock_later demo_teacher 1
                       " Quiz on Friday " demo_assigned)))
    /\ sp_body post = "Quiz on Friday"
    /\ exists row rest,
         student_feed
           (fst (teacher_post_announcement demo_clock_later demo_teacher 1
                   " Quiz on Friday " demo_assigned)) 2 = row :: rest
         /\ fr_post row = post.
Proof.
  destruct (@announcement_reaches_members demo_clock_later demo_teacher 1 1
              " Quiz on Friday " demo_assigned
              {| c_id := 1; c_teacher_id := 1; c_name := "Room";
                 c_code := "AB12CD" |}
              (demo_user 1 "Ada" "Teacher")
              eq_refl eq_refl eq_refl eq_refl eq_refl eq_refl)
    as (post & news & H1 & _ & _ & _ & _ & H2 & _ & _ & _ & _ & H3).
  - intros p Hp. vm_compute in Hp. destruct Hp as [<-|[]]. reflexivity.
  - exists post. split; [rewrite H1; apply in_or_app; right; now left|].
    split; [exact H2|]. apply H3. vm_compute. now left.
Defined.

Lemma teacher_create_assignment_done (now : clock) (s : session) (cid tid : Z)
    (key : string) (due : option string) (comment : string) (d : db)
    (lang : string) (lid : Z) (c : classroom) :
  sess_user_id s = Some tid -> role_is s "Teacher" = true ->
  parse_lesson_key key = inl (lang, lid) ->
  find_owned_classroom d cid tid = Some c ->
  let d' := fst (teacher_create_assignment now s cid key due comment d) in
  let a := assignment_row_of now d cid lid lang due (strip comment) in
  exists news seq' posts ns,
    d' = with_notifications
           (with_stream_posts
              (with_submissions
                 (with_assignments d (assignments d ++ [a])
                    (seq_assignments d + 1))
                 (assignment_submissions d ++ news, seq')) posts) ns
    /\ Forall (fun r => s_assignment_id r = a_id a
                 /\ In (s_student_id r) (students_of d cid)
                 /\ created_from now (progress d) lang lid r) news
    /\ (forall st, In st (students_of d cid) ->
          existsb (sub_key_eqb (a_id a) st)
            (assignment_submissions d ++ news) = true).
Proof.
  intros Hs Hr Hk Hc. cbv zeta.
  destruct (teacher_create_assignment_effect now s cid key due comment d)
    as [[_ H]|(tid1 & lang1 & lid1 & c1 & t & k & posts1 & ns1 & Hs1 & Hk1
               & Hc1 & _ & E)]; [exfalso; eapply H; eauto|].
  destruct (teacher_create_assignment_shape now s cid key due comment d)
    as [Heq|(tid2 & lang2 & lid2 & c2 & news & seq' & posts & ns & Hs2 & Hk2
             & Hc2 & Hd & HF & _ & _ & Hcov)].
  - exfalso. apply (f_equal fst) in E. cbn [fst] in E.
    rewrite Heq in E. apply (f_equal assignments) in E. simpl in E.
    apply (f_equal (@List.length _)) in E. rewrite length_app in E.
    simpl in E. lia.
  - rewrite Hs in Hs2. rewrite Hk in Hk2. injection Hs2 as <-.
    injection Hk2 as <- <-. exists news, seq', posts, ns. auto.
Qed.

(** X10. The lesson key and the comment being ASCII text within the limit
    of [int], and the lesson number within the INTEGER range: the
    assignment query of the student page returns a new assignment for every
    member of the classroom, with the status the progress table gives it:
    completed, with the score of the lesson, for a member who passed the
    lesson before, and assigned otherwise; no grade in either case. *)
Theorem new_assignment_on_member_pages (now : clock) (s : session)
    (cid tid : Z) (key : string) (due : option string) (comment : string)
    (d : db) (lang : string) (lid : Z) (c : classroom) :
  sess_user_id s = Some tid -> role_is s "Teacher" = true ->
  plain_text key = true -> ascii_text comment = true ->
  parse_lesson_key key = inl (lang, lid) ->
  int64 lid ->
  find_owned_classroom d cid tid = Some c ->
  db_wf d ->
  let d' := fst (teacher_create_assignment now s cid key due comment d) in
  forall v, In v (students_of d cid) ->
    exists view,
      In view (student_assignment_rows d' v)
      /\ av_assignment view
         = assignment_row_of now d cid lid lang due (strip comment)
      /\ av_status view
         = Some (match existing_progress (progress d) v lang lid with
                 | Some _ => completed
                 | None => assigned
                 end)
      /\ av_score view
         = option_map p_score (existing_progress (progress d) v lang lid)
      /\ av_grade_out_of_10 view = None.
Proof.
  intros Hs Hr _ _ Hk _ Hc W. cbv zeta. intros v Hv.
  destruct (@teacher_create_assignment_done now s cid tid key due comment d
              lang lid c Hs Hr Hk Hc)
    as (news & seq' & posts & ns & -> & HF & Hcov).
  set (a := assignment_row_of now d cid lid lang due (strip comment)) in *.
  specialize (Hcov v Hv). apply existsb_exists in Hcov.
  destruct Hcov as (r & Hr' & Hkey).
  pose proof Hkey as Hkey'. apply sub_key_eqb_true in Hkey'.
  destruct Hkey' as [Hra Hrv].
  assert (Hnew : In r news).
  { apply in_app_or in Hr'. destruct Hr' as [Hold|Hnew]; [exfalso|exact Hnew].
    destruct (wf_sub_refs W r Hold) as (a0 & _ & Ha0 & Hid0 & _).
    pose proof (wf_assignment_seq W a0 Ha0) as Hle.
    rewrite Hid0, Hra in Hle. simpl in Hle. lia. }
  rewrite Forall_forall in HF. destruct (HF r Hnew) as (_ & _ & Hgrade & Hst).
  rewrite Hrv in Hst.
  apply find_some in Hc. destruct Hc as [Hc Hcid].
  apply andb_true_iff in Hcid. destruct Hcid as [Hcid _].
  apply Z.eqb_eq in Hcid.
  unfold students_of in Hv. apply in_map_iff in Hv.
  destruct Hv as (cs & Hcsv & Hcs). apply filter_In in Hcs.
  destruct Hcs as [Hcs Hcsc]. apply Z.eqb_eq in Hcsc.
  exists (view_of a c (Some r)). split; [|split; [reflexivity|]].
  - apply student_assignment_rows_in. exists a, cs, c. simpl.
    repeat split; auto.
    + apply in_or_app. right. now left.
    + right. exists r. split; [|reflexivity].
      apply filter_In. split; [exact Hr' | exact Hkey].
  - simpl. destruct (existing_progress (progress d) v lang lid) as [p|];
      destruct Hst as (-> & -> & _); auto.
Qed.

Lemma new_assignment_on_member_pages_witness :
  exists view,
    In view (student_assignment_rows demo_backfilled 2)
    /\ av_status view = Some completed /\ av_score view = Some 75.
Proof.
  destruct (@new_assignment_on_member_pages demo_clock_later demo_teacher 1 1
              "python:3" None "" demo_passed "python" 3
              {| c_id := 1; c_teacher_id := 1; c_name := "Room";
                 c_code := "AB12CD" |}
              eq_refl eq_refl eq_refl eq_refl eq_refl) with (v := 2)
    as (view & H1 & _ & H2 & H3 & _).
  - unfold int64. lia.
  - reflexivity.
  - constructor; vm_compute; repeat constructor; simpl; try tauto; try lia.
  - vm_compute. now left.
  - exists view. split; [exact H1|]. split; [exact H2 | exact H3].
Defined.

(** A post appended to the table, newer than the posts stored, heads the
    feed of a member of its classroom who may see it. *)
Lemma new_post_heads_feed (d d' : db) (v : Z) (post : stream_post) (u : user)
    (c : classroom) (cs : classroom_student) :
  users d' = users d -> classrooms d' = classrooms d ->
  classroom_students d' = classroom_students d ->
  stream_posts d' = stream_posts d ++ [post] ->
  In u (users d) -> u_id u = sp_author_id post ->
  In c (classrooms d) -> c_id c = sp_classroom_id post ->
  In cs (classroom_students d) -> cs_classroom_id cs = sp_classroom_id post ->
  cs_student_id cs = v ->
  (forall ids, In (sp_classroom_id post) ids -> visible_to ids v post = true) ->
  (forall p, In p (stream_posts d) -> sp_created_at p < sp_created_at post) ->
  exists row rest, student_feed d' v = row :: rest /\ fr_post row = post.
Proof.
  intros Hus Hcl Hms Hps Hu Huid Hc Hcid Hcs Hcsc Hcsv Hvis Hclock.
  unfold student_feed, get_stream_posts_for_student.
  assert (Hj : joined_classrooms d' v = joined_classrooms d v)
    by (unfold joined_classrooms; now rewrite Hcl, Hms).
  rewrite Hj.
  assert (Hjoin : In (sp_classroom_id post) (map c_id (joined_classrooms d v))).
  { apply in_map_iff. exists c. split; [exact Hcid|].
    unfold joined_classrooms. apply in_flat_map. exists c. split; [exact Hc|].
    apply in_flat_map. exists cs. split; [exact Hcs|].
    rewrite Hcsc, Hcid, Hcsv, !Z.eqb_refl. now left. }
  destruct (map c_id (joined_classrooms d v)) as [|c0 cids] eqn:Hids;
    [destruct Hjoin|].
  rewrite <- Hids in *.
  set (cidsv := map c_id (joined_classrooms d v)) in *.
  unfold stream_rows. rewrite Hus, Hcl, Hps, flat_map_app.
  fold (stream_rows d cidsv v).
  match goal with
  | |- context [sort_desc ?k (?l ++ ?m)] =>
      destruct (@sort_desc_newest_first _ k l m (sp_created_at post))
        as (row & rest & Es & Hrow)
  end.
  - intros Hnil.
    assert (Hin : In {| fr_post := post; fr_author_name := u_name u;
                        fr_classroom_name := c_name c |}
                    (flat_map (fun p =>
                       flat_map (fun u0 =>
                         flat_map (fun c1 =>
                           if (u_id u0 =? sp_author_id p)
                              && (c_id c1 =? sp_classroom_id p)
                              && visible_to cidsv v p
                           then [{| fr_post := p; fr_author_name := u_name u0;
                                    fr_classroom_name := c_name c1 |}]
                           else []) (classrooms d)) (users d)) [post])).
    { apply in_flat_map. exists post. split; [now left|].
      apply in_flat_map. exists u. split; [exact Hu|].
      apply in_flat_map. exists c. split; [exact Hc|].
      rewrite (Hvis cidsv Hjoin), Huid, Hcid, !Z.eqb_refl. now left. }
    rewrite Hnil in Hin. destruct Hin.
  - intros x Hx. apply in_flat_map in Hx. destruct Hx as (p & [<-|[]] & Hx).
    apply in_flat_map in Hx. destruct Hx as (u0 & _ & Hx).
    apply in_flat_map in Hx. destruct Hx as (c1 & _ & Hx).
    destruct (_ && _ && _); [|destruct Hx]. destruct Hx as [<-|[]].
    reflexivity.
  - intros y Hy. apply stream_rows_visible in Hy. now apply Hclock.
  - rewrite Es. exists row, (firstn 29 rest). split; [reflexivity|].
    apply in_flat_map in Hrow. destruct Hrow as (p & [<-|[]] & Hx).
    apply in_flat_map in Hx. destruct Hx as (u0 & _ & Hx).
    apply in_flat_map in Hx. destruct Hx as (c1 & _ & Hx).
    destruct (_ && _ && _); [|destruct Hx]. destruct Hx as [<-|[]].
    reflexivity.
Qed.

Lemma teacher_grade_submission_done (now : clock) (s : session)
    (referrer : option string) (sid : Z) (grade : option string) (d : db)
    (tid g : Z) (sub : submission) (a : assignment) :
  sess_user_id s = Some tid -> role_is s "Teacher" = true ->
  int_of_field grade = Some g -> 0 <= g <= 10 ->
  graded_submission d sid = Some (sub, a) ->
  exists n p,
    teacher_grade_submission now s referrer sid grade d
    = ({| users := users d; classrooms := classrooms d;
          classroom_students := classroom_students d;
          assignments := assignments d; seq_assignments := seq_assignments d;
          assignment_submissions :=
            map (fun r => if s_id r =? sid then set_grade g r else r)
              (assignment_submissions d);
          seq_submissions := seq_submissions d;
          progress := progress d;
          notifications := notifications d ++ [n];
          stream_posts := stream_posts d ++ [p] |},
       redirect (back_to referrer) (Some "Grade saved."))
    /\ n_user_id n = s_student_id sub /\ n_is_read n = false
    /\ n_classroom_id n = Some (a_classroom_id a)
    /\ n_created_at n = now 0%nat
    /\ sp_kind p = kind_grade /\ sp_audience p = audience_student
    /\ sp_student_id p = Some (s_student_id sub)
    /\ sp_classroom_id p = a_classroom_id a /\ sp_author_id p = tid
    /\ sp_created_at p = now 1%nat.
Proof.
  intros Huid Hrole Hg Hv Hsub.
  unfold teacher_grade_submission, require_login, require_role.
  rewrite Huid, Hrole, Hg.
  replace ((g <? 0) || (10 <? g)) with false
    by (symmetry; apply orb_false_iff; split; apply Z.ltb_ge; lia).
  rewrite Hsub. cbn [create_notification create_stream_post].
  eexists _, _. split; [reflexivity|]. simpl. repeat split.
Qed.



(** X12. Marking the notifications read empties the unread list of the user
    who asks, leaves the unread list of every other user as it was, and
    changes nothing but the read flags: no notification is deleted and no
    other table is written. *)
Theorem mark_read_clears_unread (s : session) (referrer : option string)
    (d : db) (uid : Z) :
  sess_user_id s = Some uid ->
  let d' := fst (mark_notifications_read s referrer d) in
  get_unread_notifications d' uid = []
  /\ (forall v, v <> uid ->
        get_unread_notifications d' v = get_unread_notifications d v)
  /\ map mark_read (notifications d') = map mark_read (notifications d)
  /\ d' = with_notifications d (notifications d').
Proof.
  intros Huid. cbv zeta.
  unfold mark_notifications_read, require_login. rewrite Huid. cbn [fst].
  unfold get_unread_notifications. cbn [notifications with_notifications].
  split; [|split; [|split]].
  - replace (filter _ (map _ (notifications d))) with (@nil notification);
      [reflexivity|].
    symmetry. induction (notifications d) as [|n l IH]; simpl; [reflexivity|].
    destruct (n_user_id n =? uid) eqn:E; simpl.
    + now rewrite E.
    + now rewrite E.
  - intros v Hv. f_equal. f_equal.
    induction (notifications d) as [|n l IH]; simpl; [reflexivity|].
    rewrite IH. destruct (n_user_id n =? uid) eqn:E; [|reflexivity].
    apply Z.eqb_eq in E. simpl.
    replace (n_user_id n =? v) with false
      by (symmetry; apply Z.eqb_neq; congruence).
    reflexivity.
  - rewrite map_map. apply map_ext. intros n.
    now destruct (n_user_id n =? uid).
  - reflexivity.
Qed.

Lemma mark_read_clears_unread_witness :
  List.length (get_unread_notifications demo_graded 2) = 2%nat
  /\ get_unread_notifications
       (fst (mark_notifications_read demo_student None demo_graded)) 2 = []
  /\ get_unread_notifications
       (fst (mark_notifications_read demo_student None demo_graded)) 3
     = get_unread_notifications demo_graded 3.
Proof.
  pose proof (@mark_read_clears_unread demo_student None demo_graded 2 eq_refl)
    as (H1 & H2 & _).
  split; [reflexivity|]. split; [exact H1|]. apply H2. lia.
Defined.

Lemma joined_classrooms_in (d : db) (v : Z) (c : classroom) :
  In c (joined_classrooms d v)
  <-> In c (classrooms d)
      /\ exists cs, In cs (classroom_students d)
                    /\ cs_classroom_id cs = c_id c /\ cs_student_id cs = v.
Proof.
  unfold joined_classrooms. rewrite in_flat_map. split.
  - intros (c0 & Hc0 & H). apply in_flat_map in H. destruct H as (cs & Hcs & H).
    destruct ((cs_classroom_id cs =? c_id c0) && (cs_student_id cs =? v)) eqn:E;
      [|destruct H].
    destruct H as [<-|[]]. apply andb_true_iff in E.
    rewrite !Z.eqb_eq in E. split; [exact Hc0|]. exists cs. tauto.
  - intros (Hc & cs & Hcs & E1 & E2). exists c. split; [exact Hc|].
    apply in_flat_map. exists cs. split; [exact Hcs|].
    rewrite E1, E2, !Z.eqb_refl. now left.
Qed.

Lemma insert_or_ignore_member_has (cid uid at_ : Z)
    (rows : list classroom_student) (cid' uid' : Z) :
  (exists cs, In cs (insert_or_ignore_member cid uid at_ rows)
              /\ cs_classroom_id cs = cid' /\ cs_student_id cs = uid')
  <-> (exists cs, In cs rows
                  /\ cs_classroom_id cs = cid' /\ cs_student_id cs = uid')
      \/ (cid' = cid /\ uid' = uid).
Proof.
  unfold insert_or_ignore_member.
  destruct (existsb _ rows) eqn:E.
  - split; [now left|]. intros [H|[-> ->]]; [exact H|].
    apply existsb_exists in E. destruct E as (cs & Hcs & E).
    apply andb_true_iff in E. rewrite !Z.eqb_eq in E. exists cs. tauto.
  - split.
    + intros (cs & Hcs & E1 & E2). apply in_app_or in Hcs.
      destruct Hcs as [Hcs|[<-|[]]]; [left; eauto|]. right. simpl in *. auto.
    + intros [(cs & Hcs & E1 & E2)|[-> ->]].
      * exists cs. split; [apply in_or_app; now left | auto].
      * eexists. split; [apply in_or_app; right; now left|]. simpl. auto.
Qed.

(** X13. Joining by code, the code being ASCII text, through the form of
    the student page or through the join link: an unknown code changes
    nothing and flashes that the
    code was not found; a known code lists the classroom for the student
    and changes the classroom list of nobody else; a student who is a member
    already gets no second membership row. *)
Theorem join_lists_classroom (now : clock) (s : session) (req : request)
    (d : db) (uid : Z) (code : string) :
  sess_user_id s = Some uid -> role_is s "Student" = true ->
  (exists field, req = StudentClassroomPost field
                 /\ ascii_text field = true /\ code = upper (strip field))
  \/ (exists link, req = JoinClassByCode link
                   /\ ascii_text link = true /\ code = upper link) ->
  let d' := fst (handle now s req d) in
  match find_classroom_by_code d code with
  | None =>
      handle now s req d
      = (d, redirect "student_classroom" (Some "Classroom code not found."))
  | Some c =>
      snd (handle now s req d)
      = redirect "student_classroom" (Some "You joined the classroom!")
      /\ In c (joined_classrooms d' uid)
      /\ (forall v c', In c' (joined_classrooms d' v)
            <-> In c' (joined_classrooms d v)
                \/ (v = uid /\ In c' (classrooms d) /\ c_id c' = c_id c))
      /\ ((exists cs, In cs (classroom_students d)
                      /\ cs_classroom_id cs = c_id c /\ cs_student_id cs = uid) ->
          classroom_students d' = classroom_students d)
  end.
Proof.
  intros Huid Hrole Hreq. cbv zeta.
  assert (E : handle now s req d = join_with_code now uid code d).
  { destruct Hreq as [(f & -> & _ & ->)|(l & -> & _ & ->)]; simpl.
    - unfold student_classroom_post, require_login, require_role.
      now rewrite Huid, Hrole.
    - unfold join_class_by_code. now rewrite Huid, Hrole. }
  rewrite E. clear E Hreq.
  destruct (find_classroom_by_code d code) as [c|] eqn:Hc.
  - destruct (join_with_code_effect now uid code d)
      as [[_ Hn]|(c1 & t & k & Hc1 & _ & Ed)]; [congruence|].
    rewrite Hc in Hc1. injection Hc1 as <-.
    assert (Hcin : In c (classrooms d))
      by (unfold find_classroom_by_code in Hc; now apply find_some in Hc).
    assert (Hsnd : snd (join_with_code now uid code d)
                   = redirect "student_classroom"
                       (Some "You joined the classroom!")).
    { unfold join_with_code. rewrite Hc.
      destruct (join_loop _ _ _ _ _ _). reflexivity. }
    assert (Hall : forall v c',
              In c' (joined_classrooms (fst (join_with_code now uid code d)) v)
              <-> In c' (joined_classrooms d v)
                  \/ (v = uid /\ In c' (classrooms d) /\ c_id c' = c_id c)).
    { intros v c'. rewrite Ed, !joined_classrooms_in. simpl.
      rewrite insert_or_ignore_member_has. tauto. }
    split; [exact Hsnd|]. split; [apply Hall; right; auto|].
    split; [exact Hall|].
    intros (cs & Hcs & E1 & E2). rewrite Ed. simpl.
    unfold insert_or_ignore_member.
    replace (existsb _ (classroom_students d)) with true; [reflexivity|].
    symmetry. apply existsb_exists. exists cs. split; [exact Hcs|].
    now rewrite E1, E2, !Z.eqb_refl.
  - unfold join_with_code. now rewrite Hc.
Qed.

Lemma join_lists_classroom_witness :
  map c_name (joined_classrooms demo_joined 2) = ["Room"]
  /\ In {| c_id := 1; c_teacher_id := 1; c_name := "Room"; c_code := "AB12CD" |}
        (joined_classrooms demo_joined 2)
  /\ handle demo_clock demo_student (StudentClassroomPost " zz99zz ") demo_db
     = (demo_db, redirect "student_classroom" (Some "Classroom code not found.")).
Proof.
  split; [reflexivity|]. split.
  - exact (proj1 (proj2 (@join_lists_classroom demo_clock demo_student
                           (JoinClassByCode "ab12cd") demo_db 2 "AB12CD"
                           eq_refl eq_refl
                           (or_intror (ex_intro _ "ab12cd"
                                         (conj eq_refl
                                            (conj eq_refl eq_refl))))))).
  - exact (@join_lists_classroom demo_clock demo_student
             (StudentClassroomPost " zz99zz ") demo_db 2 "ZZ99ZZ"
             eq_refl eq_refl
             (or_introl (ex_intro _ " zz99zz "
                           (conj eq_refl (conj eq_refl eq_refl))))).
Defined.

Lemma nodup_snoc_length (x : Z) (l : list Z) :
  ~ In x l ->
  List.length (nodup Z.eq_dec (l ++ [x])) = S (List.length (nodup Z.eq_dec l)).
Proof.
  induction l as [|a l IH]; intros Hx; simpl; [reflexivity|].
  assert (Hxl : ~ In x l) by (intros H; apply Hx; now right).
  assert (Hax : a <> x) by (intros H; apply Hx; now left).
  destruct (in_dec Z.eq_dec a (l ++ [x])) as [H1|H1];
    destruct (in_dec Z.eq_dec a l) as [H2|H2]; simpl.
  - now apply IH.
  - exfalso. apply in_app_or in H1. destruct H1 as [H1|[H1|[]]]; auto.
  - exfalso. apply H1. apply in_or_app. now left.
  - f_equal. now apply IH.
Qed.

Lemma get_student_progress_app (d d' : db) (rows : list progress_row)
    (uid : Z) (lang : string) :
  progress d' = progress d ++ rows ->
  get_student_progress d' uid lang
  = get_student_progress d uid lang
    ++ map p_lesson_id
         (filter (fun p => (p_student_id p =? uid)
                           && String.eqb (p_lesson_lang p) lang) rows).
Proof.
  intros E. unfold get_student_progress. now rewrite E, filter_app, map_app.
Qed.

Lemma existsb_Zeqb_In (x : Z) (l : list Z) :
  existsb (Z.eqb x) l = true <-> In x l.
Proof.
  rewrite existsb_exists. split.
  - intros (y & Hy & E). apply Z.eqb_eq in E. now subst.
  - intros H. exists x. split; [exact H | apply Z.eqb_refl].
Qed.



Lemma NoDup_map_finer (A B C : Type) (f : A -> B) (g : A -> C) (l : list A) :
  (forall x y, In x l -> In y l -> g x = g y -> f x = f y) ->
  NoDup (map f l) -> NoDup (map g l).
Proof.
  induction l as [|x l IH]; simpl; intros Hfg H; [constructor|].
  inversion H as [|? ? Hx Hl]; subst. constructor.
  - intros Hin. apply Hx. apply in_map_iff in Hin.
    destruct Hin as (y & Hy & Hyl). apply in_map_iff. exists y.
    split; [|exact Hyl]. apply Hfg; auto.
  - apply IH; [|exact Hl]. intros a b Ha Hb. apply Hfg; auto.
Qed.

Lemma students_of_NoDup (d : db) (cid : Z) :
  member_keys d -> NoDup (students_of d cid).
Proof.
  intros H. unfold students_of.
  apply (@NoDup_map_finer _ _ _
           (fun cs => (cs_classroom_id cs, cs_student_id cs)) cs_student_id).
  - intros x y Hx Hy E. apply filter_In in Hx. apply filter_In in Hy.
    destruct Hx as [_ Hx]. destruct Hy as [_ Hy].
    apply Z.eqb_eq in Hx. apply Z.eqb_eq in Hy. congruence.
  - now apply NoDup_map_filter.
Qed.

Lemma passed_lesson_has (d : db) (v : Z) (lang : string) (lid : Z) :
  passed_lesson d v lang lid = true <-> has_progress d v lang lid.
Proof.
  unfold passed_lesson. now rewrite existsb_Zeqb_In, get_student_progress_in.
Qed.

Lemma status_eqb_completed (st : sub_status) :
  status_eqb st completed = true <-> st = completed.
Proof. destruct st; simpl; split; congruence. Qed.

(** X16. On a consistent database the grading summary of the teacher's
    classroom page counts the class: for every assignment of the classroom,
    [total_subs] is the number of members of the classroom and
    [completed_count] the number of members who passed the lesson. *)
Theorem summary_counts_members (d : db) (cid : Z) (row : summary_row) :
  consistent d -> member_keys d ->
  In row (grading_summary d cid) ->
  In (sr_assignment row) (assignments d)
  /\ a_classroom_id (sr_assignment row) = cid
  /\ sr_total_subs row = Z.of_nat (List.length (students_of d cid))
  /\ sr_completed_count row
     = Z.of_nat (List.length
                   (filter (fun v => passed_lesson d v
                                       (a_lesson_lang (sr_assignment row))
                                       (a_lesson_id (sr_assignment row)))
                      (students_of d cid))).
Proof.
  intros [W D S C] HM Hrow. unfold grading_summary in Hrow.
  apply sort_desc_in in Hrow. apply in_map_iff in Hrow.
  destruct Hrow as (a & <- & Ha). apply filter_In in Ha.
  destruct Ha as [Ha Hcid]. apply Z.eqb_eq in Hcid.
  cbn [summary_of sr_assignment sr_total_subs sr_completed_count].
  set (subs := filter (fun s => s_assignment_id s =? a_id a)
                 (assignment_submissions d)).
  assert (Hsubs : forall s, In s subs
            <-> In s (assignment_submissions d) /\ s_assignment_id s = a_id a)
    by (intros s; unfold subs; now rewrite filter_In, Z.eqb_eq).
  assert (Hnd : NoDup (map s_student_id subs)).
  { apply (@NoDup_map_finer _ _ _ sub_key s_student_id).
    - intros x y Hx Hy E. apply Hsubs in Hx. apply Hsubs in Hy.
      unfold sub_key. destruct Hx as [_ ->]. destruct Hy as [_ ->].
      now rewrite E.
    - unfold subs. apply NoDup_map_filter. apply W. }
  assert (Hmem : forall s, In s subs -> In (s_student_id s) (students_of d cid)).
  { intros s Hs. apply Hsubs in Hs. destruct Hs as [Hs Hid].
    destruct (wf_sub_refs W s Hs) as (a0 & cs & Ha0 & Hid0 & Hcs & Hcc & Hcu).
    assert (a0 = a)
      by (apply (@NoDup_map_inj _ _ a_id (assignments d));
          [apply W | | | congruence]; auto).
    subst a0. apply students_of_in. exists cs. repeat split; congruence. }
  assert (Hcov : forall v, In v (students_of d cid) ->
            exists s, In s subs /\ s_student_id s = v).
  { intros v Hv. apply students_of_in in Hv.
    destruct Hv as (cs & Hcs & Hcc & Hcu).
    assert (E : cs_classroom_id cs = a_classroom_id a) by congruence.
    pose proof (C a cs Ha Hcs E) as Hex. apply existsb_exists in Hex.
    destruct Hex as (s & Hs & Hk). apply sub_key_eqb_true in Hk.
    exists s. split; [apply Hsubs; tauto | destruct Hk; congruence]. }
  assert (Hst : forall s, In s subs ->
            (status_eqb (s_status s) completed = true
             <-> passed_lesson d (s_student_id s) (a_lesson_lang a)
                   (a_lesson_id a) = true)).
  { intros s Hs. apply Hsubs in Hs. destruct Hs as [Hs Hid].
    rewrite status_eqb_completed, passed_lesson_has.
    apply (D s a Hs Ha). congruence. }
  split; [exact Ha|]. split; [exact Hcid|]. split.
  - f_equal. rewrite <- (length_map s_student_id subs).
    apply Permutation_length.
    apply NoDup_Permutation; [exact Hnd | now apply students_of_NoDup|].
    intros v. rewrite in_map_iff. split.
    + intros (s & <- & Hs). now apply Hmem.
    + intros Hv. destruct (Hcov v Hv) as (s & Hs & E). eauto.
  - f_equal.
    rewrite <- (length_map s_student_id
                  (filter (fun s => status_eqb (s_status s) completed) subs)).
    apply Permutation_length.
    apply NoDup_Permutation.
    + now apply NoDup_map_filter.
    + apply NoDup_filter. now apply students_of_NoDup.
    + intros v. rewrite in_map_iff, filter_In. split.
      * intros (s & <- & Hs). apply filter_In in Hs. destruct Hs as [Hs Hc].
        split; [now apply Hmem | now apply Hst].
      * intros [Hv Hp]. destruct (Hcov v Hv) as (s & Hs & <-).
        exists s. split; [reflexivity|]. apply filter_In.
        split; [exact Hs | now apply Hst].
Qed.

Lemma summary_counts_members_witness :
  map (fun r => (sr_total_subs r, sr_completed_count r))
      (grading_summary demo_assigned 1) = [(2, 0)]
  /\ forall row, In row (grading_summary demo_assigned 1) ->
       sr_total_subs row = Z.of_nat (List.length (students_of demo_assigned 1)).
Proof.
  split; [reflexivity|]. intros row Hrow.
  apply (@summary_counts_members demo_assigned 1 row demo_assigned_consistent);
    [|exact Hrow].
  vm_compute. repeat constructor; simpl; intuition congruence.
Defined.

(** X17. The teacher's stream of a classroom holds whatever a student sees
    of that classroom: every row of a student's feed that belongs to the
    classroom is a row of the teacher's query, and, the classroom having at
    most thirty rows, of the stream the teacher's page shows. *)
Theorem teacher_stream_covers_feeds (d : db) (cid v : Z) (row : feed_row) :
  In row (student_feed d v) ->
  sp_classroom_id (fr_post row) = cid ->
  In row (teacher_stream_rows d cid)
  /\ ((List.length (teacher_stream_rows d cid) <= feed_limit)%nat ->
      In row (get_stream_posts_for_teacher d cid)).
Proof.
  intros Hrow Hcid.
  assert (Hin : In row (teacher_stream_rows d cid)).
  { unfold student_feed, get_stream_posts_for_student in Hrow.
    destruct (map c_id (joined_classrooms d v)) as [|c0 cids] eqn:Hids;
      [destruct Hrow|].
    apply in_firstn in Hrow. apply sort_desc_in in Hrow.
    unfold stream_rows in Hrow. unfold teacher_stream_rows.
    apply in_flat_map in Hrow. destruct Hrow as (p & Hp & Hrow).
    apply in_flat_map in Hrow. destruct Hrow as (u & Hu & Hrow).
    apply in_flat_map in Hrow. destruct Hrow as (c & Hc & Hrow).
    destruct ((u_id u =? sp_author_id p) && (c_id c =? sp_classroom_id p)
              && visible_to (c0 :: cids) v p) eqn:E; [|destruct Hrow].
    destruct Hrow as [<-|[]]. simpl in Hcid.
    apply andb_true_iff in E. destruct E as [E _].
    apply in_flat_map. exists p. split; [exact Hp|].
    apply in_flat_map. exists u. split; [exact Hu|].
    apply in_flat_map. exists c. split; [exact Hc|].
    rewrite E, Hcid, Z.eqb_refl. now left. }
  split; [exact Hin|]. intros Hlen.
  unfold get_stream_posts_for_teacher. rewrite firstn_all2.
  - now apply sort_desc_in.
  - rewrite (Permutation_length (sort_desc_perm _ _)). exact Hlen.
Qed.

Lemma teacher_stream_covers_feeds_witness :
  map (fun r => sp_kind (fr_post r)) (get_stream_posts_for_teacher demo_graded 1)
  = [kind_grade; kind_assignment]
  /\ forall row, In row (student_feed demo_graded 3) ->
       In row (get_stream_posts_for_teacher demo_graded 1).
Proof.
  split; [reflexivity|]. intros row Hrow.
  assert (Hcid : sp_classroom_id (fr_post row) = 1)
    by (vm_compute in Hrow; destruct Hrow as [<-|[]]; reflexivity).
  apply (proj2 (@teacher_stream_covers_feeds demo_graded 1 3 row Hrow Hcid)).
  vm_compute. lia.
Defined.

(** X18. Only the teacher who owns a classroom writes to it through the
    classroom routes: for any other session, deleting the classroom, posting
    an announcement to it and creating an assignment in it leave the
    database as it was; so does an announcement whose message is blank. *)
Theorem only_owner_writes_classroom (now : clock) (s : session) (cid : Z)
    (key : string) (due : option string) (comment message : string) (d : db) :
  ((forall tid, sess_user_id s = Some tid -> role_is s "Teacher" = true ->
      find_owned_classroom d cid tid = None) ->
   fst (teacher_delete_classroom s cid d) = d
   /\ fst (teacher_post_announcement now s cid message d) = d
   /\ fst (teacher_create_assignment now s cid key due comment d) = d)
  /\ (nonempty (strip message) = false ->
      fst (teacher_post_announcement now s cid message d) = d).
Proof.
  split.
  - intros H. split; [|split].
    + unfold teacher_delete_classroom, require_login, require_role.
      destruct (sess_user_id s) as [tid|] eqn:Hs; [|reflexivity].
      destruct (role_is s "Teacher") eqn:Hr; [|reflexivity].
      now rewrite (H tid eq_refl eq_refl).
    + unfold teacher_post_announcement, require_login, require_role.
      destruct (sess_user_id s) as [tid|] eqn:Hs; [|reflexivity].
      destruct (role_is s "Teacher") eqn:Hr; [|reflexivity].
      destruct (negb (nonempty (strip message))); [reflexivity|].
      now rewrite (H tid eq_refl eq_refl).
    + unfold teacher_create_assignment, require_login, require_role.
      destruct (sess_user_id s) as [tid|] eqn:Hs; [|reflexivity].
      destruct (role_is s "Teacher") eqn:Hr; [|reflexivity].
      destruct (parse_lesson_key key) as [[lang lid]|e]; [|reflexivity].
      now rewrite (H tid eq_refl eq_refl).
  - intros Hm. unfold teacher_post_announcement, require_login, require_role.
    destruct (sess_user_id s) as [tid|]; [|reflexivity].
    destruct (role_is s "Teacher"); [|reflexivity].
    now rewrite Hm.
Qed.

Lemma only_owner_writes_classroom_witness :
  fst (teacher_delete_classroom
         {| sess_user_id := Some 7; sess_role := Some "Teacher" |} 1
         demo_graded) = demo_graded
  /\ fst (teacher_post_announcement demo_clock demo_teacher 1 "   "
            demo_graded) = demo_graded.
Proof.
  pose proof (@only_owner_writes_classroom demo_clock
                {| sess_user_id := Some 7; sess_role := Some "Teacher" |} 1
                "python:3" None "" "Hello" demo_graded) as [H _].
  pose proof (@only_owner_writes_classroom demo_clock demo_teacher 1
                "python:3" None "" "   " demo_graded) as [_ H'].
  split.
  - apply H. intros tid Hs _. injection Hs as <-. reflexivity.
  - apply H'. reflexivity.
Defined.
